(** * Verification of the accounting agent's core: normaliser and cash-flow
      parser, ratio and fraud engines, consensus grade extractor, context
      cache, intent classifier and the answers of the conversation handler.

    The Python sources are [core_agent_engine.py] (class
    [AdvancedAuditAgent]) and [conversation_handler.py] (class
    [SmartConversationHandler]).  Every definition below that carries the
    name of a Python function is a transcription of that function; the
    [print] calls, which do not influence any returned value, are left out. *)

From Stdlib Require Import ZArith Ascii String SpecFloat.
From stdpp Require Import base gmap strings pretty list fin_maps.

Local Open Scope string_scope.
Local Open Scope list_scope.
Local Open Scope Z_scope.

(** * Python strings

    A Python [str] is modelled by the Rocq [string] that holds its UTF-8
    encoding.  Equality of texts is equality of encodings, and since UTF-8 is
    self-synchronising, [needle in haystack] on code points coincides with the
    byte-level substring test below. *)

Module PyStr.

(** [needle in haystack] *)
Fixpoint str_in (needle haystack : string) : bool :=
  String.prefix needle haystack ||
  match haystack with
  | EmptyString => false
  | String _ rest => str_in needle rest
  end.

Definition is_ascii_upper (c : ascii) : bool :=
  let n := N_of_ascii c in ((65 <=? n) && (n <=? 90))%N.

Definition is_ascii_lower (c : ascii) : bool :=
  let n := N_of_ascii c in ((97 <=? n) && (n <=? 122))%N.

Definition lower_char (c : ascii) : ascii :=
  if is_ascii_upper c then ascii_of_N (N_of_ascii c + 32) else c.

Definition upper_char (c : ascii) : ascii :=
  if is_ascii_lower c then ascii_of_N (N_of_ascii c - 32) else c.

Fixpoint map_chars (f : ascii -> ascii) (s : string) : string :=
  match s with
  | EmptyString => EmptyString
  | String c rest => String (f c) (map_chars f rest)
  end.

(** [s.lower()].  The letters A-Z are folded to a-z.  Bytes of non-ASCII code
    points are kept: Hangul has no case, and the only cased non-ASCII code
    points whose Python lower-casing yields ASCII (U+0130, U+212A) yield
    letters that cannot complete any keyword of the classifier. *)
Definition lower (s : string) : string := map_chars lower_char s.

(** [s.upper()], on the same terms. *)
Definition upper (s : string) : string := map_chars upper_char s.

(** Occurrence of a byte in a text. *)
Fixpoint has_char (c : ascii) (s : string) : bool :=
  match s with
  | EmptyString => false
  | String d rest => Ascii.eqb c d || has_char c rest
  end.

(** One white-space code point at the head of [s], in its UTF-8 encoding,
    and the text after it.  These are the code points for which Python's
    [str.isspace] holds: U+0009-000D, U+001C-0020, U+0085, U+00A0, U+1680,
    U+2000-200A, U+2028, U+2029, U+202F, U+205F and U+3000. *)
Definition ws_prefix (s : string) : option string :=
  match s with
  | EmptyString => None
  | String c1 r1 =>
      let b1 := N_of_ascii c1 in
      if ((9 <=? b1) && (b1 <=? 13) || (28 <=? b1) && (b1 <=? 32))%N then Some r1
      else
        match r1 with
        | EmptyString => None
        | String c2 r2 =>
            let b2 := N_of_ascii c2 in
            if ((b1 =? 194) && ((b2 =? 133) || (b2 =? 160)))%N then Some r2
            else
              match r2 with
              | EmptyString => None
              | String c3 r3 =>
                  let b3 := N_of_ascii c3 in
                  if ((b1 =? 225) && (b2 =? 154) && (b3 =? 128)
                      || (b1 =? 226) && (b2 =? 128)
                         && ((128 <=? b3) && (b3 <=? 138) || (b3 =? 168)
                             || (b3 =? 169) || (b3 =? 175))
                      || (b1 =? 226) && (b2 =? 129) && (b3 =? 159)
                      || (b1 =? 227) && (b2 =? 128) && (b3 =? 128))%N
                  then Some r3 else None
              end
        end
  end.

Fixpoint lstrip_fuel (fuel : nat) (s : string) : string :=
  match fuel with
  | O => s
  | S fuel' =>
      match ws_prefix s with
      | Some rest => lstrip_fuel fuel' rest
      | None => s
      end
  end.

(** [s.lstrip()]: every step consumes at least one byte, so [String.length s]
    steps are enough. *)
Definition lstrip (s : string) : string := lstrip_fuel (String.length s) s.

(** [s.rstrip()]: the longest suffix made of white space is dropped. *)
Fixpoint rstrip (s : string) : string :=
  match s with
  | EmptyString => EmptyString
  | String c rest =>
      if String.eqb (lstrip s) EmptyString then EmptyString
      else String c (rstrip rest)
  end.

(** [s.strip()] *)
Definition strip (s : string) : string := rstrip (lstrip s).

(** [s.replace(c, '')] for a one-character [c]. *)
Fixpoint remove_char (c : ascii) (s : string) : string :=
  match s with
  | EmptyString => EmptyString
  | String d rest =>
      if Ascii.eqb c d then remove_char c rest else String d (remove_char c rest)
  end.

(** Whether the closing delimiter is met in [s] before a line feed, which the
    regular expression's [.] does not match. *)
Fixpoint closes_before_newline (close : ascii) (s : string) : bool :=
  match s with
  | EmptyString => false
  | String c rest =>
      if Ascii.eqb c close then true
      else if Ascii.eqb c "010"%char then false
      else closes_before_newline close rest
  end.

(** [re.sub(open .*? close, '', s)] for one-character delimiters: scanning
    from the left, an opening delimiter that is closed on the same line is
    removed together with everything up to the first closing delimiter. *)
Fixpoint re_sub_delimited (open close : ascii) (skipping : bool) (s : string) : string :=
  match s with
  | EmptyString => EmptyString
  | String c rest =>
      if skipping then
        re_sub_delimited open close (negb (Ascii.eqb c close)) rest
      else if Ascii.eqb c open && closes_before_newline close rest then
        re_sub_delimited open close true rest
      else String c (re_sub_delimited open close false rest)
  end.

End PyStr.

Import PyStr.

(** * Intent classifier ([conversation_handler.py]) *)

(** [_initialize_query_patterns]: the dictionary literal, in insertion order
    (the order in which Python iterates over it). *)
Definition _initialize_query_patterns : list (string * list string) :=
  [ ("full_analysis",
      ["결산"; "감사"; "분석해줘"; "검토해줘"; "분석하자"; "결산처리";
       "전체분석"; "종합분석"; "완전분석"]);
    ("ratio_query",
      ["비율"; "ratio"; "ROE"; "ROA"; "부채비율"; "유동비율"; "영업이익률";
       "순이익률"; "자기자본비율"; "매출성장률"; "회전율"]);
    ("fraud_query",
      ["부정"; "이상"; "특이"; "위험"; "fraud"; "의심"; "문제";
       "조작"; "부정회계"; "회계조작"]);
    ("comparison_query",
      ["비교"; "대비"; "vs"; "차이"; "compared"; "업계평균"; "경쟁사";
       "작년"; "전년"; "동종업계"]);
    ("visualization_query",
      ["그래프"; "차트"; "시각화"; "graph"; "chart"; "plot"; "보여줘";
       "그림"; "도표"; "막대그래프"; "선그래프"]);
    ("explanation_query",
      ["설명"; "이유"; "왜"; "어떻게"; "explain"; "why"; "how";
       "자세히"; "구체적으로"; "detail"]);
    ("data_source_query",
      ["언제"; "몇년"; "년도"; "데이터"; "자료"; "출처"; "source";
       "기준"; "시점"; "when"]);
    ("report_query",
      ["보고서"; "문서"; "정리"; "요약"; "report"; "document";
       "파일"; "저장"; "다운로드"; "출력"; "내보내기"; "export";
       "워드"; "엑셀"; "pdf"; "docx"; "xlsx"; "word"; "excel"]) ].

(** [sum(1 for keyword in keywords if keyword in user_input_lower)] *)
Fixpoint keyword_score (keywords : list string) (user_input_lower : string) : nat :=
  match keywords with
  | [] => 0%nat
  | keyword :: rest =>
      ((if str_in keyword user_input_lower then 1 else 0)
       + keyword_score rest user_input_lower)%nat
  end.

(** The loop that fills [scores]: a category is entered only when its score
    is positive.  The dictionary is kept as an association list in insertion
    order, which is the order [scores.keys()] is iterated in. *)
Fixpoint build_scores (patterns : list (string * list string))
    (user_input_lower : string) : list (string * nat) :=
  match patterns with
  | [] => []
  | (query_type, keywords) :: rest =>
      let score := keyword_score keywords user_input_lower in
      if (0 <? score)%nat
      then (query_type, score) :: build_scores rest user_input_lower
      else build_scores rest user_input_lower
  end.

(** [scores[x]] *)
Fixpoint dict_item (scores : list (string * nat)) (x : string) : nat :=
  match scores with
  | [] => 0%nat
  | (k, v) :: rest => if String.eqb k x then v else dict_item rest x
  end.

(** Python's [max(iterable, key=f)] on a non-empty iterable: the running
    maximum is replaced only by a strictly greater key, so the first of
    several maximal elements is returned. *)
Fixpoint py_max_from {A} (key : A -> nat) (best : A) (rest : list A) : A :=
  match rest with
  | [] => best
  | x :: rest' =>
      if (key best <? key x)%nat then py_max_from key x rest'
      else py_max_from key best rest'
  end.

Definition classify_with (patterns : list (string * list string))
    (user_input : string) : string :=
  let user_input_lower := lower user_input in
  let scores := build_scores patterns user_input_lower in
  match scores.*1 with
  | first :: others => py_max_from (dict_item scores) first others
  | [] => "general_query"
  end.

(** [_classify_query_type], with [self.query_patterns] as set by [__init__]. *)
Definition _classify_query_type (user_input : string) : string :=
  classify_with _initialize_query_patterns user_input.

(** * Consensus grade extractor ([core_agent_engine.py]) *)

Definition grades : list string := ["S"; "A"; "B"; "C"; "D"].

(** The condition of the [if] inside the loop, tested on [consensus]. *)
Definition grade_test (grade consensus : string) : bool :=
  str_in (grade +:+ "등급") consensus
  || str_in ("등급 " +:+ grade) consensus
  || str_in ("등급:" +:+ grade) consensus.

Fixpoint grade_loop (gs : list string) (consensus : string) : string :=
  match gs with
  | [] => "B"
  | grade :: rest =>
      if grade_test grade consensus then grade else grade_loop rest consensus
  end.

(** [_extract_grade_from_consensus]: [consensus_upper] is computed and never
    read. *)
Definition _extract_grade_from_consensus (consensus : string) : string :=
  let consensus_upper := upper consensus in
  grade_loop grades consensus.

(** * Python numbers

    Python's [int] is [Z].  Python's [float] is an IEEE 754 binary64 value,
    taken from the Standard Library's [spec_float] ([prec = 53],
    [emax = 1024]). *)

Module PyNum.

Inductive py_exn : Set := ZeroDivisionError | OverflowError | ValueError.

Inductive result (A : Type) : Type :=
  | Ok (a : A)
  | Raise (e : py_exn).
Global Arguments Ok {A} a.
Global Arguments Raise {A} e.

Global Instance result_ret : MRet result := fun A a => Ok a.

Global Instance result_bind : MBind result := fun A B k r =>
  match r with
  | Ok a => k a
  | Raise e => Raise e
  end.

Definition float_prec : Z := 53.
Definition float_emax : Z := 1024.

(** The largest finite binary64 value, [(2^53 - 1) * 2^971], as an integer. *)
Definition max_float_int : Z := (2 ^ 53 - 1) * 2 ^ 971.

(** Exponent of the binary64 unit in the last place of the positive rational
    [x / y]: with [L = floor (log2 (x / y))] it is [L - 52], and no less than
    the subnormal exponent [-1074]. *)
Definition quotient_exponent (x y : Z) : Z :=
  let d := Z.log2 x - Z.log2 y in
  let L := if y * 2 ^ Z.max d 0 <=? x * 2 ^ Z.max (- d) 0 then d else d - 1 in
  Z.max (L - 52) (-1074).

(** [num / den] rounded to the nearest integer, ties to even. *)
Definition round_half_even (num den : Z) : Z :=
  let q := num / den in
  let r := num mod den in
  match 2 * r ?= den with
  | Lt => q
  | Gt => q + 1
  | Eq => if Z.even q then q else q + 1
  end.

(** Mantissa and exponent of [x / y] rounded to binary64, for [0 < x] and
    [0 < y]; the exponent is not yet checked against the overflow bound. *)
Definition round_ratio (x y : Z) : Z * Z :=
  let e := quotient_exponent x y in
  let m := round_half_even (x * 2 ^ Z.max (- e) 0) (y * 2 ^ Z.max e 0) in
  if m =? 2 ^ 53 then (2 ^ 52, e + 1) else (m, e).

(** The float nearest to [± x / y] ([0 <= x], [0 < y]).  A quotient that
    rounds to zero keeps its sign; one that rounds beyond the largest finite
    float raises [OverflowError]. *)
Definition float_of_ratio (negative : bool) (x y : Z) : result spec_float :=
  if x =? 0 then Ok (S754_zero negative)
  else
    let '(m, e) := round_ratio x y in
    match m with
    | Zpos p =>
        if e <=? float_emax - float_prec then Ok (S754_finite negative p e)
        else Raise OverflowError
    | _ => Ok (S754_zero negative)
    end.

(** [a / b] on two [int]s: the correctly rounded quotient. *)
Definition int_truediv (a b : Z) : result spec_float :=
  if b =? 0 then Raise ZeroDivisionError
  else float_of_ratio (xorb (a <? 0) (b <? 0)) (Z.abs a) (Z.abs b).

(** [float(z)] for an [int] [z]. *)
Definition float_of_int (z : Z) : result spec_float :=
  float_of_ratio (z <? 0) (Z.abs z) 1.

(** [int(f)] for a [float] [f]: truncation towards zero. *)
Definition int_of_float (f : spec_float) : result Z :=
  match f with
  | S754_zero _ => Ok 0
  | S754_finite s m e =>
      Ok (cond_Zopp s (if 0 <=? e then Zpos m * 2 ^ e else Zpos m / 2 ^ (- e)))
  | S754_infinity _ => Raise OverflowError
  | S754_nan => Raise ValueError
  end.

(** The values that occur in the ratio and indicator dictionaries. *)
Inductive pyval : Set :=
  | PyInt (z : Z)
  | PyFloat (f : spec_float)
  | PyBool (b : bool).

(** The numeric reading of a value ([bool] is a subclass of [int]). *)
Definition int_of_bool (b : bool) : Z := if b then 1 else 0.

(** Exact comparison of an [int] with a [float]; [None] for NaN. *)
Definition compare_int_float (z : Z) (f : spec_float) : option comparison :=
  match f with
  | S754_nan => None
  | S754_infinity s => Some (if s then Gt else Lt)
  | S754_zero _ => Some (z ?= 0)
  | S754_finite s m e =>
      Some (if 0 <=? e then z ?= cond_Zopp s (Zpos m) * 2 ^ e
            else z * 2 ^ (- e) ?= cond_Zopp s (Zpos m))
  end.

(** [a < b] *)
Definition py_lt (a b : pyval) : bool :=
  let as_num v := match v with
                  | PyInt z => inl z
                  | PyBool b => inl (int_of_bool b)
                  | PyFloat f => inr f
                  end in
  match as_num a, as_num b with
  | inl x, inl y => x <? y
  | inr f, inr g => SFltb f g
  | inl x, inr g =>
      match compare_int_float x g with Some Lt => true | _ => false end
  | inr f, inl y =>
      match compare_int_float y f with Some Gt => true | _ => false end
  end.

(** [a > b] *)
Definition py_gt (a b : pyval) : bool := py_lt b a.

(** Truth value of [v] in a condition. *)
Definition py_truthy (v : pyval) : bool :=
  match v with
  | PyInt z => negb (z =? 0)
  | PyBool b => b
  | PyFloat (S754_zero _) => false
  | PyFloat _ => true
  end.

(** [v * n] for an [int] literal [n]. *)
Definition py_mul_int (v : pyval) (n : Z) : result pyval :=
  match v with
  | PyInt z => Ok (PyInt (z * n))
  | PyBool b => Ok (PyInt (int_of_bool b * n))
  | PyFloat f =>
      g ← float_of_int n;
      Ok (PyFloat (SFmul float_prec float_emax f g))
  end.

(** The literal [0.5]. *)
Definition float_half : spec_float := S754_finite false 4503599627370496 (-53).

End PyNum.

Import PyNum.

(** * Canonical data normaliser ([core_agent_engine.py]) *)

(** [d.get(key, default)] *)
Definition dict_get {V} (d : gmap string V) (key : string) (default : V) : V :=
  match d !! key with
  | Some v => v
  | None => default
  end.

(** [target_accounts], in insertion order. *)
Definition target_accounts : list (string * string) :=
  [ ("현금및현금성자산", "cash_and_equivalents");
    ("매출채권", "accounts_receivable");
    ("재고자산", "inventory");
    ("매출총이익", "gross_profit");
    ("매출액", "revenue");
    ("수익(매출액)", "revenue");
    ("영업수익", "revenue");
    ("매출", "revenue");
    ("수익", "revenue");
    ("영업이익", "operating_income");
    ("영업이익(손실)", "operating_income");
    ("영업손익", "operating_income");
    ("당기순이익", "net_income");
    ("당기순이익(손실)", "net_income");
    ("연결당기순이익", "net_income");
    ("순이익", "net_income");
    ("당기순손익", "net_income");
    ("지배기업소유주지분당기순이익", "net_income");
    ("지배기업소유주지분당기순손익", "net_income");
    ("자산총계", "total_assets");
    ("총자산", "total_assets");
    ("부채총계", "total_liabilities");
    ("총부채", "total_liabilities");
    ("자본총계", "total_equity");
    ("자기자본", "total_equity");
    ("연결자본총계", "total_equity");
    ("총자본", "total_equity");
    ("지배기업소유주지분", "total_equity") ].

(** The canonical fields: the keys the table can bind. *)
Definition canonical_fields : list string :=
  [ "cash_and_equivalents"; "accounts_receivable"; "inventory"; "gross_profit";
    "revenue"; "operating_income"; "net_income"; "total_assets";
    "total_liabilities"; "total_equity" ].

(** The statement sections kept by the filter. *)
Definition relevant_sections : list string :=
  ["손익계산서"; "재무상태표"; "포괄손익계산서"].

(** The two tests of the matching loop. *)
Definition exact_match (account_nm_cleaned target_name : string) : bool :=
  String.eqb account_nm_cleaned target_name.

Definition partial_match (account_nm_cleaned target_name : string) : bool :=
  str_in target_name account_nm_cleaned || str_in account_nm_cleaned target_name.

(** [key not in financial_data or financial_data[key] == 0] *)
Definition unbound_or_zero (financial_data : gmap string Z) (key : string) : bool :=
  match financial_data !! key with
  | None => true
  | Some v => v =? 0
  end.

(** Whether a table entry takes a line item: the amount is not zero and the
    entry equals the label, or matches it partially while its field is
    unbound or zero.  (Used in the statements; the loop below is written as
    in the source.) *)
Definition entry_takes (financial_data : gmap string Z) (account_nm_cleaned : string)
    (amount : Z) (entry : string * string) : bool :=
  negb (amount =? 0)
  && (exact_match account_nm_cleaned entry.1
      || partial_match account_nm_cleaned entry.1
         && unbound_or_zero financial_data entry.2).

(** The loop [for target_name, key in target_accounts.items()] for one line
    item.  Returning the updated dictionary is the loop's [break]. *)
Fixpoint match_accounts (targets : list (string * string))
    (account_nm_cleaned : string) (amount : Z)
    (financial_data : gmap string Z) : gmap string Z :=
  match targets with
  | [] => financial_data
  | (target_name, key) :: rest =>
      if exact_match account_nm_cleaned target_name then
        if negb (amount =? 0) then <[key := amount]> financial_data
        else match_accounts rest account_nm_cleaned amount financial_data
      else if partial_match account_nm_cleaned target_name then
        if unbound_or_zero financial_data key && negb (amount =? 0)
        then <[key := amount]> financial_data
        else match_accounts rest account_nm_cleaned amount financial_data
      else match_accounts rest account_nm_cleaned amount financial_data
  end.

(** The label of a line item after the two [re.sub] calls. *)
Definition clean_account_nm (item : gmap string string) : string :=
  let account_nm := strip (dict_get item "account_nm" "") in
  let account_nm_cleaned := strip (re_sub_delimited "[" "]" false account_nm) in
  strip (re_sub_delimited "(" ")" false account_nm_cleaned).

Definition is_relevant (item : gmap string string) : bool :=
  bool_decide (strip (dict_get item "sj_nm" "") ∈ relevant_sections).

Section Normalizer.

(** Python's built-in [float] on a [str]: the parsed number, or the
    [ValueError] it raises.  The normaliser is verified for any such
    function. *)
Variable py_float : string -> result spec_float.

(** The amount of a line item: [int(float(...))] under [try], with every
    exception turned into 0. *)
Definition parse_amount (item : gmap string string) : Z :=
  let current_amount := dict_get item "thstrm_amount" "0" in
  let current_amount := remove_char " " (remove_char "," current_amount) in
  if negb (String.eqb current_amount "")
     && negb (bool_decide (current_amount ∈ ["0"; ""; "-"; "nan"]))
  then
    match f ← py_float current_amount; int_of_float f with
    | Ok amount => amount
    | Raise _ => 0
    end
  else 0.

(** Body of the loop [for item in relevant_items]. *)
Definition process_item (financial_data : gmap string Z)
    (item : gmap string string) : gmap string Z :=
  match_accounts target_accounts (clean_account_nm item) (parse_amount item)
    financial_data.

Definition parse_financial_statements
    (financial_list : list (gmap string string)) : gmap string Z :=
  let relevant_items := filter (fun item => is_relevant item = true) financial_list in
  foldl process_item ∅ relevant_items.

(** Where the bindings of a record come from. *)
Definition bound_by (items : list (gmap string string))
    (financial_data : gmap string Z) : Prop :=
  forall key v,
    financial_data !! key = Some v ->
    v ≠ 0
    /\ exists item target,
         item ∈ items
         /\ is_relevant item = true
         /\ (target, key) ∈ target_accounts
         /\ (exact_match (clean_account_nm item) target = true
             \/ partial_match (clean_account_nm item) target = true)
         /\ v = parse_amount item.

End Normalizer.

(** A line item as the filing source delivers it. *)
Definition line_item (sj_nm account_nm thstrm_amount : string) : gmap string string :=
  <["sj_nm" := sj_nm]> (<["account_nm" := account_nm]>
    (<["thstrm_amount" := thstrm_amount]> ∅)).

(** ** An instance of [float] for plain decimal literals

    [float_of_decimal] reads an optional sign followed by digits with an
    optional decimal point (at least one digit in all), and raises
    [ValueError] on anything else.  On these literals it is Python's [float],
    which rounds the decimal value correctly.  Python's [float] accepts more
    (exponents, [inf] and [nan], underscores between digits, surrounding
    white space, non-ASCII digits); the instance is applied to plain literals
    only. *)

Definition digit_value (c : ascii) : option Z :=
  let n := N_of_ascii c in
  if ((48 <=? n) && (n <=? 57))%N then Some (Z.of_N n - 48) else None.

(** Reads the digits at the head of [s]: the number read so far, how many
    digits were read, and the remaining text. *)
Fixpoint read_digits (s : string) (acc : Z) (count : nat) : Z * nat * string :=
  match s with
  | EmptyString => (acc, count, s)
  | String c rest =>
      match digit_value c with
      | Some d => read_digits rest (10 * acc + d) (S count)
      | None => (acc, count, s)
      end
  end.

Definition float_of_unsigned_decimal (negative : bool) (s : string) : result spec_float :=
  let '(int_part, int_digits, rest) := read_digits s 0 0%nat in
  match rest with
  | EmptyString =>
      if (0 <? int_digits)%nat then float_of_ratio negative int_part 1
      else Raise ValueError
  | String "." frac =>
      let '(num, frac_digits, rest') := read_digits frac int_part 0%nat in
      match rest' with
      | EmptyString =>
          if (0 <? int_digits + frac_digits)%nat
          then float_of_ratio negative num (10 ^ Z.of_nat frac_digits)
          else Raise ValueError
      | _ => Raise ValueError
      end
  | _ => Raise ValueError
  end.

Definition float_of_decimal (s : string) : result spec_float :=
  match s with
  | String "-" rest => float_of_unsigned_decimal true rest
  | String "+" rest => float_of_unsigned_decimal false rest
  | _ => float_of_unsigned_decimal false s
  end.

(** * Ratio engine ([core_agent_engine.py]) *)

(** [safe_divide(a, b, default=0)], the helper local to
    [_calculate_basic_ratios]. *)
Definition safe_divide (a b : Z) (default : Z) : result pyval :=
  if negb (b =? 0) then f ← int_truediv a b; Ok (PyFloat f)
  else Ok (PyInt default).

(** [safe_divide(a, b) * 100] *)
Definition safe_percentage (a b : Z) : result pyval :=
  v ← safe_divide a b 0; py_mul_int v 100.

Definition _calculate_basic_ratios (financial_data : gmap string Z)
    (multi_year_data : option (gmap string (gmap string Z)))
    : result (gmap string pyval) :=
  let ratios : gmap string pyval := ∅ in
  let revenue := dict_get financial_data "revenue" 0 in
  let operating_income := dict_get financial_data "operating_income" 0 in
  let net_income := dict_get financial_data "net_income" 0 in
  let total_assets := dict_get financial_data "total_assets" 0 in
  let total_liabilities := dict_get financial_data "total_liabilities" 0 in
  let total_equity := dict_get financial_data "total_equity" 0 in
  v ← safe_percentage net_income total_equity;
  let ratios := <["ROE" := v]> ratios in
  v ← safe_percentage net_income total_assets;
  let ratios := <["ROA" := v]> ratios in
  v ← safe_percentage operating_income revenue;
  let ratios := <["영업이익률" := v]> ratios in
  v ← safe_percentage net_income revenue;
  let ratios := <["순이익률" := v]> ratios in
  v ← safe_percentage total_liabilities total_equity;
  let ratios := <["부채비율" := v]> ratios in
  v ← safe_percentage total_equity total_assets;
  let ratios := <["자기자본비율" := v]> ratios in
  match multi_year_data ≫= (fun years => years !! "2023") with
  | Some prev_data =>
      let prev_revenue := dict_get prev_data "revenue" 0 in
      let prev_net_income := dict_get prev_data "net_income" 0 in
      v ← safe_percentage (revenue - prev_revenue) prev_revenue;
      let ratios := <["매출성장률" := v]> ratios in
      v ← safe_percentage (net_income - prev_net_income) prev_net_income;
      let ratios := <["순이익성장률" := v]> ratios in
      Ok ratios
  | None => Ok ratios
  end.

(** * Fraud indicator engine ([core_agent_engine.py]) *)

Definition _calculate_fraud_risk_score (indicators : gmap string pyval) : Z :=
  let score := 0 in
  let cf_ni_ratio := dict_get indicators "현금흐름_대_순이익_비율" (PyInt 1) in
  let score := if py_lt cf_ni_ratio (PyFloat float_half) then score + 30 else score in
  let ar_ratio := dict_get indicators "매출채권_대_매출_비율" (PyInt 0) in
  let score := if py_gt ar_ratio (PyInt 25) then score + 25 else score in
  let score :=
    if py_truthy (dict_get indicators "순이익_양수_현금흐름_음수" (PyBool false))
    then score + 25 else score in
  Z.min score 100.

Definition _calculate_basic_fraud_indicators (financial_data cash_flow_data : gmap string Z)
    : result (gmap string pyval) :=
  let indicators : gmap string pyval := ∅ in
  let revenue := dict_get financial_data "revenue" 0 in
  let net_income := dict_get financial_data "net_income" 0 in
  let receivables := dict_get financial_data "accounts_receivable" 0 in
  let operating_cash_flow := dict_get cash_flow_data "operating_cash_flow" 0 in
  v ← (if negb (net_income =? 0)
       then f ← int_truediv operating_cash_flow net_income; Ok (PyFloat f)
       else Ok (PyInt 0));
  let indicators := <["현금흐름_대_순이익_비율" := v]> indicators in
  v ← (if negb (revenue =? 0)
       then f ← int_truediv receivables revenue; py_mul_int (PyFloat f) 100
       else Ok (PyInt 0));
  let indicators := <["매출채권_대_매출_비율" := v]> indicators in
  let indicators :=
    <["순이익_양수_현금흐름_음수" :=
        PyBool ((0 <? net_income) && (operating_cash_flow <? 0))]> indicators in
  let indicators :=
    <["종합_부정위험점수" := PyInt (_calculate_fraud_risk_score indicators)]> indicators in
  Ok indicators.

(** * Analysis context cache ([core_agent_engine.py]) *)

Module ContextCache.
Section Cache.

(** [V] is the type of the values held in an analysis dictionary,
    [empty_dict] the [{}] used as a default, and [L] the type of the entries
    of the discussion log. *)
Context {V L : Type} (empty_dict : V).

(** The dictionary stored per company.  A [datetime] is represented by its
    number of microseconds. *)
Record context : Type := {
  timestamp : Z;
  analysis_data : gmap string V;
  ratios : V;
  financial_data : V;
  cash_flow_data : V;
  a2a_discussion_log : list L
}.

(** The part of the engine object that the cache operations touch. *)
Record engine : Type := {
  conversation_memory : gmap string context;
  discussion_log : list L
}.

(** [timedelta(hours=hours)], in microseconds. *)
Definition timedelta_hours (hours : Z) : Z := hours * 3600000000.

(** [save_analysis_context]; [now] is the value of [datetime.now()]. *)
Definition save_analysis_context (now : Z) (company_name : string)
    (data : gmap string V) (self : engine) : engine :=
  {| conversation_memory :=
       <[company_name :=
           {| timestamp := now;
              analysis_data := data;
              ratios := dict_get data "ratios" empty_dict;
              financial_data := dict_get data "financial_data" empty_dict;
              cash_flow_data := dict_get data "cash_flow_data" empty_dict;
              a2a_discussion_log := discussion_log self |}]>
         (conversation_memory self);
     discussion_log := discussion_log self |}.

Definition get_analysis_context (self : engine) (company_name : string)
    : option context :=
  conversation_memory self !! company_name.

(** [clear_old_contexts(hours)]: the first loop collects the companies to
    remove, the second deletes them. *)
Definition clear_old_contexts (now : Z) (hours : Z) (self : engine) : engine :=
  let cutoff_time := now - timedelta_hours hours in
  let to_remove :=
    (filter (fun entry => timestamp entry.2 < cutoff_time)
            (map_to_list (conversation_memory self))).*1 in
  {| conversation_memory :=
       foldl (fun memory company => delete company memory)
             (conversation_memory self) to_remove;
     discussion_log := discussion_log self |}.

End Cache.
End ContextCache.

(** * Cash-flow parser ([core_agent_engine.py]) *)

(** [cash_flow_accounts], in insertion order. *)
Definition cash_flow_accounts : list (string * string) :=
  [ ("영업활동현금흐름", "operating_cash_flow");
    ("영업활동으로인한현금흐름", "operating_cash_flow");
    ("투자활동현금흐름", "investing_cash_flow");
    ("재무활동현금흐름", "financing_cash_flow") ].

(** The keys the table can bind. *)
Definition cash_flow_fields : list string :=
  ["operating_cash_flow"; "investing_cash_flow"; "financing_cash_flow"].

(** [s.lstrip(c)] for a one-character [c]. *)
Fixpoint lstrip_char (c : ascii) (s : string) : string :=
  match s with
  | EmptyString => EmptyString
  | String d rest => if Ascii.eqb d c then lstrip_char c rest else s
  end.

(** [item.get('sj_nm') == '현금흐름표']: the section name is compared as it
    is, without [strip]. *)
Definition is_cash_flow_item (item : gmap string string) : bool :=
  bool_decide (item !! "sj_nm" = Some "현금흐름표").

(** The loop [for target_name, key in cash_flow_accounts.items()] for one
    line item; the first entry whose name occurs in the label binds its
    field, whatever the amount. *)
Fixpoint match_cash_flow_accounts (targets : list (string * string))
    (account_nm : string) (amount : Z)
    (cash_flow_data : gmap string Z) : gmap string Z :=
  match targets with
  | [] => cash_flow_data
  | (target_name, key) :: rest =>
      if str_in target_name account_nm then <[key := amount]> cash_flow_data
      else match_cash_flow_accounts rest account_nm amount cash_flow_data
  end.

(** The field a line item is filed under: the key of the first table entry
    whose name occurs in the stripped label.  (Used in the statements.) *)
Definition cash_flow_key (item : gmap string string) : option string :=
  snd <$> List.find (fun entry : string * string =>
                       str_in entry.1 (strip (dict_get item "account_nm" "")))
                    cash_flow_accounts.

Section CashFlowParser.

(** Python's [str.isdigit] and its built-in [int] on a [str] (the number
    read, or the [ValueError] raised).  The parser is verified for any such
    functions. *)
Variable py_isdigit : string -> bool.
Variable py_int : string -> result Z.

(** The amount of a line item: [int(...)] when the text without its leading
    minus signs is made of digits, under [try], and 0 in every other case. *)
Definition parse_cash_amount (item : gmap string string) : Z :=
  let current_amount := remove_char "," (dict_get item "thstrm_amount" "0") in
  if py_isdigit (lstrip_char "-" current_amount) then
    match py_int current_amount with
    | Ok amount => amount
    | Raise _ => 0
    end
  else 0.

(** Body of the loop [for item in cf_items]. *)
Definition process_cash_flow_item (cash_flow_data : gmap string Z)
    (item : gmap string string) : gmap string Z :=
  let account_nm := strip (dict_get item "account_nm" "") in
  match_cash_flow_accounts cash_flow_accounts account_nm (parse_cash_amount item)
    cash_flow_data.

Definition parse_cash_flow_data
    (financial_list : list (gmap string string)) : gmap string Z :=
  let cf_items := filter (fun item => is_cash_flow_item item = true) financial_list in
  foldl process_cash_flow_item ∅ cf_items.

End CashFlowParser.

(** ** Instances of [isdigit] and [int] for ASCII literals

    [isdigit_ascii] holds of the non-empty texts made of the digits 0-9, and
    [int_of_ascii] reads an optional sign followed by such digits, raising
    [ValueError] on anything else.  On these texts they are Python's
    [str.isdigit] and [int] (which accept more: other Unicode digits,
    surrounding white space, underscores between digits); the instances are
    applied to plain literals only. *)

Definition isdigit_ascii (s : string) : bool :=
  let '(_, count, rest) := read_digits s 0 0%nat in
  (0 <? count)%nat && String.eqb rest "".

Definition int_of_unsigned_ascii (negative : bool) (s : string) : result Z :=
  let '(n, count, rest) := read_digits s 0 0%nat in
  if (0 <? count)%nat && String.eqb rest ""
  then Ok (if negative then - n else n)
  else Raise ValueError.

Definition int_of_ascii (s : string) : result Z :=
  match s with
  | String "-" rest => int_of_unsigned_ascii true rest
  | String "+" rest => int_of_unsigned_ascii false rest
  | _ => int_of_unsigned_ascii false s
  end.

(** * Risk level of the conversation handler ([conversation_handler.py]) *)

(** [a >= b] *)
Definition py_ge (a b : pyval) : bool :=
  let as_num v := match v with
                  | PyInt z => inl z
                  | PyBool b => inl (int_of_bool b)
                  | PyFloat f => inr f
                  end in
  match as_num a, as_num b with
  | inl x, inl y => y <=? x
  | inr f, inr g => SFleb g f
  | inl x, inr g =>
      match compare_int_float x g with Some Eq | Some Gt => true | _ => false end
  | inr f, inl y =>
      match compare_int_float y f with Some Eq | Some Lt => true | _ => false end
  end.

(** [_determine_fraud_risk_level]: only the score entry of [fraud_ratios] is
    read. *)
Definition _determine_fraud_risk_level (fraud_ratios : gmap string pyval) : string :=
  let risk_score := dict_get fraud_ratios "종합_부정위험점수" (PyInt 0) in
  if py_ge risk_score (PyInt 70) then "HIGH"
  else if py_ge risk_score (PyInt 40) then "MEDIUM"
  else if py_ge risk_score (PyInt 20) then "LOW"
  else "MINIMAL".

(** * Explanations and selections of the conversation handler
      ([conversation_handler.py])

    The handler lower-cases the input with [str.lower] before it looks for
    keywords.  As for the classifier, [lower] is exact for these tests: no
    keyword of the tables below holds a [k] or ends in an [i], the only
    ASCII letters that the lower-casing of a non-ASCII code point can
    produce. *)

(** [any(keyword in text for keyword in keywords)] *)
Definition any_keyword_in (keywords : list string) (text : string) : bool :=
  existsb (fun keyword => str_in keyword text) keywords.

(** [context_keywords["ratio_items"]], in insertion order. *)
Definition ratio_items : list (string * list string) :=
  [ ("ROE", ["roe"; "자기자본수익률"; "자본수익률"]);
    ("ROA", ["roa"; "총자산수익률"; "자산수익률"]);
    ("부채비율", ["debt_ratio"; "부채비율"]);
    ("유동비율", ["current_ratio"; "유동비율"]);
    ("영업이익률", ["operating_margin"; "영업이익률"]);
    ("순이익률", ["net_margin"; "순이익률"]) ].

(** The loop of [_extract_requested_ratios] over the table. *)
Fixpoint requested_from (items : list (string * list string))
    (user_input : string) : list string :=
  match items with
  | [] => []
  | (ratio_name, keywords) :: rest =>
      if any_keyword_in keywords (lower user_input)
      then ratio_name :: requested_from rest user_input
      else requested_from rest user_input
  end.

Definition _extract_requested_ratios (user_input : string) : list string :=
  requested_from ratio_items user_input.

(** The dictionary [filtered_ratios] that [_handle_ratio_query] answers
    with: the requested entries of [ratios], and all of [ratios] when no
    ratio is named in the request. *)
Definition filtered_ratios {V} (requested_ratios : list string)
    (ratios : gmap string V) : gmap string V :=
  match requested_ratios with
  | [] => ratios
  | _ => filter (fun entry : string * V => entry.1 ∈ requested_ratios) ratios
  end.

(** A line feed. *)
Definition newline : string := String "010" "".

(** [sep.join(texts)] *)
Fixpoint join (sep : string) (texts : list string) : string :=
  match texts with
  | [] => ""
  | [text] => text
  | text :: rest => text +:+ sep +:+ join sep rest
  end.

(** The list [concerns] built by [_generate_fraud_explanation]. *)
Definition fraud_concerns (fraud_ratios : gmap string pyval) : list string :=
  let concerns := [] in
  let concerns :=
    if py_truthy (dict_get fraud_ratios "순이익_양수_현금흐름_음수" (PyBool false))
    then concerns ++ ["순이익은 양수이지만 영업현금흐름이 음수입니다."]
    else concerns in
  let concerns :=
    if py_truthy (dict_get fraud_ratios "매출채권_급증여부" (PyBool false))
    then concerns ++ ["매출채권 비율이 비정상적으로 높습니다."]
    else concerns in
  let cf_ni_ratio := dict_get fraud_ratios "현금흐름_대_순이익_비율" (PyInt 1) in
  if py_lt cf_ni_ratio (PyFloat float_half)
  then concerns ++ ["현금흐름 대 순이익 비율이 낮습니다."]
  else concerns.

Section FraudExplanation.

(** Python's [repr] of a [float], which is what an f-string prints for a
    float score; the text of an [int] is its decimal numeral. *)
Variable float_repr : spec_float -> string.

(** The text an f-string gives for a number. *)
Definition py_format (v : pyval) : string :=
  match v with
  | PyInt z => pretty z
  | PyBool b => if b then "True" else "False"
  | PyFloat f => float_repr f
  end.

Definition _generate_fraud_explanation (fraud_ratios : gmap string pyval) : string :=
  let risk_score := dict_get fraud_ratios "종합_부정위험점수" (PyInt 0) in
  let risk_level := _determine_fraud_risk_level fraud_ratios in
  let base_message :=
    "종합 부정 위험 점수: " +:+ py_format risk_score +:+ "점 (" +:+ risk_level
    +:+ " 위험)" in
  let concerns := fraud_concerns fraud_ratios in
  match concerns with
  | _ :: _ =>
      base_message +:+ newline +:+ newline +:+ "주요 우려사항:" +:+ newline
      +:+ join newline ((fun concern => "• " +:+ concern) <$> concerns)
  | [] =>
      base_message +:+ newline +:+ newline
      +:+ "특별한 부정 위험 징후는 발견되지 않았습니다."
  end.

End FraudExplanation.

(** * Report requests ([conversation_handler.py]) *)

Definition _determine_report_type (user_input : string) : string :=
  let user_input_lower := lower user_input in
  if any_keyword_in ["excel"; "엑셀"; "xlsx"] user_input_lower then "excel"
  else if any_keyword_in ["word"; "워드"; "docx"] user_input_lower then "docx"
  else if any_keyword_in ["pdf"] user_input_lower then "pdf"
  else "comprehensive".

Module ReportHandler.
Section Handler.

Import ContextCache.

Context {V L : Type}.

(** The outcome of a call into the report generator
    ([document_generator.py], which writes and opens files): the value
    returned, or the text [str(e)] of the exception raised. *)
Inductive outcome (A : Type) : Type :=
  | Returned (a : A)
  | Raised (str_e : string).
Global Arguments Returned {A} a.
Global Arguments Raised {A} str_e.

Global Instance outcome_bind : MBind outcome := fun A B k r =>
  match r with
  | Returned a => k a
  | Raised str_e => Raised str_e
  end.

(** The import of the generator with its constructor, and the methods of
    the generator that the handler calls.  A dictionary of reports is kept
    in insertion order. *)
Variable new_report_generator : outcome unit.
Variable generate_all_reports :
  gmap string V -> string -> outcome (list (string * string)).
Variable generate_comprehensive_report : gmap string V -> string -> outcome string.
Variable create_excel_report : gmap string V -> string -> outcome string.
Variable open_report : string -> outcome bool.
Variable get_report_summary : list (string * string) -> outcome string.

(** The dictionaries the handler returns, by their ["type"]. *)
Inductive response : Type :=
  | error_response (message : string)
  | analysis_needed (message : string)
  | report_generated (company : string) (reports : option (list (string * string)))
      (message main_report : string).

Definition response_type (r : response) : string :=
  match r with
  | error_response _ => "error"
  | analysis_needed _ => "analysis_needed"
  | report_generated _ _ _ _ => "report_generated"
  end.

Definition unsupported_report_type : response :=
  error_response "지원하지 않는 보고서 유형입니다.".

(** The body of the [try] block. *)
Definition generate_report (context : @context V L) (current_company : string)
    (user_input : string) : outcome response :=
  _ ← new_report_generator;
  let analysis_data := analysis_data context in
  let report_type := _determine_report_type user_input in
  if String.eqb report_type "comprehensive" then
    reports ← generate_all_reports analysis_data current_company;
    match reports with
    | (_, first_report) :: _ =>
        _ ← open_report first_report;
        summary ← get_report_summary reports;
        Returned (report_generated current_company (Some reports)
                    ("✅ " +:+ current_company +:+ " 보고서 생성 완료!" +:+ newline
                     +:+ newline +:+ summary)
                    first_report)
    | [] => Returned (error_response "보고서 생성에 실패했습니다.")
    end
  else if String.eqb report_type "docx" then
    docx_path ← generate_comprehensive_report analysis_data current_company;
    if negb (String.eqb docx_path "") then
      _ ← open_report docx_path;
      Returned (report_generated current_company None
                  ("✅ DOCX 보고서 생성 완료!" +:+ newline +:+ "📄 파일: " +:+ docx_path)
                  docx_path)
    else Returned unsupported_report_type
  else if String.eqb report_type "excel" then
    excel_path ← create_excel_report analysis_data current_company;
    if negb (String.eqb excel_path "") then
      _ ← open_report excel_path;
      Returned (report_generated current_company None
                  ("✅ Excel 보고서 생성 완료!" +:+ newline +:+ "📊 파일: " +:+ excel_path)
                  excel_path)
    else Returned unsupported_report_type
  else Returned unsupported_report_type.

(** [_handle_report_query]; [current_company] is [None] or a name, and
    [agent] is the engine whose cache holds the analyses. *)
Definition _handle_report_query (current_company : option string)
    (agent : @engine V L) (user_input : string) : response :=
  match current_company with
  | None | Some "" => error_response "먼저 분석할 회사를 지정해주세요."
  | Some company =>
      match get_analysis_context agent company with
      | None => analysis_needed (company +:+ "의 분석을 먼저 진행해주세요.")
      | Some context =>
          match generate_report context company user_input with
          | Returned r => r
          | Raised str_e =>
              error_response ("보고서 생성 중 오류가 발생했습니다: " +:+ str_e)
          end
      end
  end.

End Handler.
End ReportHandler.

(** * Conversation history ([conversation_handler.py]) *)

(** [l[start:]] *)
Definition py_slice_from {A} (start : Z) (l : list A) : list A :=
  let n := Z.of_nat (length l) in
  let start := if start <? 0 then Z.max (n + start) 0 else Z.min start n in
  drop (Z.to_nat start) l.

Definition get_conversation_history {E} (conversation_history : list E)
    (limit : Z) : list E :=
  if negb (limit =? 0) then py_slice_from (- limit) conversation_history
  else conversation_history.

(** * Deliberation among the agents ([core_agent_engine.py]) *)

(** Whether a byte continues a code point in UTF-8. *)
Definition is_continuation (c : ascii) : bool :=
  let b := N_of_ascii c in ((128 <=? b) && (b <? 192))%N.

(** [s[:n]]: the first [n] code points of [s]. *)
Fixpoint cp_take (n : nat) (s : string) : string :=
  match s with
  | EmptyString => EmptyString
  | String c rest =>
      if is_continuation c then String c (cp_take n rest)
      else
        match n with
        | O => EmptyString
        | S n' => String c (cp_take n' rest)
        end
  end.

(** [d[key] = value] on a dictionary kept in insertion order: the value of
    a key that is present is replaced in place, a new key goes to the end. *)
Fixpoint dict_set (d : list (string * string)) (key value : string)
    : list (string * string) :=
  match d with
  | [] => [(key, value)]
  | (k, v) :: rest =>
      if String.eqb k key then (k, value) :: rest
      else (k, v) :: dict_set rest key value
  end.


Module Deliberation.

(** An entry of [self.agents]; the decision weight is kept as the text of
    its literal: it is not read anywhere. *)
Record agent : Type := {
  model : string;
  name : string;
  role : string;
  personality : string;
  decision_weight : string
}.

(** [self.agents], in insertion order. *)
Definition agents : list (string * agent) :=
  [ ("coordinator",
      {| model := "llama3.1:8b";
         name := "김성실 (총괄조정관)";
         role := "전체 조율 및 합의 도출";
         personality := "신중하고 균형잡힌 시각, 갈등 조정 전문가";
         decision_weight := "0.4" |});
    ("financial_analyst",
      {| model := "qwen2.5:7b";
         name := "이정확 (재무분석가)";
         role := "재무분석 및 비율 해석 전문가";
         personality := "정확하고 분석적, 데이터 기반 판단";
         decision_weight := "0.35" |});
    ("fraud_detective",
      {| model := "mistral:7b";
         name := "박의심 (부정탐지전문가)";
         role := "부정탐지 및 위험평가 전문가";
         personality := "의심 많고 철저함, 보수적 접근";
         decision_weight := "0.25" |}) ].

(** A value of the JSON body of a reply, as Python holds it after
    [response.json()]. *)
#[warnings="-register-all"] Inductive json : Type :=
  | JNull
  | JBool (b : bool)
  | JInt (z : Z)
  | JFloat (f : spec_float)
  | JString (s : string)
  | JArray (items : list json)
  | JObject (members : list (string * json)).

(** An entry of [self.discussion_log]. *)
Record log_entry : Type := {
  timestamp : string;
  speaker : string;
  prompt : string;
  response : string
}.

(** The fields of the engine that a discussion touches, and two counters
    that belong to the environment: the number of requests sent to the
    model server and the number of readings of the clock so far. *)
Record state : Type := {
  current_loaded_model : option string;
  discussion_log : list log_entry;
  requests_sent : nat;
  clock_reads : nat
}.

(** The exceptions that occur here: the [KeyError] of a dictionary, the
    [TypeError] and [AttributeError] of an operation on a value of the
    wrong type, and the exceptions of the arithmetic. *)
Inductive exn : Type :=
  | KeyError (key : string)
  | TypeError
  | AttributeError
  | Arithmetic (e : py_exn).

(** A computation on the engine: it returns a value or raises, and leaves
    a state. *)
Inductive run (A : Type) : Type :=
  | Done (a : A) (s : state)
  | Fails (e : exn) (s : state).
Global Arguments Done {A} a s.
Global Arguments Fails {A} e s.

Definition M (A : Type) : Type := state -> run A.

Global Instance M_ret : MRet M := fun A a s => Done a s.

Global Instance M_bind : MBind M := fun A B k m s =>
  match m s with
  | Done a s' => k a s'
  | Fails e s' => Fails e s'
  end.

Definition raise {A} (e : exn) : M A := fun s => Fails e s.

(** [self.agents[key]] *)
Definition agents_item (key : string) : M agent := fun s =>
  match List.find (fun entry : string * agent => String.eqb entry.1 key) agents with
  | Some entry => Done entry.2 s
  | None => Fails (KeyError key) s
  end.

(** What [requests.post] with the following [if] gives: the status 200
    with the field [response] of the body, if it has one (any JSON value,
    not only a string); another status; or an exception of the [try] block
    with its text [str(e)] (a failed request, a body that is not JSON or
    not an object). *)
Inductive reply : Type :=
  | status_200 (body_response : option json)
  | status_other (status_code : Z)
  | request_failed (str_e : string).

(** The value [call_ollama] returns for a reply: no failure of the request
    is raised, and the field [response] is passed on as it is. *)
Definition reply_value (r : reply) : json :=
  match r with
  | status_200 (Some body_response) => body_response
  | status_200 None => JString "응답 없음"
  | status_other status_code => JString ("API 오류 " +:+ pretty status_code)
  | request_failed str_e => JString ("연결 오류: " +:+ str_e)
  end.

(** A verdict: the dictionary a discussion returns.  The grade is stored
    under [investment_grade] by the ratio and the final discussion, and
    under [risk_grade] by the fraud discussion. *)
Record verdict (G : Type) : Type := {
  final_consensus : json;
  grade : G;
  confidence_level : Z
}.
Global Arguments final_consensus {G} v.
Global Arguments grade {G} v.
Global Arguments confidence_level {G} v.

Section Engine.

(** The environment.  [post n model_name prompt] is the outcome of the
    request numbered [n] (counted from 0), sent for [model_name] with
    [prompt]; [strftime_now n] is the text of the clock reading numbered
    [n] in the format [%H:%M:%S].  [float_repr] and [format_2f] are Python's
    [repr] of a float and its format [.2f] of a number. *)
Variable post : nat -> string -> string -> reply.
Variable strftime_now : nat -> string.
Variable float_repr : spec_float -> string.
Variable format_2f : pyval -> string.

Definition load_model (model_name : string) : M unit := fun s =>
  if bool_decide (current_loaded_model s = Some model_name) then Done () s
  else Done () {| current_loaded_model := Some model_name;
                  discussion_log := discussion_log s;
                  requests_sent := requests_sent s;
                  clock_reads := clock_reads s |}.

(** The request of [call_ollama]: the [try] block with its [except]. *)
Definition post_generate (model_name prompt : string) : M json := fun s =>
  Done (reply_value (post (requests_sent s) model_name prompt))
       {| current_loaded_model := current_loaded_model s;
          discussion_log := discussion_log s;
          requests_sent := S (requests_sent s);
          clock_reads := clock_reads s |}.

Definition call_ollama (model_key prompt : string) : M json :=
  agent ← agents_item model_key;
  let model_name := model agent in
  _ ← load_model model_name;
  post_generate model_name prompt.

(** [datetime.now().strftime("%H:%M:%S")] *)
Definition now_hms : M string := fun s =>
  Done (strftime_now (clock_reads s))
       {| current_loaded_model := current_loaded_model s;
          discussion_log := discussion_log s;
          requests_sent := requests_sent s;
          clock_reads := S (clock_reads s) |}.

(** [self.discussion_log.append(entry)] *)
Definition log_append (entry : log_entry) : M unit := fun s =>
  Done () {| current_loaded_model := current_loaded_model s;
             discussion_log := discussion_log s ++ [entry];
             requests_sent := requests_sent s;
             clock_reads := clock_reads s |}.

(** [if self.discussion_log: self.discussion_log[-1]["response"] = text] *)
Definition log_set_last_response (text : string) : M unit := fun s =>
  let log := discussion_log s in
  Done () {| current_loaded_model := current_loaded_model s;
             discussion_log :=
               alter (fun entry => {| timestamp := timestamp entry;
                                      speaker := speaker entry;
                                      prompt := prompt entry;
                                      response := text |})
                     (length log - 1)%nat log;
             requests_sent := requests_sent s;
             clock_reads := clock_reads s |}.

(** The prompt that [_call_agent_with_persona] sends for [prompt]. *)
Definition persona_prompt (agent : agent) (prompt : string) : string :=
  join newline
    [ "";
      "당신은 " +:+ name agent +:+ "입니다.";
      "역할: " +:+ role agent;
      "성격: " +:+ personality agent;
      "";
      "다음 요청에 대해 당신의 전문성과 성격에 맞게 간결하게 응답해주세요:";
      "";
      prompt;
      "" ].

(** [_call_agent_with_persona].  The log has just been appended to when
    the reply arrives, so the test [if self.discussion_log] holds and
    [response[:200] + "..."] is evaluated.  It raises [TypeError] unless
    the reply is a string: [None], a number and a Boolean are not
    subscriptable, the slice of a list is not concatenated with a string,
    and a dictionary takes no slice as a key (unhashable, before Python
    3.12).  The function therefore returns strings only. *)
Definition _call_agent_with_persona (agent_key prompt : string) : M string :=
  agent ← agents_item agent_key;
  now ← now_hms;
  _ ← log_append {| timestamp := now;
                    speaker := name agent;
                    prompt := cp_take 100 prompt +:+ "...";
                    response := "응답 대기 중..." |};
  response ← call_ollama agent_key (persona_prompt agent prompt);
  match response with
  | JString text =>
      _ ← log_set_last_response (cp_take 200 text +:+ "...");
      mret text
  | _ => raise TypeError
  end.

(** The loop of [_reach_consensus] that adds the opinions to the prompt. *)
Fixpoint add_opinions (opinions : list (string * string))
    (consensus_prompt : string) : M string :=
  match opinions with
  | [] => mret consensus_prompt
  | (agent_key, opinion) :: rest =>
      agent ← agents_item agent_key;
      let agent_name := name agent in
      add_opinions rest
        (consensus_prompt +:+ newline +:+ agent_name +:+ ": "
         +:+ cp_take 300 opinion +:+ "..." +:+ newline)
  end.

Definition _reach_consensus (opinions : list (string * string)) (topic : string)
    : M json :=
  let consensus_prompt :=
    join newline
      [ "";
        "다음 전문가들의 " +:+ topic
        +:+ "에 대한 의견들을 종합하여 최종 합의안을 도출해주세요.";
        "";
        "전문가 의견들:";
        "" ] in
  consensus_prompt ← add_opinions opinions consensus_prompt;
  let consensus_prompt :=
    consensus_prompt
    +:+ join newline
          [ ""; "이들 의견을 종합하여 균형잡힌 최종 결론을 제시해주세요."; "" ] in
  call_ollama "coordinator" consensus_prompt.

(** A loop [for agent_key ... in self.agents...] that asks every agent with
    the same prompt and files the answers. *)
Fixpoint ask_each (agent_keys : list string) (prompt : string)
    (opinions : list (string * string)) : M (list (string * string)) :=
  match agent_keys with
  | [] => mret opinions
  | agent_key :: rest =>
      opinion ← _call_agent_with_persona agent_key prompt;
      ask_each rest prompt (dict_set opinions agent_key opinion)
  end.

(** The list [other_opinions] of the second round. *)
Fixpoint other_opinions (opinions : list (string * string)) (agent_key : string)
    : M (list string) :=
  match opinions with
  | [] => mret []
  | (k, v) :: rest =>
      if negb (String.eqb k agent_key) then
        agent ← agents_item k;
        others ← other_opinions rest agent_key;
        mret ((name agent +:+ ": " +:+ cp_take 150 v +:+ "...") :: others)
      else other_opinions rest agent_key
  end.

(** The second round of [_conduct_ratio_discussion]: every agent in turn
    reads the current opinions of the others and replaces its own. *)
Fixpoint discuss_each (agent_keys : list string)
    (opinions : list (string * string)) : M (list (string * string)) :=
  match agent_keys with
  | [] => mret opinions
  | agent_key :: rest =>
      others ← other_opinions opinions agent_key;
      let discussion_prompt :=
        join newline
          [ "";
            "다른 전문가들의 의견을 검토하고 당신의 최종 의견을 제시해주세요.";
            "";
            "다른 의견들:";
            join newline others;
            "";
            "최종 투자등급과 근거를 명확히 제시해주세요.";
            "" ] in
      updated_opinion ← _call_agent_with_persona agent_key discussion_prompt;
      discuss_each rest (dict_set opinions agent_key updated_opinion)
  end.

(** [_extract_grade_from_consensus] on the value that a call returned:
    [consensus.upper()] raises [AttributeError] on a value that is not a
    string. *)
Definition extract_grade (consensus : json) : M string :=
  match consensus with
  | JString text => mret (_extract_grade_from_consensus text)
  | _ => raise AttributeError
  end.

Definition _conduct_ratio_discussion (ratios : gmap string pyval)
    (financial_data : gmap string Z) : M (verdict string) :=
  let prompt :=
    join newline
      [ "";
        "재무비율 분석 결과를 검토해주세요.";
        "";
        "주요 비율:";
        "- ROE: " +:+ format_2f (dict_get ratios "ROE" (PyInt 0)) +:+ "%";
        "- 부채비율: " +:+ format_2f (dict_get ratios "부채비율" (PyInt 0)) +:+ "%";
        "- 영업이익률: " +:+ format_2f (dict_get ratios "영업이익률" (PyInt 0)) +:+ "%";
        "- 순이익률: " +:+ format_2f (dict_get ratios "순이익률" (PyInt 0)) +:+ "%";
        "";
        "당신의 전문 분야 관점에서 투자 등급(S/A/B/C/D)과 근거를 제시해주세요.";
        "" ] in
  opinions ← ask_each agents.*1 prompt [];
  opinions ← discuss_each agents.*1 opinions;
  final_consensus ← _reach_consensus opinions "투자등급";
  investment_grade ← extract_grade final_consensus;
  mret {| final_consensus := final_consensus;
          grade := investment_grade;
          confidence_level := 85 |}.

Definition _conduct_fraud_discussion (indicators : gmap string pyval)
    (financial_data : gmap string Z) : M (verdict string) :=
  let prompt :=
    join newline
      [ "";
        "부정위험 지표를 분석해주세요.";
        "";
        "주요 지표:";
        "- 현금흐름 대 순이익 비율: "
        +:+ format_2f (dict_get indicators "현금흐름_대_순이익_비율" (PyInt 0));
        "- 매출채권 대 매출 비율: "
        +:+ format_2f (dict_get indicators "매출채권_대_매출_비율" (PyInt 0)) +:+ "%";
        "- 순이익 양수 현금흐름 음수: "
        +:+ py_format float_repr
              (dict_get indicators "순이익_양수_현금흐름_음수" (PyBool false));
        "";
        "부정위험 등급(A/B/C/D)과 근거를 제시해주세요.";
        "" ] in
  risk_opinions ← ask_each agents.*1 prompt [];
  final_risk_consensus ← _reach_consensus risk_opinions "부정위험등급";
  risk_grade ← extract_grade final_risk_consensus;
  mret {| final_consensus := final_risk_consensus;
          grade := risk_grade;
          confidence_level := 80 |}.



End Engine.

End Deliberation.

(** * Questions passed on to a model ([conversation_handler.py]) *)

(** The quotation mark, code point 34. *)
Definition double_quote : string := String (ascii_of_N 34) "".

Module Dialogue.
Section Handler.

Import ContextCache Deliberation.

Context {V L : Type}.

(** The environment of the engine, and [_format_context_for_ai], which
    prints the numbers of a context: the text it returns, or the exception
    its arithmetic raises. *)
Variable post : nat -> string -> string -> reply.
Variable _format_context_for_ai : @context V L -> result string.

(** The dictionaries the two handlers return, by their ["type"].  A
    message that comes from the model is the value of the reply, of
    whatever type. *)
Inductive response : Type :=
  | error_response (message : string)
  | analysis_needed (message : string)
  | detailed_explanation (company : string) (explanation message : json)
  | general_response (message : json) (suggestions : list string).

(** [if self.current_company], on [None] or a name. *)
Definition chosen (current_company : option string) : option string :=
  match current_company with
  | None | Some "" => None
  | Some company => Some company
  end.

Definition _generate_followup_suggestions (current_company : option string)
    : list string :=
  match chosen current_company with
  | Some company =>
      [ company +:+ "의 재무비율을 보여주세요";
        company +:+ "의 부정 위험을 분석해주세요";
        "업계 평균과 비교해주세요";
        "그래프로 시각화해주세요";
        "보고서를 생성해주세요" ]
  | None =>
      [ "회사 이름을 알려주시면 분석해드릴게요";
        "삼성전자 분석해주세요";
        "어떤 재무비율을 확인하고 싶으신가요?" ]
  end.

(** [_handle_explanation_query]; [cache] is the engine's cache of analyses. *)
Definition _handle_explanation_query (current_company : option string)
    (cache : @engine V L) (user_input : string) : M response :=
  match chosen current_company with
  | None => mret (error_response "먼저 분석할 회사를 지정해주세요.")
  | Some company =>
      match get_analysis_context cache company with
      | None => mret (analysis_needed (company +:+ "의 분석을 먼저 진행해주세요."))
      | Some context =>
          fun s =>
            match _format_context_for_ai context with
            | Raise e => Fails (Arithmetic e) s
            | Ok formatted =>
                let explanation_prompt :=
                  join newline
                    [ "";
                      "    사용자가 다음과 같이 질문했습니다: " +:+ double_quote
                      +:+ user_input +:+ double_quote;
                      "";
                      "    " +:+ company
                      +:+ "의 분석 결과를 바탕으로 상세히 설명해주세요.";
                      "";
                      "    분석 데이터:";
                      "    " +:+ formatted;
                      "";
                      "    사용자가 이해하기 쉽게 구체적으로 설명해주세요.";
                      "    " ] in
                (explanation ← call_ollama post "analyzer" explanation_prompt;
                 mret (detailed_explanation company explanation explanation)) s
            end
      end
  end.

Definition _handle_general_query (current_company : option string)
    (user_input : string) : M response :=
  let general_prompt :=
    join newline
      [ "";
        "    사용자가 다음과 같이 질문했습니다: " +:+ double_quote +:+ user_input
        +:+ double_quote;
        "";
        "    현재 분석 중인 회사: " +:+ default "없음" (chosen current_company);
        "";
        "    이 질문에 대해 회계/재무 전문가 관점에서 도움이 되는 답변을 제공해주세요.";
        "    " ] in
  response ← call_ollama post "coordinator" general_prompt;
  mret (general_response response (_generate_followup_suggestions current_company)).

End Handler.
End Dialogue.

(** * Predicates used in the statements *)

(** One of the three phrasings of [grade] occurs in the text. *)
Definition has_marker (grade consensus : string) : Prop :=
  (exists pre post, consensus = pre +:+ (grade +:+ "등급") +:+ post)
  \/ (exists pre post, consensus = pre +:+ ("등급 " +:+ grade) +:+ post)
  \/ (exists pre post, consensus = pre +:+ ("등급:" +:+ grade) +:+ post).

(** The amounts of a record are within the range of the finite floats, as
    every amount produced by [int(float(...))] is. *)
Definition amounts_in_range (d : gmap string Z) : Prop :=
  forall key v, d !! key = Some v -> Z.abs v <= max_float_int.

(** The float [100.0]. *)
Definition float_100 : spec_float := S754_finite false 7036874417766400 (-46).

(** Reference definition of a percentage ratio: 0 for a zero denominator,
    otherwise the float quotient [a / b] multiplied by [100.0]. *)
Definition is_percentage (a b : Z) (v : pyval) : Prop :=
  if decide (b = 0) then v = PyInt 0
  else exists q, int_truediv a b = Ok q
                 /\ v = PyFloat (SFmul float_prec float_emax q float_100).

Definition has_ratio (ratios : gmap string pyval) (name : string) (a b : Z) : Prop :=
  exists v, ratios !! name = Some v /\ is_percentage a b v.

(** The six ratios of a record, each by its reference definition. *)
Definition ratios_by_reference (financial_data : gmap string Z)
    (ratios : gmap string pyval) : Prop :=
  let revenue := dict_get financial_data "revenue" 0 in
  let operating_income := dict_get financial_data "operating_income" 0 in
  let net_income := dict_get financial_data "net_income" 0 in
  let total_assets := dict_get financial_data "total_assets" 0 in
  let total_liabilities := dict_get financial_data "total_liabilities" 0 in
  let total_equity := dict_get financial_data "total_equity" 0 in
  has_ratio ratios "ROE" net_income total_equity
  /\ has_ratio ratios "ROA" net_income total_assets
  /\ has_ratio ratios "영업이익률" operating_income revenue
  /\ has_ratio ratios "순이익률" net_income revenue
  /\ has_ratio ratios "부채비율" total_liabilities total_equity
  /\ has_ratio ratios "자기자본비율" total_equity total_assets
  /\ (total_equity = 0 -> ratios !! "ROE" = Some (PyInt 0))
  /\ (revenue = 0 ->
      ratios !! "영업이익률" = Some (PyInt 0)
      /\ ratios !! "순이익률" = Some (PyInt 0)).

(** The three penalty conditions of [_calculate_fraud_risk_score]. *)
Definition low_cash_flow (indicators : gmap string pyval) : bool :=
  py_lt (dict_get indicators "현금흐름_대_순이익_비율" (PyInt 1)) (PyFloat float_half).

Definition high_receivables (indicators : gmap string pyval) : bool :=
  py_gt (dict_get indicators "매출채권_대_매출_비율" (PyInt 0)) (PyInt 25).

Definition income_without_cash (indicators : gmap string pyval) : bool :=
  py_truthy (dict_get indicators "순이익_양수_현금흐름_음수" (PyBool false)).

(** Net income 100 with operating cash flow -50, receivables 30 on revenue
    100: the engine's own indicators trigger the three penalties. *)
Definition all_penalties_indicators : gmap string pyval :=
  {[ "현금흐름_대_순이익_비율" := PyFloat (S754_finite true 4503599627370496 (-53));
     "매출채권_대_매출_비율" := PyFloat (S754_finite false 8444249301319680 (-48));
     "순이익_양수_현금흐름_음수" := PyBool true ]}.

(** The names under which the ratio engine stores its results. *)
Definition basic_ratio_names : list string :=
  ["ROE"; "ROA"; "영업이익률"; "순이익률"; "부채비율"; "자기자본비율"].

Definition growth_ratio_names : list string := ["매출성장률"; "순이익성장률"].

(** [multi_year_data and '2023' in multi_year_data] *)
Definition previous_year (multi_year_data : option (gmap string (gmap string Z)))
    : option (gmap string Z) :=
  multi_year_data ≫= (fun years => years !! "2023").

(** A reply whose value for [call_ollama] is a string: every reply but a
    200 whose field [response] holds another JSON value. *)
Definition text_reply (r : Deliberation.reply) : Prop :=
  exists text, Deliberation.reply_value r = Deliberation.JString text.

(** The [count] requests numbered from [first] get a text, whatever is
    sent. *)
Definition text_replies (post : nat -> string -> string -> Deliberation.reply)
    (first count : nat) : Prop :=
  forall n model_name prompt,
    (first <= n < first + count)%nat -> text_reply (post n model_name prompt).

(** The log entries of consecutive calls of agents, the first of which
    sends the request numbered [n] and takes the clock reading numbered
    [c]: the entry of a call holds the time, the name of the agent, the
    first 100 code points of the prompt it was called with and the first
    200 code points of the text that the server replied to the request
    sent for it, each followed by three dots. *)
Fixpoint logged_calls (post : nat -> string -> string -> Deliberation.reply)
    (strftime_now : nat -> string) (n c : nat)
    (called : list Deliberation.agent) (entries : list Deliberation.log_entry)
    : Prop :=
  match called, entries with
  | [], [] => True
  | agent :: called, entry :: entries =>
      (exists prompt text,
         Deliberation.reply_value
           (post n (Deliberation.model agent)
              (Deliberation.persona_prompt agent prompt))
         = Deliberation.JString text
         /\ entry = {| Deliberation.timestamp := strftime_now c;
                       Deliberation.speaker := Deliberation.name agent;
                       Deliberation.prompt := cp_take 100 prompt +:+ "...";
                       Deliberation.response := cp_take 200 text +:+ "..." |})
      /\ logged_calls post strftime_now (S n) (S c) called entries
  | _, _ => False
  end.

(** The state [s'] is the state [s] after [requests] more requests, of
    which the first were sent by calls of the agents [called], in this
    order, each with one reading of the clock and one more log entry. *)
Definition discussed (post : nat -> string -> string -> Deliberation.reply)
    (strftime_now : nat -> string) (s s' : Deliberation.state)
    (requests : nat) (called : list Deliberation.agent) : Prop :=
  Deliberation.requests_sent s' = (Deliberation.requests_sent s + requests)%nat
  /\ Deliberation.clock_reads s' = (Deliberation.clock_reads s + length called)%nat
  /\ exists entries,
       Deliberation.discussion_log s' = Deliberation.discussion_log s ++ entries
       /\ logged_calls post strftime_now (Deliberation.requests_sent s)
            (Deliberation.clock_reads s) called entries.


(** The three agents, in the order of [self.agents]. *)
Definition the_agents : list Deliberation.agent := Deliberation.agents.*2.

(** The model of the coordinator. *)
Definition coordinator_model : string := "llama3.1:8b".

(** * Properties *)

(** ** Texts *)

Section Texts.

Lemma prefix_cons c n d h :
  String.prefix (String c n) (String d h) = bool_decide (c = d) && String.prefix n h.
Proof.
  simpl. destruct (ascii_dec c d) as [->|Hne].
  - by rewrite bool_decide_eq_true_2.
  - by rewrite bool_decide_eq_false_2.
Qed.

(** [String.prefix n h] holds exactly when [h] starts with [n]. *)
Lemma prefix_spec n h :
  String.prefix n h = true <-> exists post, h = n +:+ post.
Proof.
  revert h. induction n as [|c n IH]; intros h.
  - split; [intros _; by exists h | intros _; by destruct h].
  - destruct h as [|d h].
    + split; [done | intros [post Hpost]; discriminate].
    + rewrite prefix_cons, andb_true_iff, bool_decide_eq_true, IH.
      split.
      * intros [-> [post ->]]. by exists post.
      * intros [post Hpost]. injection Hpost as -> ->. eauto.
  Qed.

(** [str_in] is the substring relation. *)
Lemma str_in_spec n h :
  str_in n h = true <-> exists pre post, h = pre +:+ n +:+ post.
Proof.
  induction h as [|d h IH].
  - cbn [str_in]. rewrite orb_false_r, prefix_spec. split.
    + intros [post ->]. by exists "", post.
    + intros [pre [post Heq]]. destruct pre; [by exists post | discriminate].
  - cbn [str_in]. rewrite orb_true_iff, prefix_spec, IH. split.
    + intros [[post ->] | [pre [post ->]]].
      * by exists "", post.
      * by exists (String d pre), post.
    + intros [pre [post Heq]]. destruct pre as [|c pre].
      * left. by exists post.
      * right. injection Heq as -> ->. by exists pre, post.
Qed.

Lemma has_char_app c s t :
  has_char c (s +:+ t) = has_char c s || has_char c t.
Proof.
  induction s as [|d s IH]; [done |].
  simpl. by rewrite IH, orb_assoc.
Qed.

(** A byte of a substring is a byte of the text. *)
Lemma str_in_has_char n h c :
  str_in n h = true -> has_char c n = true -> has_char c h = true.
Proof.
  intros [pre [post ->]]%str_in_spec Hc.
  by rewrite !has_char_app, Hc, orb_true_r.
Qed.

Lemma lower_char_not_upper c : is_ascii_upper (lower_char c) = false.
Proof. destruct c as [[] [] [] [] [] [] [] []]; reflexivity. Qed.

(** A lower-cased text holds none of the letters A-Z. *)
Lemma lower_no_upper s c :
  has_char c (lower s) = true -> is_ascii_upper c = false.
Proof.
  induction s as [|d s IH]; [done |].
  simpl. intros [Heq%Ascii.eqb_eq | Hin]%orb_true_iff; [|by apply IH].
  subst c. apply lower_char_not_upper.
Qed.

(** A keyword with a capital letter occurs in no lower-cased text. *)
Lemma upper_keyword_absent keyword c s :
  has_char c keyword = true -> is_ascii_upper c = true ->
  str_in keyword (lower s) = false.
Proof.
  intros Hc Hup. apply not_true_is_false. intros Hin.
  pose proof (lower_no_upper _ _ (str_in_has_char _ _ _ Hin Hc)). congruence.
Qed.

End Texts.

(** ** Intent classifier *)

Section ArgMax.

Context {A : Type} (key : A -> nat).

(** [py_max_from] returns the first element of the sequence whose key is
    maximal: everything before it has a smaller key, nothing after it has a
    greater one. *)
Lemma py_max_from_first_max (best : A) (rest : list A) :
  exists pre post : list A,
    best :: rest = pre ++ py_max_from key best rest :: post
    /\ (forall y, y ∈ pre -> (key y < key (py_max_from key best rest))%nat)
    /\ (forall y, y ∈ post -> (key y <= key (py_max_from key best rest))%nat).
Proof.
  revert best. induction rest as [|x rest IH]; intros best.
  - exists [], []. split; [done |]. split; intros y Hy; inversion Hy.
  - simpl. destruct (Nat.ltb_spec (key best) (key x)) as [Hlt | Hge].
    + destruct (IH x) as (pre & post & Heq & Hpre & Hpost).
      set (r := py_max_from key x rest) in *.
      assert (key x <= key r)%nat as Hx.
      { assert (x ∈ pre ++ r :: post) as Hin by (rewrite <- Heq; left).
        apply elem_of_app in Hin as [Hin | Hin]; [apply Hpre in Hin; lia |].
        apply elem_of_cons in Hin as [Hxr | Hin]; [rewrite Hxr; lia | by apply Hpost]. }
      exists (best :: pre), post. split; [by rewrite Heq |]. split; [|done].
      intros y [-> | Hy]%elem_of_cons; [lia | by apply Hpre].
    + destruct (IH best) as (pre & post & Heq & Hpre & Hpost).
      set (r := py_max_from key best rest) in *.
      destruct pre as [|b pre]; simpl in Heq; injection Heq as Hb Hrest.
      * exists [], (x :: post). split; [by rewrite <- Hb, Hrest |].
        split; [intros y Hy; inversion Hy |].
        intros y [-> | Hy]%elem_of_cons; [rewrite <- Hb; lia | by apply Hpost].
      * subst b. assert (key best < key r)%nat as Hbest by (apply Hpre; left).
        exists (best :: x :: pre), post. split; [by rewrite Hrest |].
        split; [|done].
        intros y [-> | [-> | Hy]%elem_of_cons]%elem_of_cons;
          [lia | lia | apply Hpre; by right].
Qed.

End ArgMax.


Section Classifier.

Implicit Types (patterns : list (string * list string)) (t : string).

(** The score is the number of keywords that occur in the text. *)
Lemma keyword_score_count keywords t :
  keyword_score keywords t
  = length (filter (fun keyword => str_in keyword t = true) keywords).
Proof.
  induction keywords as [|k keywords IH]; [done |].
  cbn [keyword_score]. rewrite filter_cons.
  destruct (str_in k t); case_decide; simpl; congruence.
Qed.

Lemma build_scores_positive patterns t q s :
  (q, s) ∈ build_scores patterns t ->
  (0 < s)%nat /\ exists kws, (q, kws) ∈ patterns /\ s = keyword_score kws t.
Proof.
  induction patterns as [|[q' kws'] patterns IH]; simpl; [by inversion 1 |].
  destruct (Nat.ltb_spec 0 (keyword_score kws' t)) as [Hpos | Hzero].
  - intros [Heq | Hin]%elem_of_cons.
    + injection Heq as -> ->. split; [done |]. exists kws'. split; [left | done].
    + destruct (IH Hin) as (? & kws & ? & ?). split; [done |].
      exists kws. split; [by right | done].
  - intros Hin. destruct (IH Hin) as (? & kws & ? & ?). split; [done |].
    exists kws. split; [by right | done].
Qed.

Lemma build_scores_complete patterns t q kws :
  (q, kws) ∈ patterns -> (0 < keyword_score kws t)%nat ->
  (q, keyword_score kws t) ∈ build_scores patterns t.
Proof.
  induction patterns as [|[q' kws'] patterns IH]; [by inversion 1 |].
  intros [Heq | Hin]%elem_of_cons Hpos; simpl.
  - injection Heq as <- <-.
    destruct (Nat.ltb_spec 0 (keyword_score kws t)); [left | lia].
  - destruct (0 <? keyword_score kws' t)%nat; [right |]; by apply IH.
Qed.

Lemma build_scores_keys patterns t q :
  q ∈ (build_scores patterns t).*1 -> q ∈ patterns.*1.
Proof.
  intros [[q' s] [-> Hin]]%list_elem_of_fmap.
  destruct (build_scores_positive _ _ _ _ Hin) as (_ & kws & Hkws & _).
  apply list_elem_of_fmap. by exists (q', kws).
Qed.

Lemma build_scores_NoDup patterns t :
  NoDup patterns.*1 -> NoDup (build_scores patterns t).*1.
Proof.
  induction patterns as [|[q kws] patterns IH]; simpl; [done |].
  intros [Hq Hnd]%NoDup_cons.
  destruct (0 <? keyword_score kws t)%nat; [|by apply IH].
  simpl. apply NoDup_cons. split; [|by apply IH].
  intros Hin. by apply Hq, (build_scores_keys _ t).
Qed.

(** In a dictionary without repeated keys, [scores[q]] is the value stored
    with [q]. *)
Lemma dict_item_lookup (scores : list (string * nat)) q s :
  NoDup scores.*1 -> (q, s) ∈ scores -> dict_item scores q = s.
Proof.
  induction scores as [|[k v] scores IH]; [by inversion 2 |].
  simpl. intros [Hk Hnd]%NoDup_cons [Heq | Hin]%elem_of_cons.
  - injection Heq as -> ->. by rewrite String.eqb_refl.
  - destruct (String.eqb_spec k q) as [-> | _]; [|by apply IH].
    exfalso. apply Hk, list_elem_of_fmap. by exists (q, s).
Qed.

(** A split of the score dictionary at an entry comes from a split of the
    pattern table at the category of that entry. *)
Lemma build_scores_split patterns t spre q s spost :
  build_scores patterns t = spre ++ (q, s) :: spost ->
  exists pre kws post,
    patterns = pre ++ (q, kws) :: post
    /\ s = keyword_score kws t
    /\ build_scores pre t = spre
    /\ build_scores post t = spost.
Proof.
  revert spre. induction patterns as [|[q' kws'] patterns IH]; intros spre; simpl.
  - by destruct spre.
  - destruct (Nat.ltb_spec 0 (keyword_score kws' t)) as [Hpos | Hzero].
    + destruct spre as [|x spre]; simpl; intros Heq.
      * injection Heq as -> <- <-. by exists [], kws', patterns.
      * injection Heq as <- Htl.
        destruct (IH _ Htl) as (pre & kws & post & -> & -> & <- & <-).
        exists ((q', kws') :: pre), kws, post. simpl.
        destruct (Nat.ltb_spec 0 (keyword_score kws' t)); [done | lia].
    + intros Heq. destruct (IH _ Heq) as (pre & kws & post & -> & -> & <- & <-).
      exists ((q', kws') :: pre), kws, post. simpl.
      destruct (Nat.ltb_spec 0 (keyword_score kws' t)); [lia | done].
Qed.

(** The classifier over an arbitrary table of distinct categories: either no
    category scores and the fall-back is returned, or the table splits at the
    returned category, which beats every earlier category strictly and is
    not beaten by any later one. *)
Lemma classify_with_first_max patterns user_input :
  NoDup patterns.*1 ->
  let t := lower user_input in
  ((forall p, p ∈ patterns -> keyword_score p.2 t = 0%nat)
   /\ classify_with patterns user_input = "general_query")
  \/ (exists pre q kws post,
        patterns = pre ++ (q, kws) :: post
        /\ classify_with patterns user_input = q
        /\ (0 < keyword_score kws t)%nat
        /\ (forall p, p ∈ pre -> (keyword_score p.2 t < keyword_score kws t)%nat)
        /\ (forall p, p ∈ post -> (keyword_score p.2 t <= keyword_score kws t)%nat)).
Proof.
  intros Hnd t. unfold classify_with. fold t.
  pose proof (build_scores_NoDup patterns t Hnd) as Hnds.
  pose proof (build_scores_positive patterns t) as Hsound.
  pose proof (build_scores_complete patterns t) as Hcomplete.
  pose proof (build_scores_split patterns t) as Hsplits.
  remember (build_scores patterns t) as scores eqn:Hscores.
  destruct (scores.*1) as [|first others] eqn:Hkeys.
  - left. split; [|done]. intros [q kws] Hp. simpl.
    destruct (Nat.eq_dec (keyword_score kws t) 0%nat) as [|Hne]; [done |].
    assert ((q, keyword_score kws t) ∈ scores) as Hin
      by (apply Hcomplete; [done | lia]).
    apply (list_elem_of_fmap_2 fst) in Hin. rewrite Hkeys in Hin. inversion Hin.
  - right.
    destruct (py_max_from_first_max (dict_item scores) first others)
      as (kpre & kpost & Heq & Hpre & Hpost).
    remember (py_max_from (dict_item scores) first others) as r eqn:Hr'.
    clear Hr'. rewrite <- Hkeys in Heq, Hnds. clear Hkeys first others.
    apply fmap_app_inv in Heq as (spre & srest & -> & Hrest & Hsplit).
    symmetry in Hrest.
    apply fmap_cons_inv in Hrest as ([q s] & spost & Hq & -> & ->).
    simpl in Hq. subst q.
    destruct (Hsplits _ _ _ _ Hsplit)
      as (pre & kws & post & Hpat & Hs & Hbpre & Hbpost).
    assert (forall q' s', (q', s') ∈ scores -> dict_item scores q' = s') as Hitem
      by (intros; by apply dict_item_lookup).
    assert ((r, s) ∈ scores) as Hrin
      by (rewrite Hsplit; apply elem_of_app; right; left).
    assert (dict_item scores r = s) as Hr by by apply Hitem.
    exists pre, r, kws, post. split; [done |]. split; [done |].
    assert (0 < s)%nat as Hpos by by apply (Hsound r s).
    rewrite <- Hs. split; [done |]. split.
    + intros [q' kws'] Hp. simpl.
      destruct (Nat.eq_dec (keyword_score kws' t) 0%nat) as [-> | Hne]; [done |].
      assert ((q', keyword_score kws' t) ∈ spre) as Hin
        by (rewrite <- Hbpre; apply build_scores_complete; [done | lia]).
      rewrite <- Hr, <- (Hitem q' (keyword_score kws' t)).
      * apply Hpre, list_elem_of_fmap. by exists (q', keyword_score kws' t).
      * rewrite Hsplit. apply elem_of_app. by left.
    + intros [q' kws'] Hp. simpl.
      destruct (Nat.eq_dec (keyword_score kws' t) 0%nat) as [-> | Hne]; [lia |].
      assert ((q', keyword_score kws' t) ∈ spost) as Hin
        by (rewrite <- Hbpost; apply build_scores_complete; [done | lia]).
      rewrite <- Hr, <- (Hitem q' (keyword_score kws' t)).
      * apply Hpost, list_elem_of_fmap. by exists (q', keyword_score kws' t).
      * rewrite Hsplit. apply elem_of_app. right. by right.
Qed.

End Classifier.

Lemma query_patterns_NoDup : NoDup _initialize_query_patterns.*1.
Proof. apply (bool_decide_unpack _). by vm_compute. Qed.

(** C7.  The classifier lower-cases the text, scores each of the eight
    categories by the number of its keywords that occur in the text, and
    returns the category of maximal score, the first-registered one among
    equals; when no category scores it returns ["general_query"].  In
    particular a category scoring 2 wins when every other category scores at
    most 1. *)
Theorem classify_query_type_first_max (user_input : string) :
  let t := lower user_input in
  let score (p : string * list string) : nat :=
    length (filter (fun keyword => str_in keyword t = true) p.2) in
  length _initialize_query_patterns = 8%nat
  /\ (((forall p, p ∈ _initialize_query_patterns -> score p = 0%nat)
       /\ _classify_query_type user_input = "general_query")
      \/ (exists pre q kws post,
            _initialize_query_patterns = pre ++ (q, kws) :: post
            /\ _classify_query_type user_input = q
            /\ (0 < score (q, kws))%nat
            /\ (forall p, p ∈ pre -> (score p < score (q, kws))%nat)
            /\ (forall p, p ∈ post -> (score p <= score (q, kws))%nat)))
  /\ (forall q2 kws2,
        (q2, kws2) ∈ _initialize_query_patterns ->
        score (q2, kws2) = 2%nat ->
        (forall p, p ∈ _initialize_query_patterns -> p ≠ (q2, kws2) ->
                   (score p <= 1)%nat) ->
        _classify_query_type user_input = q2).
Proof.
  intros t score.
  assert (forall p, score p = keyword_score p.2 t) as Hscore
    by (intros p; unfold score; by rewrite keyword_score_count).
  pose proof (classify_with_first_max _ user_input query_patterns_NoDup) as Hmax.
  fold t in Hmax. fold (_classify_query_type user_input) in Hmax.
  assert (((forall p, p ∈ _initialize_query_patterns -> score p = 0%nat)
           /\ _classify_query_type user_input = "general_query")
          \/ (exists pre q kws post,
                _initialize_query_patterns = pre ++ (q, kws) :: post
                /\ _classify_query_type user_input = q
                /\ (0 < score (q, kws))%nat
                /\ (forall p, p ∈ pre -> (score p < score (q, kws))%nat)
                /\ (forall p, p ∈ post -> (score p <= score (q, kws))%nat)))
    as Hcases.
  { destruct Hmax as [[Hzero Hres] | (pre & q & kws & post & Hsplit & Hres & Hpos & Hpre & Hpost)].
    - left. split; [|done]. intros p Hp. rewrite Hscore. by apply Hzero.
    - right. exists pre, q, kws, post. rewrite !Hscore. simpl.
      repeat split; [done | done | done | |]; intros p Hp; rewrite Hscore; auto. }
  split; [done |]. split; [done |].
  intros q2 kws2 Hin2 Htwo Hothers.
  destruct Hcases as [[Hzero _] | (pre & q & kws & post & Hsplit & Hres & Hpos & Hpre & Hpost)].
  - specialize (Hzero _ Hin2). lia.
  - rewrite Hres.
    destruct (decide ((q, kws) = (q2, kws2))) as [Heq | Hne]; [congruence |].
    exfalso.
    assert ((q, kws) ∈ _initialize_query_patterns) as Hwin
      by (rewrite Hsplit; apply elem_of_app; right; left).
    specialize (Hothers _ Hwin Hne).
    rewrite Hsplit in Hin2.
    apply elem_of_app in Hin2 as [Hin2 | Hin2]; [apply Hpre in Hin2; lia |].
    apply elem_of_cons in Hin2 as [Heq | Hin2]; [congruence |].
    apply Hpost in Hin2. lia.
Qed.

(** A text scoring 1 for the ratio category and 2 for the later-registered
    visualisation category is classified as a visualisation query. *)
Lemma classify_query_type_first_max_witness :
  _classify_query_type "비율 차트 그래프" = "visualization_query".
Proof.
  set (t := lower "비율 차트 그래프").
  set (p0 := ("visualization_query",
              ["그래프"; "차트"; "시각화"; "graph"; "chart"; "plot"; "보여줘";
               "그림"; "도표"; "막대그래프"; "선그래프"])).
  refine (proj2 (proj2 (classify_query_type_first_max "비율 차트 그래프"))
            p0.1 p0.2 _ _ _).
  - unfold _initialize_query_patterns. do 4 right. left.
  - vm_compute. reflexivity.
  - intros p Hp Hne.
    assert (forallb (fun entry : string * list string =>
                       bool_decide (entry = p0)
                       || (length (filter (fun keyword => str_in keyword t = true)
                                          entry.2) <=? 1)%nat)
                    _initialize_query_patterns = true) as Hall
      by (vm_compute; reflexivity).
    rewrite forallb_forall in Hall.
    apply list_elem_of_In, Hall, orb_true_iff in Hp as [Heq | Hle].
    + by apply bool_decide_eq_true in Heq.
    + by apply Nat.leb_le in Hle.
Defined.

(** C9.  A keyword that contains a capital letter, such as ["ROE"] and
    ["ROA"] of the ratio category, occurs in no lower-cased text, so it never
    adds to a score; the input ["ROE"] falls back to ["general_query"]. *)
Theorem uppercase_keywords_never_score (user_input : string) :
  let t := lower user_input in
  (exists kws, ("ratio_query", kws) ∈ _initialize_query_patterns
               /\ "ROE" ∈ kws /\ "ROA" ∈ kws)
  /\ (forall keyword c,
        has_char c keyword = true -> is_ascii_upper c = true ->
        str_in keyword t = false)
  /\ str_in "ROE" t = false
  /\ str_in "ROA" t = false
  /\ (forall keywords,
        keyword_score keywords t
        = keyword_score (filter (fun k => k ≠ "ROE" /\ k ≠ "ROA") keywords) t)
  /\ _classify_query_type "ROE" = "general_query".
Proof.
  intros t.
  assert (forall keyword c, has_char c keyword = true -> is_ascii_upper c = true ->
                            str_in keyword t = false) as Habsent
    by (intros keyword c; apply upper_keyword_absent).
  assert (str_in "ROE" t = false) as Hroe by by apply (Habsent "ROE" "R"%char).
  assert (str_in "ROA" t = false) as Hroa by by apply (Habsent "ROA" "R"%char).
  split.
  { eexists. split; [unfold _initialize_query_patterns; right; left |].
    split; do 2 right; [left | right; left]. }
  split; [done |]. split; [done |]. split; [done |]. split; [|by vm_compute].
  intros keywords. induction keywords as [|k keywords IH]; [done |].
  rewrite filter_cons. cbn [keyword_score]. case_decide as Hk.
  - cbn [keyword_score]. by rewrite IH.
  - rewrite <- IH.
    destruct (decide (k = "ROE")) as [-> | ?]; [by rewrite Hroe |].
    destruct (decide (k = "ROA")) as [-> | ?]; [by rewrite Hroa |].
    by destruct Hk.
Qed.

Lemma uppercase_keywords_never_score_witness :
  str_in "ROE" (lower "삼성전자 ROE 알려줘") = false.
Proof.
  exact (proj1 (proj2 (uppercase_keywords_never_score "삼성전자 ROE 알려줘"))
           "ROE" "R"%char eq_refl eq_refl).
Defined.

(** ** Consensus grade extractor *)

Lemma grade_test_spec grade consensus :
  grade_test grade consensus = true <-> has_marker grade consensus.
Proof.
  unfold grade_test, has_marker.
  rewrite !orb_true_iff, !str_in_spec. tauto.
Qed.

Lemma grade_loop_first gs consensus pre g post :
  gs = pre ++ g :: post ->
  has_marker g consensus ->
  (forall g', g' ∈ pre -> ~ has_marker g' consensus) ->
  grade_loop gs consensus = g.
Proof.
  intros -> Hg Hpre. induction pre as [|g' pre IH]; simpl.
  - apply grade_test_spec in Hg. by rewrite Hg.
  - destruct (grade_test g' consensus) eqn:Htest.
    + apply grade_test_spec in Htest. destruct (Hpre g'); [left | done].
    + apply IH. intros g'' Hin. apply Hpre. by right.
Qed.

Lemma grade_loop_default gs consensus :
  (forall g, g ∈ gs -> ~ has_marker g consensus) ->
  grade_loop gs consensus = "B".
Proof.
  induction gs as [|g gs IH]; intros Hnone; simpl; [done |].
  destruct (grade_test g consensus) eqn:Htest.
  - apply grade_test_spec in Htest. destruct (Hnone g); [left | done].
  - apply IH. intros g' Hin. apply Hnone. by right.
Qed.

(** C6, amended.  The extractor scans the grades in the order S, A, B, C, D
    and returns the first one for which one of the three phrasings occurs in
    the text; the phrasings are written with the word 등급, before which the
    grade stands without a blank.  When none occurs it returns the default
    ["B"].  A text that holds ["등급:A"] and no marker of the earlier grade S
    yields ["A"]. *)
Theorem extract_grade_first_marker (consensus : string) :
  grades = ["S"; "A"; "B"; "C"; "D"]
  /\ (forall pre g post,
        grades = pre ++ g :: post ->
        has_marker g consensus ->
        (forall g', g' ∈ pre -> ~ has_marker g' consensus) ->
        _extract_grade_from_consensus consensus = g)
  /\ ((forall g, g ∈ grades -> ~ has_marker g consensus) ->
       _extract_grade_from_consensus consensus = "B")
  /\ ((exists pre post, consensus = pre +:+ "등급:A" +:+ post) ->
       ~ has_marker "S" consensus ->
       _extract_grade_from_consensus consensus = "A").
Proof.
  split; [done |]. split; [|split].
  - intros pre g post. apply grade_loop_first.
  - apply grade_loop_default.
  - intros Hmark HS. apply (grade_loop_first _ _ ["S"] "A" ["B"; "C"; "D"]).
    + done.
    + right. right. exact Hmark.
    + by intros g' ->%list_elem_of_singleton.
Qed.

Lemma extract_grade_first_marker_witness :
  _extract_grade_from_consensus "종합 의견: 투자 등급:A 로 합의" = "A".
Proof.
  refine (proj2 (proj2 (proj2
            (extract_grade_first_marker "종합 의견: 투자 등급:A 로 합의"))) _ _).
  - by exists "종합 의견: 투자 ", " 로 합의".
  - intros Hs%grade_test_spec. vm_compute in Hs. discriminate.
Defined.

(** C6 as stated fails.  A text that holds the phrasing of A with the colon
    does not always yield A: with a marker of S in it, the scan stops at S.
    And the phrasing of the claim, with the English word, is no marker for
    the code: a text that holds it yields the default. *)
Lemma grade_colon_A_does_not_yield_A :
  ~ (forall consensus,
       (exists pre post, consensus = pre +:+ "등급:A" +:+ post) ->
       _extract_grade_from_consensus consensus = "A")
  /\ ~ (forall consensus,
          (exists pre post, consensus = pre +:+ "grade:A" +:+ post) ->
          _extract_grade_from_consensus consensus = "A").
Proof.
  split.
  - intros Hclaim.
    specialize (Hclaim "S등급은 아니고 등급:A" ltac:(by exists "S등급은 아니고 ", "")).
    vm_compute in Hclaim. discriminate.
  - intros Hclaim. specialize (Hclaim "grade:A" ltac:(by exists "", "")).
    vm_compute in Hclaim. discriminate.
Qed.

(** C10.  Every membership test is made on the original text, not on the
    upper-cased copy, so recognition is case-sensitive.  A text that holds a
    marker written with a small letter and no marker written with a capital
    letter yields the default ["B"]; so does every text in which none of the
    capital letters S, A, B, C, D occurs, in particular every lower-cased
    text.  For each grade the marker with the small letter yields ["B"],
    although its upper-cased copy holds the marker of that grade, and the
    marker with the capital letter yields the grade. *)
Theorem extract_grade_case_sensitive (consensus : string) :
  (forall g, g ∈ grades ->
     has_marker (lower g) consensus ->
     (forall g', g' ∈ grades -> ~ has_marker g' consensus) ->
     _extract_grade_from_consensus consensus = "B")
  /\ ((forall c, c ∈ ["S"; "A"; "B"; "C"; "D"]%char -> has_char c consensus = false) ->
      _extract_grade_from_consensus consensus = "B")
  /\ _extract_grade_from_consensus (lower consensus) = "B"
  /\ (forall g, g ∈ grades ->
        _extract_grade_from_consensus (lower g +:+ "등급") = "B"
        /\ grade_loop grades (upper (lower g +:+ "등급")) = g
        /\ _extract_grade_from_consensus (g +:+ "등급") = g).
Proof.
  assert (forall text,
    (forall c, c ∈ ["S"; "A"; "B"; "C"; "D"]%char -> has_char c text = false) ->
    _extract_grade_from_consensus text = "B") as Hgeneral.
  { intros text Hnone. apply grade_loop_default. intros g Hg Hmark.
    assert (exists c, has_char c g = true /\ c ∈ ["S"; "A"; "B"; "C"; "D"]%char)
      as (c & Hcg & Hc).
    { unfold grades in Hg.
      repeat (apply elem_of_cons in Hg as [-> | Hg]);
        [exists "S"%char | exists "A"%char | exists "B"%char
         | exists "C"%char | exists "D"%char | inversion Hg];
        (split; [reflexivity | set_solver]). }
    assert (has_char c text = true) as Hin; [|rewrite (Hnone c Hc) in Hin; done].
    destruct Hmark as [Hm | [Hm | Hm]]; apply str_in_spec in Hm;
      apply (str_in_has_char _ _ c Hm); rewrite has_char_app, Hcg;
      by rewrite ?orb_true_r. }
  split; [intros g _ _; apply grade_loop_default |].
  split; [apply Hgeneral |]. split.
  - apply Hgeneral. intros c Hc.
    apply not_true_is_false. intros Hin%lower_no_upper.
    repeat (apply elem_of_cons in Hc as [-> | Hc]); try discriminate. inversion Hc.
  - intros g Hg. unfold grades in Hg.
    repeat (apply elem_of_cons in Hg as [-> | Hg]);
      [.. | inversion Hg]; vm_compute; repeat split; reflexivity.
Qed.

(** A consensus text with the marker of grade C in small letters only. *)
Lemma extract_grade_case_sensitive_witness :
  _extract_grade_from_consensus "최종 합의: c등급 (c grade)" = "B".
Proof.
  apply (proj1 (extract_grade_case_sensitive "최종 합의: c등급 (c grade)") "C").
  - unfold grades. set_solver.
  - left. by exists "최종 합의: ", " (c grade)".
  - intros g Hg Hmark%grade_test_spec. unfold grades in Hg.
    repeat (apply elem_of_cons in Hg as [-> | Hg]);
      [.. | inversion Hg]; vm_compute in Hmark; discriminate.
Defined.

(** ** Analysis context cache *)

Section CacheFacts.

Import ContextCache.

Context {V L : Type} (empty_dict : V).

Implicit Types (self : @engine V L) (memory : gmap string (@context V L)).

Lemma foldl_delete_lookup memory (companies : list string) (company : string) :
  foldl (fun memory company => delete company memory) memory companies !! company
  = if decide (company ∈ companies) then None else memory !! company.
Proof.
  revert memory. induction companies as [|c companies IH]; intros memory; cbn [foldl].
  - case_decide as Hin; [inversion Hin | done].
  - rewrite IH. destruct (decide (company = c)) as [-> | Hne].
    + rewrite lookup_delete_eq.
      destruct (decide (c ∈ c :: companies)) as [_ | Hout]; [by case_decide |].
      destruct Hout. left.
    + rewrite lookup_delete_ne by done.
      destruct (decide (company ∈ companies)) as [Hin | Hout];
        destruct (decide (company ∈ c :: companies)) as [Hin' | Hout']; try done.
      * destruct Hout'. by right.
      * by apply elem_of_cons in Hin' as [? | ?].
Qed.

(** The companies collected by the first loop of [clear_old_contexts]. *)
Lemma to_remove_spec memory (cutoff_time : Z) (company : string) :
  company ∈ (filter (fun entry : string * context => timestamp entry.2 < cutoff_time)
                    (map_to_list memory)).*1
  <-> exists c, memory !! company = Some c /\ timestamp c < cutoff_time.
Proof.
  rewrite list_elem_of_fmap. split.
  - intros [[k c] [-> [Hold Hin]%list_elem_of_filter]].
    apply elem_of_map_to_list in Hin. by exists c.
  - intros (c & Hc & Hold). exists (company, c). split; [done |].
    apply list_elem_of_filter. split; [done | by apply elem_of_map_to_list].
Qed.

(** What a lookup finds after an eviction. *)
Lemma get_after_clear self (now hours : Z) (company : string) :
  get_analysis_context (clear_old_contexts now hours self) company
  = match get_analysis_context self company with
    | Some c =>
        if decide (timestamp c < now - timedelta_hours hours) then None else Some c
    | None => None
    end.
Proof.
  unfold get_analysis_context, clear_old_contexts. simpl.
  rewrite foldl_delete_lookup.
  destruct (conversation_memory self !! company) as [c|] eqn:Hc.
  - destruct (decide (timestamp c < now - timedelta_hours hours)) as [Hold | Hnew].
    + rewrite decide_True; [done |]. apply to_remove_spec. by exists c.
    + rewrite decide_False; [done |].
      intros (c' & Hc' & Hold)%to_remove_spec. congruence.
  - by case_decide.
Qed.

(** C8.  A lookup right after [save_analysis_context] returns the stored
    context, whatever was stored for the company before.  After
    [clear_old_contexts] a lookup finds exactly the contexts whose timestamp
    is not older than [now - hours]: a context saved at [saved_at] is gone
    once [saved_at < now - hours], and is still there otherwise. *)
Theorem cache_put_get_evict self (saved_at : Z) (company : string)
    (data : gmap string V) :
  let stored := {| timestamp := saved_at;
                   analysis_data := data;
                   ratios := dict_get data "ratios" empty_dict;
                   financial_data := dict_get data "financial_data" empty_dict;
                   cash_flow_data := dict_get data "cash_flow_data" empty_dict;
                   a2a_discussion_log := discussion_log self |} in
  let self' := save_analysis_context empty_dict saved_at company data self in
  get_analysis_context self' company = Some stored
  /\ (forall other, other ≠ company ->
        get_analysis_context self' other = get_analysis_context self other)
  /\ (forall now hours name,
        get_analysis_context (clear_old_contexts now hours self) name
        = match get_analysis_context self name with
          | Some c =>
              if decide (timestamp c < now - timedelta_hours hours)
              then None else Some c
          | None => None
          end)
  /\ (forall now hours,
        saved_at < now - timedelta_hours hours ->
        get_analysis_context (clear_old_contexts now hours self') company = None)
  /\ (forall now hours,
        now - timedelta_hours hours <= saved_at ->
        get_analysis_context (clear_old_contexts now hours self') company
        = Some stored).
Proof.
  intros stored self'.
  assert (get_analysis_context self' company = Some stored) as Hget
    by apply lookup_insert_eq.
  split; [done |]. split.
  { intros other Hne. unfold get_analysis_context, self'. simpl.
    by rewrite lookup_insert_ne. }
  split; [intros; apply get_after_clear |]. split.
  - intros now hours Hold. rewrite get_after_clear, Hget.
    by rewrite decide_True.
  - intros now hours Hnew. rewrite get_after_clear, Hget.
    rewrite decide_False; [done | unfold stored; simpl; lia].
Qed.

End CacheFacts.

(** A context saved at time 10 is found at once and is gone after an eviction
    run one microsecond more than 24 hours later. *)
Lemma cache_put_get_evict_witness :
  let self := {| ContextCache.conversation_memory := ∅;
                 ContextCache.discussion_log := [1%nat] |} in
  let self' :=
    ContextCache.save_analysis_context 0%nat 10 "삼성전자" {["ratios" := 7%nat]} self in
  ContextCache.get_analysis_context
    (ContextCache.clear_old_contexts (10 + 24 * 3600000000 + 1) 24 self') "삼성전자"
  = None.
Proof.
  intros self self'.
  apply (proj1 (proj2 (proj2 (proj2
           (cache_put_get_evict 0%nat self 10 "삼성전자" {["ratios" := 7%nat]}))))).
  vm_compute. reflexivity.
Defined.

(** ** Integer division into floats *)

Section TrueDivision.

(** A quotient below [k + 1/2] is rounded to at most [k]. *)
Lemma round_half_even_le (num den k : Z) :
  0 <= num -> 0 < den -> 2 * num < (2 * k + 1) * den ->
  round_half_even num den <= k.
Proof.
  intros Hnum Hden Hlt. unfold round_half_even.
  pose proof (Z.div_mod num den ltac:(lia)) as Hdm.
  pose proof (Z.mod_pos_bound num den Hden) as Hr.
  set (q := num / den) in *. set (r := num mod den) in *.
  assert (q <= k) as Hq by nia.
  destruct (Z.compare_spec (2 * r) den) as [Heq | Hlt' | Hgt].
  - destruct (Z.even q); [done |]. nia.
  - done.
  - nia.
Qed.

Lemma pow2_pos (n : Z) : 0 <= n -> 0 < 2 ^ n.
Proof. intros. by apply Z.pow_pos_nonneg. Qed.

(** The exponent chosen for a quotient below [2^1024] is at most 971. *)
Lemma quotient_exponent_le (x y : Z) :
  0 < x -> 0 < y -> x < 2 ^ 1024 * y -> quotient_exponent x y <= 971.
Proof.
  intros Hx Hy Hlt. unfold quotient_exponent.
  destruct (Z.log2_spec x Hx) as [Hxl Hxu].
  destruct (Z.log2_spec y Hy) as [Hyl Hyu].
  pose proof (Z.log2_nonneg x) as Hlx. pose proof (Z.log2_nonneg y) as Hly.
  set (lx := Z.log2 x) in *. set (ly := Z.log2 y) in *.
  set (d := lx - ly).
  assert (d <= 1024) as Hd.
  { destruct (Z_le_gt_dec d 1024) as [? | Hbig]; [done | exfalso].
    assert (2 ^ (1025 + ly) <= 2 ^ lx) as Hpow
      by (apply Z.pow_le_mono_r; lia).
    replace (1025 + ly) with (1024 + Z.succ ly) in Hpow by lia.
    rewrite Z.pow_add_r in Hpow by lia.
    pose proof (pow2_pos 1024 ltac:(lia)). nia. }
  destruct (Z.leb_spec (y * 2 ^ Z.max d 0) (x * 2 ^ Z.max (- d) 0)) as [Htest | Htest];
    [|lia].
  destruct (Z_le_gt_dec d 1023) as [? | Hbig]; [lia | exfalso].
  assert (d = 1024) as Hd' by lia.
  rewrite Hd' in Htest. change (Z.max 1024 0) with 1024 in Htest.
  change (Z.max (- 1024) 0) with 0 in Htest. rewrite Z.pow_0_r in Htest. lia.
Qed.

(** Division of integers does not overflow when the quotient is below the
    midpoint between the largest float and [2^1024]. *)
Lemma float_of_ratio_ok (negative : bool) (x y : Z) :
  0 <= x -> 0 < y -> 2 * x < (2 ^ 54 - 1) * 2 ^ 971 * y ->
  exists f, float_of_ratio negative x y = Ok f.
Proof.
  intros Hx Hy Hlt. unfold float_of_ratio.
  destruct (Z.eqb_spec x 0) as [-> | Hx0]; [eauto |].
  assert (x < 2 ^ 1024 * y) as Hlt'.
  { replace (2 ^ 1024) with (2 ^ 53 * 2 ^ 971) by (by rewrite <- Z.pow_add_r).
    pose proof (pow2_pos 971 ltac:(lia)).
    assert (0 < 2 ^ 971 * y) by lia.
    replace (2 ^ 54) with (2 * 2 ^ 53) in Hlt by (by rewrite <- Z.pow_succ_r).
    nia. }
  pose proof (quotient_exponent_le x y ltac:(lia) Hy Hlt') as He.
  unfold round_ratio. set (e := quotient_exponent x y) in *.
  set (m := round_half_even _ _).
  destruct (Z.eqb_spec m (2 ^ 53)) as [Hm | Hm].
  - change (2 ^ 52) with (Zpos 4503599627370496).
    destruct (Z.leb_spec (e + 1) (float_emax - float_prec)) as [? | Hbig]; [eauto |].
    exfalso. assert (e = 971) as He' by (unfold float_emax, float_prec in Hbig; lia).
    assert (m <= 2 ^ 53 - 1); [|lia].
    unfold m. rewrite He'. change (Z.max (- 971) 0) with 0.
    change (Z.max 971 0) with 971. rewrite Z.pow_0_r, Z.mul_1_r.
    pose proof (pow2_pos 971 ltac:(lia)).
    apply round_half_even_le; [lia | lia |].
    replace (2 * (2 ^ 53 - 1) + 1) with (2 ^ 54 - 1)
      by (replace (2 ^ 54) with (2 * 2 ^ 53) by (by rewrite <- Z.pow_succ_r); lia).
    lia.
  - destruct m as [|p|p]; [eauto | | eauto].
    destruct (Z.leb_spec e (float_emax - float_prec)) as [? | Hbig]; [eauto |].
    unfold float_emax, float_prec in Hbig. lia.
Qed.

(** [a / b] returns a float whenever [b] is not zero and [a] is within the
    range of the finite floats. *)
Lemma int_truediv_ok (a b : Z) :
  b ≠ 0 -> Z.abs a <= max_float_int -> exists f, int_truediv a b = Ok f.
Proof.
  intros Hb Ha. unfold int_truediv.
  destruct (Z.eqb_spec b 0) as [? | _]; [done |].
  apply float_of_ratio_ok; [lia | lia |].
  unfold max_float_int in Ha.
  pose proof (pow2_pos 971 ltac:(lia)).
  replace (2 ^ 54) with (2 * 2 ^ 53) by (by rewrite <- Z.pow_succ_r).
  assert (1 <= Z.abs b) by lia. nia.
Qed.

(** The growth quotient [(a - b) / b] of two in-range amounts. *)
Lemma int_truediv_growth_ok (a b : Z) :
  b ≠ 0 -> Z.abs a <= max_float_int -> Z.abs b <= max_float_int ->
  exists f, int_truediv (a - b) b = Ok f.
Proof.
  intros Hb Ha Hb'. unfold int_truediv.
  destruct (Z.eqb_spec b 0) as [? | _]; [done |].
  apply float_of_ratio_ok; [lia | lia |].
  unfold max_float_int in *.
  pose proof (pow2_pos 971 ltac:(lia)).
  replace (2 ^ 54) with (2 * 2 ^ 53) by (by rewrite <- Z.pow_succ_r).
  assert (4 <= 2 ^ 971) by (change 4 with (2 ^ 2); apply Z.pow_le_mono_r; lia).
  assert (2 <= 2 ^ 53) by (change 2 with (2 ^ 1) at 1; apply Z.pow_le_mono_r; lia).
  set (P := 2 ^ 971) in *. set (Q := 2 ^ 53) in *.
  assert (Z.abs (a - b) <= (Q - 1) * P + Z.abs b) by lia.
  assert (1 <= Z.abs b) by lia. nia.
Qed.

Lemma digits2_pos_spec (m : positive) :
  2 ^ (Zpos (digits2_pos m) - 1) <= Zpos m < 2 ^ Zpos (digits2_pos m).
Proof.
  induction m as [m IH | m IH |]; cbn [digits2_pos].
  - rewrite Pos2Z.inj_succ. change (Zpos m~1) with (2 * Zpos m + 1).
    set (d := Zpos (digits2_pos m)) in *.
    assert (0 < d) by (unfold d; lia).
    replace (Z.succ d - 1) with (Z.succ (d - 1)) by lia.
    rewrite (Z.pow_succ_r 2 d), (Z.pow_succ_r 2 (d - 1)) by lia. lia.
  - rewrite Pos2Z.inj_succ. change (Zpos m~0) with (2 * Zpos m).
    set (d := Zpos (digits2_pos m)) in *.
    assert (0 < d) by (unfold d; lia).
    replace (Z.succ d - 1) with (Z.succ (d - 1)) by lia.
    rewrite (Z.pow_succ_r 2 d), (Z.pow_succ_r 2 (d - 1)) by lia. lia.
  - split; [reflexivity | reflexivity].
Qed.

(** The two sides of a comparison of [x] with [y * 2^k] can be brought to a
    common scale [2^n]. *)
Lemma pow2_scale (x y k n : Z) :
  0 <= n -> 0 <= k + n ->
  y * 2 ^ Z.max k 0 <= x * 2 ^ Z.max (- k) 0 <-> y * 2 ^ (k + n) <= x * 2 ^ n.
Proof.
  intros Hn Hkn. destruct (Z_le_gt_dec 0 k) as [Hk | Hk].
  - rewrite (Z.max_l k 0), (Z.max_r (- k) 0), Z.pow_0_r, Z.mul_1_r by lia.
    rewrite Z.pow_add_r, Z.mul_assoc by lia.
    pose proof (pow2_pos n Hn) as Hpos.
    set (P := 2 ^ n) in *. set (A := y * 2 ^ k).
    split; intros Hle; [by apply Z.mul_le_mono_nonneg_r; [lia |] |].
    by apply Z.mul_le_mono_pos_r in Hle.
  - rewrite (Z.max_r k 0), (Z.max_l (- k) 0), Z.pow_0_r, Z.mul_1_r by lia.
    replace n with ((k + n) + (- k)) at 2 by lia.
    rewrite (Z.pow_add_r 2 (k + n) (- k)) by lia.
    pose proof (pow2_pos (k + n) Hkn) as Hpos.
    set (P := 2 ^ (k + n)) in *. set (Q := 2 ^ (- k)).
    replace (x * (P * Q)) with ((x * Q) * P) by ring.
    split; intros Hle; [by apply Z.mul_le_mono_nonneg_r; [lia |] |].
    by apply Z.mul_le_mono_pos_r in Hle.
Qed.

Lemma round_half_even_ge (num den k : Z) :
  0 < den -> k * den <= num -> k <= round_half_even num den.
Proof.
  intros Hden Hle. unfold round_half_even.
  pose proof (Z.div_mod num den ltac:(lia)) as Hdm.
  pose proof (Z.mod_pos_bound num den Hden) as Hr.
  set (q := num / den) in *. set (r := num mod den) in *.
  assert (k <= q) as Hq by nia.
  destruct (2 * r ?= den); [destruct (Z.even q) | |]; lia.
Qed.

(** The rounded value is a nearest integer to [num / den]. *)
Lemma round_half_even_nearest (num den : Z) :
  0 < den -> 2 * Z.abs (round_half_even num den * den - num) <= den.
Proof.
  intros Hden. unfold round_half_even.
  pose proof (Z.div_mod num den ltac:(lia)) as Hdm.
  pose proof (Z.mod_pos_bound num den Hden) as Hr.
  set (q := num / den) in *. set (r := num mod den) in *.
  destruct (Z.compare_spec (2 * r) den) as [Heq | Hlt | Hgt];
    [destruct (Z.even q) | |]; nia.
Qed.

Lemma pow2_add (a b : Z) : 0 <= a -> 0 <= b -> 2 ^ (a + b) = 2 ^ a * 2 ^ b.
Proof. intros. by apply Z.pow_add_r. Qed.

(** The exponent chosen by [quotient_exponent] is that of the binary64 unit
    in the last place of [x / y]: the quotient scaled by it is below [2^53]
    and, unless the exponent is the subnormal one, at least [2^52]. *)
Lemma quotient_exponent_bounds (x y : Z) :
  0 < x -> 0 < y ->
  let e := quotient_exponent x y in
  let num := x * 2 ^ Z.max (- e) 0 in
  let den := y * 2 ^ Z.max e 0 in
  -1074 <= e
  /\ num < 2 ^ 53 * den
  /\ (-1074 < e -> 2 ^ 52 * den <= num).
Proof.
  intros Hx Hy. unfold quotient_exponent.
  destruct (Z.log2_spec x Hx) as [Hxl Hxu].
  destruct (Z.log2_spec y Hy) as [Hyl Hyu].
  pose proof (Z.log2_nonneg x) as Hlx. pose proof (Z.log2_nonneg y) as Hly.
  set (lx := Z.log2 x) in *. set (ly := Z.log2 y) in *.
  set (d := lx - ly).
  set (N := lx + ly + 1100).
  pose proof (pow2_pos N ltac:(unfold N; lia)) as HN.
  set (L := if y * 2 ^ Z.max d 0 <=? x * 2 ^ Z.max (- d) 0 then d else d - 1).
  assert (d - 1 <= L <= d) as HLd by (unfold L; destruct (_ <=? _); lia).
  assert (x * 2 ^ N < y * 2 ^ (L + 1 + N) /\ y * 2 ^ (L + N) <= x * 2 ^ N)
    as [HA HB].
  { pose proof (pow2_scale x y d N ltac:(unfold N; lia) ltac:(unfold N, d; lia))
      as Hscale.
    unfold L. destruct (Z.leb_spec (y * 2 ^ Z.max d 0) (x * 2 ^ Z.max (- d) 0))
      as [Htest | Htest].
    - split; [|by apply Hscale].
      assert (2 ^ Z.succ lx * 2 ^ N = 2 ^ ly * 2 ^ (d + 1 + N)) as Heq.
      { rewrite <- !pow2_add by (unfold N, d; lia). f_equal. unfold d. lia. }
      pose proof (pow2_pos (d + 1 + N) ltac:(unfold N, d; lia)).
      assert (x * 2 ^ N < 2 ^ Z.succ lx * 2 ^ N)
        by (apply Z.mul_lt_mono_pos_r; lia).
      assert (2 ^ ly * 2 ^ (d + 1 + N) <= y * 2 ^ (d + 1 + N))
        by (apply Z.mul_le_mono_nonneg_r; lia).
      lia.
    - split.
      + replace (d - 1 + 1 + N) with (d + N) by lia.
        apply Z.nle_gt. intros Hle. apply Hscale in Hle. lia.
      + assert (2 ^ Z.succ ly * 2 ^ (d - 1 + N) = 2 ^ lx * 2 ^ N) as Heq.
        { rewrite <- !pow2_add by (unfold N, d; lia). f_equal. unfold d. lia. }
        pose proof (pow2_pos (d - 1 + N) ltac:(unfold N, d; lia)).
        assert (y * 2 ^ (d - 1 + N) <= 2 ^ Z.succ ly * 2 ^ (d - 1 + N))
          by (apply Z.mul_le_mono_nonneg_r; lia).
        assert (2 ^ lx * 2 ^ N <= x * 2 ^ N)
          by (apply Z.mul_le_mono_nonneg_r; lia).
        lia. }
  clearbody L. set (e := Z.max (L - 52) (-1074)).
  assert (-1074 <= e) as He by (unfold e; lia).
  cbn zeta. split; [done |]. split.
  - apply Z.nle_gt. intros Hle. rewrite Z.mul_assoc in Hle.
    apply (pow2_scale x (2 ^ 53 * y) e N) in Hle; [|unfold N; lia..].
    replace (2 ^ 53 * y * 2 ^ (e + N)) with (y * 2 ^ (e + 53 + N)) in Hle
      by (replace (e + 53 + N) with (53 + (e + N)) by lia;
          rewrite pow2_add by (unfold N; lia); ring).
    assert (2 ^ (L + 1 + N) <= 2 ^ (e + 53 + N))
      by (apply Z.pow_le_mono_r; unfold N, d in *; lia).
    assert (y * 2 ^ (L + 1 + N) <= y * 2 ^ (e + 53 + N))
      by (apply Z.mul_le_mono_nonneg_l; lia).
    lia.
  - intros Hnormal. assert (e = L - 52) as -> by (unfold e in *; lia).
    rewrite Z.mul_assoc.
    apply (pow2_scale x (2 ^ 52 * y) (L - 52) N); [unfold N; lia.. |].
    replace (2 ^ 52 * y * 2 ^ (L - 52 + N)) with (y * 2 ^ (L + N)); [done |].
    replace (L + N) with (52 + (L - 52 + N)) by lia.
    rewrite pow2_add by (unfold N, d in *; lia). ring.
Qed.

(** [round_ratio] yields a mantissa and an exponent in binary64 canonical
    form. *)
Lemma round_ratio_canonical (x y m e : Z) :
  0 < x -> 0 < y -> round_ratio x y = (m, e) ->
  0 <= m < 2 ^ 53 /\ -1074 <= e /\ (2 ^ 52 <= m \/ e = -1074).
Proof.
  intros Hx Hy. unfold round_ratio.
  destruct (quotient_exponent_bounds x y Hx Hy) as (He & HU & HL).
  set (e0 := quotient_exponent x y) in *.
  set (num := x * 2 ^ Z.max (- e0) 0) in *.
  set (den := y * 2 ^ Z.max e0 0) in *.
  assert (0 < den) as Hden
    by (unfold den; pose proof (pow2_pos (Z.max e0 0) ltac:(lia)); nia).
  assert (0 <= num) as Hnum
    by (unfold num; pose proof (pow2_pos (Z.max (- e0) 0) ltac:(lia)); nia).
  set (P := 2 ^ 53) in *.
  assert (2 ^ 52 < P /\ 0 < 2 ^ 52) as [HP1 HP2] by (by vm_compute).
  assert (round_half_even num den <= P) as Hle
    by (apply round_half_even_le; [done | done | nia]).
  assert (0 <= round_half_even num den) as Hge
    by (apply round_half_even_ge; [done | lia]).
  destruct (Z.eqb_spec (round_half_even num den) P) as [Heq | Hne];
    intros [= <- <-].
  - split; [lia |]. split; [lia | by left].
  - split; [lia |]. split; [done |].
    destruct (Z_le_gt_dec e0 (-1074)) as [? | Hnormal]; [right; lia | left].
    apply round_half_even_ge; [done |]. apply HL. lia.
Qed.

(** Every float returned by [float_of_ratio], hence by [int_truediv] and
    [float_of_int], is a valid binary64 value. *)
Lemma float_of_ratio_valid (negative : bool) (x y : Z) (f : spec_float) :
  0 <= x -> 0 < y -> float_of_ratio negative x y = Ok f ->
  valid_binary float_prec float_emax f = true.
Proof.
  intros Hx Hy. unfold float_of_ratio.
  destruct (Z.eqb_spec x 0) as [_ | Hx0]; [by intros [= <-] |].
  destruct (round_ratio x y) as [m e] eqn:Hround.
  apply round_ratio_canonical in Hround as (Hm & He & Hcanon); [|lia | done].
  destruct m as [|p|p]; [by intros [= <-] | | by intros [= <-]].
  destruct (Z.leb_spec e (float_emax - float_prec)) as [Hemax | ?]; [|done].
  intros [= <-]. cbn [valid_binary]. unfold bounded.
  apply andb_true_iff. split; [|by apply Z.leb_le].
  unfold canonical_mantissa, fexp, emin, float_prec, float_emax.
  apply Z.eqb_eq.
  pose proof (digits2_pos_spec p) as [Hdl Hdu].
  set (dg := Zpos (digits2_pos p)) in *.
  assert (dg <= 53) as Hdg.
  { destruct (Z_le_gt_dec dg 53) as [? | Hbig]; [done | exfalso].
    assert (2 ^ 53 <= 2 ^ (dg - 1)) by (apply Z.pow_le_mono_r; lia). lia. }
  destruct Hcanon as [Hnormal | ->]; [|lia].
  assert (53 <= dg); [|lia].
  destruct (Z_le_gt_dec 53 dg) as [? | Hsmall]; [done | exfalso].
  assert (2 ^ dg <= 2 ^ 52) by (apply Z.pow_le_mono_r; unfold dg; lia). lia.
Qed.

Lemma int_truediv_valid (a b : Z) (f : spec_float) :
  int_truediv a b = Ok f -> valid_binary float_prec float_emax f = true.
Proof.
  unfold int_truediv. destruct (Z.eqb_spec b 0) as [? | Hb]; [done |].
  apply float_of_ratio_valid; lia.
Qed.

(** The integer part of a valid float is within the float range. *)
Lemma int_of_float_in_range (f : spec_float) (z : Z) :
  valid_binary float_prec float_emax f = true ->
  int_of_float f = Ok z -> Z.abs z <= max_float_int.
Proof.
  assert (0 <= max_float_int) as Hmax by (by vm_compute).
  destruct f as [s | s | | s m e]; simpl; try done; [by intros _ [= <-] |].
  unfold bounded, canonical_mantissa, fexp, emin, float_prec, float_emax.
  intros [Hcanon Hemax]%andb_true_iff [= <-].
  apply Z.eqb_eq in Hcanon. apply Z.leb_le in Hemax.
  pose proof (digits2_pos_spec m) as [_ Hdu].
  set (dg := Zpos (digits2_pos m)) in *.
  assert (Zpos m < 2 ^ 53) as Hm
    by (assert (2 ^ dg <= 2 ^ 53) by (apply Z.pow_le_mono_r; lia); lia).
  assert (forall v, 0 <= v <= max_float_int -> Z.abs (cond_Zopp s v) <= max_float_int)
    as Hsign by (intros v ?; destruct s; simpl; lia).
  apply Hsign. destruct (Z.leb_spec 0 e) as [Hpos | Hneg].
  - pose proof (pow2_pos e Hpos).
    assert (2 ^ e <= 2 ^ 971) by (apply Z.pow_le_mono_r; lia).
    unfold max_float_int. split; [lia |].
    apply Z.mul_le_mono_nonneg; lia.
  - pose proof (pow2_pos (- e) ltac:(lia)).
    assert (0 <= Zpos m / 2 ^ (- e) <= Zpos m)
      by (split; [apply Z.div_pos; lia | apply Z.div_le_upper_bound; nia]).
    assert (2 ^ 53 - 1 <= max_float_int) by (by vm_compute). lia.
Qed.

(** The only exception of a division by a non-zero integer is
    [OverflowError], and only for a dividend beyond the float range. *)
Lemma int_truediv_raises (a b : Z) (e : py_exn) :
  b ≠ 0 -> int_truediv a b = Raise e ->
  e = OverflowError /\ max_float_int < Z.abs a.
Proof.
  intros Hb Hraise. split.
  - revert Hraise. unfold int_truediv, float_of_ratio.
    destruct (Z.eqb_spec b 0) as [? | _]; [done |].
    destruct (Z.abs a =? 0); [done |].
    destruct (round_ratio _ _) as [[|m|m] ex]; try done.
    destruct (ex <=? _); [done |]. by intros [= <-].
  - apply Z.nle_gt. intros Hrange.
    destruct (int_truediv_ok a b Hb Hrange) as [f Hf]. congruence.
Qed.

Lemma float_of_int_100 :
  float_of_int 100 = Ok (S754_finite false 7036874417766400 (-46)).
Proof. by vm_compute. Qed.

End TrueDivision.

(** ** Ratio engine *)

Section Ratios.

Lemma dict_get_in_range (d : gmap string Z) (key : string) :
  amounts_in_range d -> Z.abs (dict_get d key 0) <= max_float_int.
Proof.
  intros Hrange. unfold dict_get. destruct (d !! key) as [v|] eqn:Hv.
  - by apply (Hrange key).
  - by vm_compute.
Qed.

Lemma py_mul_int_float_100 (f : spec_float) :
  py_mul_int (PyFloat f) 100 = Ok (PyFloat (SFmul float_prec float_emax f float_100)).
Proof. unfold py_mul_int. by rewrite float_of_int_100. Qed.

Lemma safe_percentage_zero (a : Z) : safe_percentage a 0 = Ok (PyInt 0).
Proof. reflexivity. Qed.

Lemma safe_percentage_unfold (a b : Z) :
  b ≠ 0 ->
  safe_percentage a b
  = f ← int_truediv a b; Ok (PyFloat (SFmul float_prec float_emax f float_100)).
Proof.
  intros Hb. unfold safe_percentage, safe_divide.
  destruct (Z.eqb_spec b 0) as [? | _]; [done |]. cbn [negb].
  destruct (int_truediv a b) as [q | e]; cbn [mbind result_bind]; [|done].
  apply py_mul_int_float_100.
Qed.

Lemma safe_percentage_nonzero (a b : Z) (q : spec_float) :
  b ≠ 0 -> int_truediv a b = Ok q ->
  safe_percentage a b = Ok (PyFloat (SFmul float_prec float_emax q float_100)).
Proof. intros Hb Hq. by rewrite safe_percentage_unfold, Hq. Qed.

Lemma safe_percentage_reference (a b : Z) (v : pyval) :
  safe_percentage a b = Ok v -> is_percentage a b v.
Proof.
  unfold is_percentage. destruct (decide (b = 0)) as [-> | Hb].
  - rewrite safe_percentage_zero. congruence.
  - rewrite safe_percentage_unfold by done.
    destruct (int_truediv a b) as [q | e]; cbn [mbind result_bind]; [|done].
    intros [= <-]. by exists q.
Qed.

(** The divisor is tested first: [ZeroDivisionError] cannot be raised. *)
Lemma safe_percentage_no_zero_division (a b : Z) :
  safe_percentage a b ≠ Raise ZeroDivisionError.
Proof.
  destruct (decide (b = 0)) as [-> | Hb]; [done |].
  rewrite safe_percentage_unfold by done.
  unfold int_truediv, float_of_ratio.
  destruct (Z.eqb_spec b 0) as [? | _]; [done |].
  destruct (Z.abs a =? 0); [done |].
  destruct (round_ratio _ _) as [[|m|m] e]; try done.
  by destruct (e <=? _).
Qed.

Lemma safe_percentage_ok (a b : Z) :
  Z.abs a <= max_float_int ->
  exists v, safe_percentage a b = Ok v /\ is_percentage a b v.
Proof.
  intros Ha. destruct (decide (b = 0)) as [-> | Hb].
  - exists (PyInt 0). split; [done |]. by apply safe_percentage_reference.
  - destruct (int_truediv_ok a b Hb Ha) as [q Hq].
    eexists. split; [by apply safe_percentage_nonzero |].
    apply safe_percentage_reference. by apply safe_percentage_nonzero.
Qed.

Lemma safe_percentage_growth_ok (a b : Z) :
  Z.abs a <= max_float_int -> Z.abs b <= max_float_int ->
  exists v, safe_percentage (a - b) b = Ok v /\ is_percentage (a - b) b v.
Proof.
  intros Ha Hb'. destruct (decide (b = 0)) as [-> | Hb].
  - exists (PyInt 0). split; [done |]. by apply safe_percentage_reference.
  - destruct (int_truediv_growth_ok a b Hb Ha Hb') as [q Hq].
    eexists. split; [by apply safe_percentage_nonzero |].
    apply safe_percentage_reference. by apply safe_percentage_nonzero.
Qed.

End Ratios.

(** For amounts in the float range the engine returns, and every ratio
    follows its reference definition. *)
Lemma basic_ratios_in_range (financial_data : gmap string Z)
    (multi_year_data : option (gmap string (gmap string Z))) :
  amounts_in_range financial_data ->
  (forall years prev_data,
     multi_year_data = Some years -> years !! "2023" = Some prev_data ->
     amounts_in_range prev_data) ->
  exists ratios,
    _calculate_basic_ratios financial_data multi_year_data = Ok ratios
    /\ ratios_by_reference financial_data ratios.
Proof.
  intros Hrange Hprev. unfold _calculate_basic_ratios, ratios_by_reference.
  set (revenue := dict_get financial_data "revenue" 0).
  set (operating_income := dict_get financial_data "operating_income" 0).
  set (net_income := dict_get financial_data "net_income" 0).
  set (total_assets := dict_get financial_data "total_assets" 0).
  set (total_liabilities := dict_get financial_data "total_liabilities" 0).
  set (total_equity := dict_get financial_data "total_equity" 0).
  assert (forall key, Z.abs (dict_get financial_data key 0) <= max_float_int)
    as Hget by (intros; by apply dict_get_in_range).
  destruct (safe_percentage_ok net_income total_equity (Hget _)) as (roe & -> & Hroe).
  destruct (safe_percentage_ok net_income total_assets (Hget _)) as (roa & -> & Hroa).
  destruct (safe_percentage_ok operating_income revenue (Hget _)) as (om & -> & Hom).
  destruct (safe_percentage_ok net_income revenue (Hget _)) as (nm & -> & Hnm).
  destruct (safe_percentage_ok total_liabilities total_equity (Hget _))
    as (dr & -> & Hdr).
  destruct (safe_percentage_ok total_equity total_assets (Hget _)) as (er & -> & Her).
  unfold mbind, result_bind; cbn beta iota zeta.
  assert (forall ratios : gmap string pyval,
    ratios !! "ROE" = Some roe -> ratios !! "ROA" = Some roa ->
    ratios !! "영업이익률" = Some om -> ratios !! "순이익률" = Some nm ->
    ratios !! "부채비율" = Some dr -> ratios !! "자기자본비율" = Some er ->
    has_ratio ratios "ROE" net_income total_equity
    /\ has_ratio ratios "ROA" net_income total_assets
    /\ has_ratio ratios "영업이익률" operating_income revenue
    /\ has_ratio ratios "순이익률" net_income revenue
    /\ has_ratio ratios "부채비율" total_liabilities total_equity
    /\ has_ratio ratios "자기자본비율" total_equity total_assets
    /\ (total_equity = 0 -> ratios !! "ROE" = Some (PyInt 0))
    /\ (revenue = 0 ->
         ratios !! "영업이익률" = Some (PyInt 0)
         /\ ratios !! "순이익률" = Some (PyInt 0))) as Hfinal.
  { intros ratios Hl1 Hl2 Hl3 Hl4 Hl5 Hl6.
    repeat split; try (by eexists).
    - intros Hzero. rewrite Hl1. unfold is_percentage in Hroe.
      rewrite decide_True in Hroe by done. by rewrite Hroe.
    - rewrite Hl3. unfold is_percentage in Hom.
      rewrite decide_True in Hom by done. by rewrite Hom.
    - rewrite Hl4. unfold is_percentage in Hnm.
      rewrite decide_True in Hnm by done. by rewrite Hnm. }
  destruct multi_year_data as [years|]; simpl;
    [destruct (years !! "2023") as [prev_data|] eqn:Hyears; simpl |].
  - assert (amounts_in_range prev_data) as Hp by by apply (Hprev years).
    destruct (safe_percentage_growth_ok revenue (dict_get prev_data "revenue" 0)
                (Hget _) (dict_get_in_range _ _ Hp)) as (g1 & -> & _).
    destruct (safe_percentage_growth_ok net_income (dict_get prev_data "net_income" 0)
                (Hget _) (dict_get_in_range _ _ Hp)) as (g2 & -> & _).
    eexists. split; [done |]. by apply Hfinal; simplify_map_eq.
  - eexists. split; [done |]. by apply Hfinal; simplify_map_eq.
  - eexists. split; [done |]. by apply Hfinal; simplify_map_eq.
Qed.

(** For every record, whatever its amounts, no division by zero occurs. *)
Lemma basic_ratios_no_zero_division (financial_data : gmap string Z)
    (multi_year_data : option (gmap string (gmap string Z))) :
  _calculate_basic_ratios financial_data multi_year_data ≠ Raise ZeroDivisionError.
Proof.
  unfold _calculate_basic_ratios.
  destruct (multi_year_data ≫= _) as [prev_data|];
    repeat match goal with
    | |- context [safe_percentage ?a ?b] =>
        let H := fresh "H" in
        pose proof (safe_percentage_no_zero_division a b) as H;
        destruct (safe_percentage a b) as [? | ?];
        [clear H | unfold mbind, result_bind; congruence]
    end; by unfold mbind, result_bind.
Qed.

(** C4.  The ratio engine tests every divisor, so no record makes it divide
    by zero; for a record whose amounts are in the float range it raises no
    exception at all and gives each ratio by its reference definition:
    ROE = net_income / total_equity x 100, net margin = net_income / revenue
    x 100, operating margin = operating_income / revenue x 100, debt ratio =
    total_liabilities / total_equity x 100 (and likewise ROA and the equity
    ratio), each being 0 when its denominator is 0.  For revenue 1,000,000,
    net income 100,000, equity 500,000 and liabilities 300,000 it yields
    ROE = 20.0, debt ratio = 60.0 and net margin = 10.0. *)
Theorem basic_ratios_reference (financial_data : gmap string Z)
    (multi_year_data : option (gmap string (gmap string Z))) :
  let revenue := dict_get financial_data "revenue" 0 in
  let operating_income := dict_get financial_data "operating_income" 0 in
  let net_income := dict_get financial_data "net_income" 0 in
  let total_assets := dict_get financial_data "total_assets" 0 in
  let total_liabilities := dict_get financial_data "total_liabilities" 0 in
  let total_equity := dict_get financial_data "total_equity" 0 in
  _calculate_basic_ratios financial_data multi_year_data ≠ Raise ZeroDivisionError
  /\ (amounts_in_range financial_data ->
      (forall years prev_data,
         multi_year_data = Some years -> years !! "2023" = Some prev_data ->
         amounts_in_range prev_data) ->
      exists ratios,
        _calculate_basic_ratios financial_data multi_year_data = Ok ratios
        /\ has_ratio ratios "ROE" net_income total_equity
        /\ has_ratio ratios "ROA" net_income total_assets
        /\ has_ratio ratios "영업이익률" operating_income revenue
        /\ has_ratio ratios "순이익률" net_income revenue
        /\ has_ratio ratios "부채비율" total_liabilities total_equity
        /\ has_ratio ratios "자기자본비율" total_equity total_assets
        /\ (total_equity = 0 -> ratios !! "ROE" = Some (PyInt 0))
        /\ (revenue = 0 ->
            ratios !! "영업이익률" = Some (PyInt 0)
            /\ ratios !! "순이익률" = Some (PyInt 0)))
  /\ (let float_20 := S754_finite false 5629499534213120 (-48) in
      let float_60 := S754_finite false 8444249301319680 (-47) in
      let float_10 := S754_finite false 5629499534213120 (-49) in
      (ratios ← _calculate_basic_ratios
                  {[ "revenue" := 1000000; "net_income" := 100000;
                     "total_equity" := 500000; "total_liabilities" := 300000 ]}
                  None;
       Ok (ratios !! "ROE", ratios !! "부채비율", ratios !! "순이익률"))
      = Ok (Some (PyFloat float_20), Some (PyFloat float_60), Some (PyFloat float_10))
      /\ compare_int_float 20 float_20 = Some Eq
      /\ compare_int_float 60 float_60 = Some Eq
      /\ compare_int_float 10 float_10 = Some Eq).
Proof.
  intros revenue operating_income net_income total_assets total_liabilities
    total_equity.
  split; [apply basic_ratios_no_zero_division |]. split.
  - intros Hrange Hprev.
    destruct (basic_ratios_in_range financial_data multi_year_data Hrange Hprev)
      as (ratios & Hok & Href).
    by exists ratios.
  - vm_compute. repeat split; reflexivity.
Qed.

(** The record of the end-to-end example is in range and gets its ratios. *)
Lemma basic_ratios_reference_witness :
  exists ratios,
    _calculate_basic_ratios
      {[ "revenue" := 1000000; "net_income" := 100000;
         "total_equity" := 500000; "total_liabilities" := 300000 ]} None
    = Ok ratios
    /\ has_ratio ratios "ROE" 100000 500000
    /\ has_ratio ratios "부채비율" 300000 500000
    /\ has_ratio ratios "순이익률" 100000 1000000.
Proof.
  destruct (proj1 (proj2 (basic_ratios_reference
              {[ "revenue" := 1000000; "net_income" := 100000;
                 "total_equity" := 500000; "total_liabilities" := 300000 ]} None)))
    as (ratios & Hok & Hroe & _ & _ & Hnm & Hdr & _).
  - intros key v Hv.
    repeat (apply lookup_insert_Some in Hv as [[_ <-] | [_ Hv]]; [by vm_compute |]).
    apply lookup_singleton_Some in Hv as [_ <-]. by vm_compute.
  - intros years prev_data Hnone. discriminate.
  - exists ratios. repeat split; done.
Defined.

(** ** Fraud indicator engine *)

(** The score is the sum of the penalties that apply; the sum never reaches
    the clamp. *)
Lemma fraud_risk_score_sum (indicators : gmap string pyval) :
  _calculate_fraud_risk_score indicators
  = (if low_cash_flow indicators then 30 else 0)
    + (if high_receivables indicators then 25 else 0)
    + (if income_without_cash indicators then 25 else 0).
Proof.
  unfold _calculate_fraud_risk_score, low_cash_flow, high_receivables,
    income_without_cash.
  destruct (py_lt _ _), (py_gt _ _), (py_truthy _); reflexivity.
Qed.

(** C1, as the code has it.  For every indicator dictionary the risk score
    lies in [0, 100]; when all three penalty conditions hold the score is
    30 + 25 + 25 = 80, which the clamp leaves unchanged. *)
Theorem fraud_risk_score_range (indicators : gmap string pyval) :
  0 <= _calculate_fraud_risk_score indicators <= 100
  /\ _calculate_fraud_risk_score indicators <= 80
  /\ (low_cash_flow indicators = true ->
      high_receivables indicators = true ->
      income_without_cash indicators = true ->
      _calculate_fraud_risk_score indicators = 80).
Proof.
  rewrite fraud_risk_score_sum.
  destruct (low_cash_flow indicators), (high_receivables indicators),
    (income_without_cash indicators); repeat split; intros; try lia; try done.
Qed.

Lemma fraud_risk_score_range_witness :
  _calculate_fraud_risk_score all_penalties_indicators = 80.
Proof.
  apply (proj2 (proj2 (fraud_risk_score_range all_penalties_indicators)));
    by vm_compute.
Defined.

(** With all three penalty conditions triggered the score is 80, not 100. *)
Lemma fraud_risk_score_all_penalties_not_100 :
  low_cash_flow all_penalties_indicators = true
  /\ high_receivables all_penalties_indicators = true
  /\ income_without_cash all_penalties_indicators = true
  /\ _calculate_fraud_risk_score all_penalties_indicators = 80
  /\ _calculate_fraud_risk_score all_penalties_indicators ≠ 100.
Proof. vm_compute. repeat split; (reflexivity || discriminate). Qed.

(** The same through the engine: net income 100, operating cash flow -50,
    receivables 30 and revenue 100 give these three indicators and the
    score 80. *)
Example fraud_indicators_all_penalties :
  (indicators ← _calculate_basic_fraud_indicators
                  {[ "revenue" := 100; "net_income" := 100;
                     "accounts_receivable" := 30 ]}
                  {[ "operating_cash_flow" := -50 ]};
   Ok (indicators !! "현금흐름_대_순이익_비율",
       indicators !! "매출채권_대_매출_비율",
       indicators !! "순이익_양수_현금흐름_음수",
       indicators !! "종합_부정위험점수"))
  = Ok (all_penalties_indicators !! "현금흐름_대_순이익_비율",
        all_penalties_indicators !! "매출채권_대_매출_비율",
        all_penalties_indicators !! "순이익_양수_현금흐름_음수",
        Some (PyInt 80)).
Proof. vm_compute. reflexivity. Qed.

(** C3, as the code has it.  When the engine returns, the cash-flow to
    net-income ratio is the float quotient operating_cash_flow / net_income
    if net_income is not zero, and 0 if it is zero; the engine returns for
    all amounts in the float range, and otherwise raises nothing but
    [OverflowError], for an amount beyond that range. *)
Theorem fraud_indicators_cash_flow_ratio (financial_data cash_flow_data : gmap string Z) :
  let net_income := dict_get financial_data "net_income" 0 in
  let receivables := dict_get financial_data "accounts_receivable" 0 in
  let operating_cash_flow := dict_get cash_flow_data "operating_cash_flow" 0 in
  match _calculate_basic_fraud_indicators financial_data cash_flow_data with
  | Ok indicators =>
      (net_income = 0 ->
       indicators !! "현금흐름_대_순이익_비율" = Some (PyInt 0))
      /\ (net_income ≠ 0 ->
          exists q, int_truediv operating_cash_flow net_income = Ok q
                    /\ indicators !! "현금흐름_대_순이익_비율" = Some (PyFloat q))
  | Raise e =>
      e = OverflowError
      /\ (max_float_int < Z.abs operating_cash_flow
          \/ max_float_int < Z.abs receivables)
  end
  /\ (Z.abs operating_cash_flow <= max_float_int ->
      Z.abs receivables <= max_float_int ->
      exists indicators,
        _calculate_basic_fraud_indicators financial_data cash_flow_data
        = Ok indicators).
Proof.
  intros net_income receivables operating_cash_flow.
  assert (match _calculate_basic_fraud_indicators financial_data cash_flow_data with
          | Ok indicators =>
              (net_income = 0 ->
               indicators !! "현금흐름_대_순이익_비율" = Some (PyInt 0))
              /\ (net_income ≠ 0 ->
                  exists q, int_truediv operating_cash_flow net_income = Ok q
                            /\ indicators !! "현금흐름_대_순이익_비율"
                               = Some (PyFloat q))
          | Raise e =>
              e = OverflowError
              /\ (max_float_int < Z.abs operating_cash_flow
                  \/ max_float_int < Z.abs receivables)
          end) as Hcases.
  { unfold _calculate_basic_fraud_indicators.
    fold net_income receivables operating_cash_flow.
    set (revenue := dict_get financial_data "revenue" 0).
    assert (match (if negb (revenue =? 0)
                   then f ← int_truediv receivables revenue;
                        py_mul_int (PyFloat f) 100
                   else Ok (PyInt 0)) with
            | Ok _ => True
            | Raise e => e = OverflowError /\ max_float_int < Z.abs receivables
            end) as Hsecond.
    { destruct (Z.eqb_spec revenue 0) as [? | Hrev]; cbn [negb]; [done |].
      destruct (int_truediv receivables revenue) as [q | e] eqn:Hq;
        cbn [mbind result_bind].
      - by rewrite py_mul_int_float_100.
      - by apply (int_truediv_raises receivables revenue). }
    destruct (if negb (revenue =? 0) then _ else _) as [v2 | e2].
    - destruct (Z.eqb_spec net_income 0) as [Hzero | Hni]; cbn [negb].
      + unfold mbind, result_bind. split; [intros _; by simplify_map_eq | done].
      + destruct (int_truediv operating_cash_flow net_income) as [q | e] eqn:Hq;
          unfold mbind, result_bind.
        * split; [done |]. intros _. exists q. split; [done |]. by simplify_map_eq.
        * destruct (int_truediv_raises _ _ _ Hni Hq). split; [done | by left].
    - destruct Hsecond as [-> Hbig].
      destruct (Z.eqb_spec net_income 0) as [Hzero | Hni]; cbn [negb].
      + unfold mbind, result_bind. split; [done | by right].
      + destruct (int_truediv operating_cash_flow net_income) as [q | e] eqn:Hq;
          unfold mbind, result_bind.
        * split; [done | by right].
        * destruct (int_truediv_raises _ _ _ Hni Hq). split; [done | by left]. }
  split; [done |]. intros Hocf Hrec.
  destruct (_calculate_basic_fraud_indicators financial_data cash_flow_data)
    as [indicators | e]; [by exists indicators |].
  destruct Hcases as [_ [? | ?]]; lia.
Qed.

Lemma fraud_indicators_cash_flow_ratio_witness :
  exists indicators,
    _calculate_basic_fraud_indicators
      {[ "revenue" := 100; "net_income" := 0 ]} {[ "operating_cash_flow" := 50 ]}
    = Ok indicators
    /\ indicators !! "현금흐름_대_순이익_비율" = Some (PyInt 0).
Proof.
  pose proof (fraud_indicators_cash_flow_ratio
                {[ "revenue" := 100; "net_income" := 0 ]}
                {[ "operating_cash_flow" := 50 ]}) as [Hcases Hok].
  destruct Hok as [indicators Hok]; [by vm_compute | by vm_compute |].
  rewrite Hok in Hcases. destruct Hcases as [Hzero _].
  exists indicators. split; [done |]. apply Hzero. by vm_compute.
Defined.

(** With net income 0 the stored ratio is 0, which is below 1 and draws the
    30-point penalty; it is not the value 1. *)
Lemma cash_flow_ratio_default_is_0 :
  dict_get ({[ "revenue" := 100 ]} : gmap string Z) "net_income" 0 = 0
  /\ (indicators ← _calculate_basic_fraud_indicators
                     {[ "revenue" := 100 ]} {[ "operating_cash_flow" := 50 ]};
      Ok (indicators !! "현금흐름_대_순이익_비율",
          indicators !! "종합_부정위험점수"))
     = Ok (Some (PyInt 0), Some (PyInt 30))
  /\ py_lt (PyInt 0) (PyInt 1) = true.
Proof. vm_compute. repeat split; reflexivity. Qed.

(** ** Canonical data normaliser *)

Lemma target_accounts_canonical (target key : string) :
  (target, key) ∈ target_accounts -> key ∈ canonical_fields.
Proof.
  intros Hin. unfold target_accounts in Hin.
  repeat (apply elem_of_cons in Hin as [[= -> ->] | Hin];
          [apply (bool_decide_unpack _); by vm_compute |]).
  inversion Hin.
Qed.

Lemma target_accounts_NoDup : NoDup target_accounts.*1.
Proof. apply (bool_decide_unpack _). by vm_compute. Qed.

Lemma exact_match_eq (label target : string) :
  exact_match label target = true <-> label = target.
Proof. apply String.eqb_eq. Qed.

Lemma unbound_or_zero_bound (financial_data : gmap string Z) (key : string) (v : Z) :
  financial_data !! key = Some v -> v ≠ 0 ->
  unbound_or_zero financial_data key = false.
Proof.
  intros Hv Hne. unfold unbound_or_zero. rewrite Hv. by apply Z.eqb_neq.
Qed.

(** One run of the matching loop either leaves the record as it is, or binds
    the field of one table entry to the non-zero amount: an entry equal to
    the label, or an entry that matches partially while its field is unbound
    or zero. *)
Lemma match_accounts_cases (targets : list (string * string)) (label : string)
    (amount : Z) (financial_data : gmap string Z) :
  match_accounts targets label amount financial_data = financial_data
  \/ (amount ≠ 0
      /\ exists target key,
           (target, key) ∈ targets
           /\ match_accounts targets label amount financial_data
              = <[key := amount]> financial_data
           /\ (label = target
               \/ (partial_match label target = true
                   /\ unbound_or_zero financial_data key = true))).
Proof.
  induction targets as [|[target key] targets IH]; simpl; [by left |].
  assert (forall P : string -> string -> Prop,
    (exists t k, (t, k) ∈ targets /\ P t k) ->
    exists t k, (t, k) ∈ (target, key) :: targets /\ P t k) as Hweaken.
  { intros P (t & k & Hin & HP). exists t, k. split; [by right | done]. }
  assert (match_accounts targets label amount financial_data = financial_data
          \/ (amount ≠ 0
              /\ exists t k,
                   (t, k) ∈ (target, key) :: targets
                   /\ match_accounts targets label amount financial_data
                      = <[k := amount]> financial_data
                   /\ (label = t
                       \/ (partial_match label t = true
                           /\ unbound_or_zero financial_data k = true)))) as IH'.
  { destruct IH as [? | [? Hex]]; [by left | right]. split; [done |].
    by apply (Hweaken (fun t k => _ /\ _)). }
  destruct (exact_match label target) eqn:Hexact.
  - destruct (Z.eqb_spec amount 0) as [? | Hne]; cbn [negb]; [done |].
    right. split; [done |]. exists target, key.
    split; [left |]. split; [done |]. left. by apply exact_match_eq.
  - destruct (partial_match label target) eqn:Hpartial; [|done].
    destruct (unbound_or_zero financial_data key) eqn:Hfree; cbn [andb]; [|done].
    destruct (Z.eqb_spec amount 0) as [? | Hne]; cbn [negb]; [done |].
    right. split; [done |]. exists target, key.
    split; [left |]. split; [done |]. right. done.
Qed.

(** The scan binds the field of the first table entry that takes the item,
    and changes nothing when no entry does. *)
Lemma match_accounts_first (pre : list (string * string)) (target key : string)
    (post : list (string * string)) (label : string) (amount : Z)
    (financial_data : gmap string Z) :
  entry_takes financial_data label amount (target, key) = true ->
  (forall entry, entry ∈ pre -> entry_takes financial_data label amount entry = false) ->
  match_accounts (pre ++ (target, key) :: post) label amount financial_data
  = <[key := amount]> financial_data.
Proof.
  unfold entry_takes. cbn [fst snd].
  intros [Hamount Htakes]%andb_true_iff Hpre.
  induction pre as [|[t k] pre IH]; cbn [app match_accounts].
  - rewrite Hamount. destruct (exact_match label target); [done |].
    cbn [orb] in Htakes. apply andb_true_iff in Htakes as [-> ->]. done.
  - rewrite IH by (intros; apply Hpre; by right).
    specialize (Hpre (t, k) ltac:(left)). rewrite Hamount in Hpre.
    cbn [fst snd andb] in Hpre.
    apply orb_false_iff in Hpre as [-> Hpartial].
    destruct (partial_match label t); [|done].
    cbn [andb] in Hpartial. by rewrite Hpartial.
Qed.

Lemma match_accounts_none (targets : list (string * string)) (label : string)
    (amount : Z) (financial_data : gmap string Z) :
  (forall entry, entry ∈ targets ->
     entry_takes financial_data label amount entry = false) ->
  match_accounts targets label amount financial_data = financial_data.
Proof.
  unfold entry_takes. intros Hnone.
  induction targets as [|[t k] targets IH]; [done |].
  cbn [match_accounts]. rewrite IH by (intros; apply Hnone; by right).
  specialize (Hnone (t, k) ltac:(left)). cbn [fst snd] in Hnone.
  destruct (Z.eqb_spec amount 0) as [? | Hne]; cbn [negb andb] in Hnone |- *.
  - rewrite andb_false_r. destruct (exact_match _ _); [done |].
    by destruct (partial_match _ _).
  - apply orb_false_iff in Hnone as [-> Hpartial].
    destruct (partial_match label t); [|done].
    cbn [andb] in Hpartial. by rewrite Hpartial.
Qed.

Section NormalizerFacts.

Variable py_float : string -> result spec_float.

Local Abbreviation parse := (parse_financial_statements py_float).
Local Abbreviation amount_of := (parse_amount py_float).

Lemma parse_app (before after : list (gmap string string)) :
  parse (before ++ after)
  = foldl (process_item py_float) (parse before)
          (filter (fun item => is_relevant item = true) after).
Proof.
  unfold parse_financial_statements. by rewrite filter_app, foldl_app.
Qed.

Lemma process_item_cases (financial_data : gmap string Z) (item : gmap string string) :
  process_item py_float financial_data item = financial_data
  \/ (amount_of item ≠ 0
      /\ exists target key,
           (target, key) ∈ target_accounts
           /\ process_item py_float financial_data item
              = <[key := amount_of item]> financial_data
           /\ (clean_account_nm item = target
               \/ (partial_match (clean_account_nm item) target = true
                   /\ unbound_or_zero financial_data key = true))).
Proof. apply match_accounts_cases. Qed.

(** A field bound to a non-zero amount keeps its value through every line
    item that does not match one of its synonyms exactly with a non-zero
    amount. *)
Lemma foldl_process_item_keeps (items : list (gmap string string))
    (financial_data : gmap string Z) (key : string) (v : Z) :
  financial_data !! key = Some v -> v ≠ 0 ->
  (forall item target,
     item ∈ items -> (target, key) ∈ target_accounts ->
     clean_account_nm item = target -> amount_of item = 0) ->
  foldl (process_item py_float) financial_data items !! key = Some v.
Proof.
  revert financial_data. induction items as [|item items IH];
    intros financial_data Hv Hne Hitems; simpl; [done |].
  apply IH; [|done | intros; eapply Hitems; [by right | done..]].
  destruct (process_item_cases financial_data item)
    as [-> | (Hamount & target & k & Hin & -> & Hhow)]; [done |].
  destruct (decide (k = key)) as [-> | Hk]; [exfalso | by rewrite lookup_insert_ne].
  destruct Hhow as [Hexact | [_ Hfree]].
  - apply Hamount. eapply Hitems; [left | done..].
  - by rewrite (unbound_or_zero_bound _ _ _ Hv Hne) in Hfree.
Qed.

Lemma foldl_process_item_bound_by (financial_list items : list (gmap string string))
    (financial_data : gmap string Z) :
  (forall item, item ∈ items -> item ∈ financial_list /\ is_relevant item = true) ->
  bound_by py_float financial_list financial_data ->
  bound_by py_float financial_list (foldl (process_item py_float) financial_data items).
Proof.
  revert financial_data. induction items as [|item items IH];
    intros financial_data Hitems Hinv; simpl; [done |].
  apply IH; [intros; apply Hitems; by right |].
  destruct (process_item_cases financial_data item)
    as [-> | (Hamount & target & k & Hin & -> & Hhow)]; [done |].
  destruct (Hitems item) as [Hitem Hrel]; [left |].
  intros key v. destruct (decide (k = key)) as [-> | Hk].
  - rewrite lookup_insert_eq. intros [= <-]. split; [done |].
    exists item, target. repeat split; try done.
    destruct Hhow as [Heq | [Hpartial _]]; [left; by apply exact_match_eq | by right].
  - rewrite lookup_insert_ne by done. apply Hinv.
Qed.

Lemma parse_bound_by (financial_list : list (gmap string string)) :
  bound_by py_float financial_list (parse financial_list).
Proof.
  apply foldl_process_item_bound_by.
  - intros item [Hrel Hin]%list_elem_of_filter. done.
  - intros key v Hv. by rewrite lookup_empty in Hv.
Qed.

(** C2, as the code has it.  Every key of the normaliser's output is a
    canonical field bound to the non-zero amount of a relevant line item
    whose cleaned label matches one of the field's synonyms; a field that
    matched no line item is absent from the record, so that reading it with
    [.get(field, 0)] gives 0. *)
Theorem normalizer_output_keys (financial_list : list (gmap string string))
    (key : string) :
  (forall v,
     parse financial_list !! key = Some v ->
     v ≠ 0
     /\ key ∈ canonical_fields
     /\ exists item target,
          item ∈ financial_list
          /\ is_relevant item = true
          /\ (target, key) ∈ target_accounts
          /\ (exact_match (clean_account_nm item) target = true
              \/ partial_match (clean_account_nm item) target = true)
          /\ v = amount_of item)
  /\ ((forall item target,
         item ∈ financial_list -> is_relevant item = true ->
         (target, key) ∈ target_accounts ->
         exact_match (clean_account_nm item) target = false
         /\ partial_match (clean_account_nm item) target = false) ->
      parse financial_list !! key = None
      /\ dict_get (parse financial_list) key 0 = 0).
Proof.
  pose proof (parse_bound_by financial_list) as Hinv.
  split.
  - intros v Hv. destruct (Hinv key v Hv) as (Hne & item & target & H1 & H2 & H3 & H4 & H5).
    split; [done |]. split; [by apply (target_accounts_canonical target) |].
    by exists item, target.
  - intros Hnone.
    assert (parse financial_list !! key = None) as Habsent.
    { destruct (parse financial_list !! key) as [v|] eqn:Hv; [exfalso | done].
      destruct (Hinv key v Hv) as (_ & item & target & H1 & H2 & H3 & H4 & _).
      destruct (Hnone item target H1 H2 H3) as [He Hp].
      destruct H4; congruence. }
    split; [done |]. unfold dict_get. by rewrite Habsent.
Qed.

(** X21.  Each line item is handled by one scan of the synonym table in table
    order.  The first entry that takes the item, by being equal to the label
    or by matching it partially while its field is unbound or zero (the amount
    not being zero), binds its field to the amount and ends the scan; when no
    entry takes the item the record is unchanged.  So a partial match is
    accepted only while the field is unbound or zero, and a field bound to a
    non-zero amount keeps its value through all later line items that are not
    exact non-zero matches of its synonyms. *)
Theorem normalizer_binding_rules (before after : list (gmap string string))
    (key : string) (v : Z) :
  (forall financial_data item pre target field post,
     target_accounts = pre ++ (target, field) :: post ->
     entry_takes financial_data (clean_account_nm item) (amount_of item)
       (target, field) = true ->
     (forall entry, entry ∈ pre ->
        entry_takes financial_data (clean_account_nm item) (amount_of item) entry
        = false) ->
     process_item py_float financial_data item
     = <[field := amount_of item]> financial_data)
  /\ (forall financial_data item,
        (forall entry, entry ∈ target_accounts ->
           entry_takes financial_data (clean_account_nm item) (amount_of item) entry
           = false) ->
        process_item py_float financial_data item = financial_data)
  /\ (forall financial_data item,
        process_item py_float financial_data item = financial_data
        \/ (amount_of item ≠ 0
            /\ exists target field,
                 (target, field) ∈ target_accounts
                 /\ process_item py_float financial_data item
                    = <[field := amount_of item]> financial_data
                 /\ (clean_account_nm item = target
                     \/ (partial_match (clean_account_nm item) target = true
                         /\ unbound_or_zero financial_data field = true))))
  /\ (parse before !! key = Some v ->
      v ≠ 0 ->
      (forall item target,
         item ∈ after -> is_relevant item = true ->
         (target, key) ∈ target_accounts ->
         clean_account_nm item = target -> amount_of item = 0) ->
      parse (before ++ after) !! key = Some v).
Proof.
  split; [|split; [|split]].
  - intros financial_data item pre target field post Htable Htakes Hpre.
    unfold process_item. rewrite Htable. by apply match_accounts_first.
  - intros financial_data item Hnone. by apply match_accounts_none.
  - apply process_item_cases.
  - intros Hv Hne Hafter. rewrite parse_app.
    apply foldl_process_item_keeps; [done | done |].
    intros item target [Hrel Hin]%list_elem_of_filter. by apply Hafter.
Qed.

End NormalizerFacts.

(** ** Records produced by the normaliser are in the float range *)

Section NormalizerRange.

Variable py_float : string -> result spec_float.

(** Python's [float] returns binary64 values. *)
Hypothesis py_float_valid :
  forall s f, py_float s = Ok f -> valid_binary float_prec float_emax f = true.

Lemma parse_amount_in_range (item : gmap string string) :
  Z.abs (parse_amount py_float item) <= max_float_int.
Proof.
  assert (Z.abs 0 <= max_float_int) as Hzero by (by vm_compute).
  unfold parse_amount. destruct (_ && _); [|done].
  destruct (py_float _) as [f | e] eqn:Hf; cbn [mbind result_bind]; [|done].
  destruct (int_of_float f) as [z | e] eqn:Hz; [|done].
  eapply int_of_float_in_range; [by eapply py_float_valid | done].
Qed.

Lemma parse_in_range (financial_list : list (gmap string string)) :
  amounts_in_range (parse_financial_statements py_float financial_list).
Proof.
  intros key v Hv.
  destruct (parse_bound_by py_float financial_list key v Hv)
    as (_ & item & _ & _ & _ & _ & _ & ->).
  apply parse_amount_in_range.
Qed.

(** End to end: the ratio engine returns on every record the normaliser can
    produce, with the reference value for each ratio. *)
Corollary parsed_record_has_ratios (financial_list : list (gmap string string)) :
  exists ratios,
    _calculate_basic_ratios
      (parse_financial_statements py_float financial_list) None = Ok ratios
    /\ ratios_by_reference
         (parse_financial_statements py_float financial_list) ratios.
Proof. apply basic_ratios_in_range; [apply parse_in_range | done]. Qed.

End NormalizerRange.

Lemma read_digits_nonneg (s : string) (acc : Z) (count : nat) :
  0 <= acc -> 0 <= (read_digits s acc count).1.1.
Proof.
  revert acc count. induction s as [|c s IH]; intros acc count Hacc; [done |].
  cbn [read_digits]. destruct (digit_value c) as [d|] eqn:Hd; [|done].
  apply IH. unfold digit_value in Hd.
  destruct (_ && _)%N eqn:Hrange; [|done]. injection Hd as <-.
  apply andb_true_iff in Hrange as [Hlo%N.leb_le Hhi]. lia.
Qed.

(** The decimal instance satisfies the assumption on [float]. *)
Lemma float_of_decimal_valid (s : string) (f : spec_float) :
  float_of_decimal s = Ok f -> valid_binary float_prec float_emax f = true.
Proof.
  assert (forall negative t,
    float_of_unsigned_decimal negative t = Ok f ->
    valid_binary float_prec float_emax f = true) as Hunsigned.
  { intros negative t. unfold float_of_unsigned_decimal.
    pose proof (read_digits_nonneg t 0 0%nat ltac:(lia)) as Hint.
    destruct (read_digits t 0 0%nat) as [[int_part int_digits] rest].
    simpl in Hint. destruct rest as [|c frac].
    - destruct (0 <? int_digits)%nat; [|done].
      apply float_of_ratio_valid; lia.
    - destruct (Ascii.eqb_spec c ".") as [-> | Hc].
      + pose proof (read_digits_nonneg frac int_part 0%nat Hint) as Hnum.
        destruct (read_digits frac int_part 0%nat) as [[num frac_digits] rest'].
        simpl in Hnum. destruct rest'; [|done].
        destruct (0 <? _)%nat; [|done].
        apply float_of_ratio_valid; [done |]. apply Z.pow_pos_nonneg; lia.
      + destruct c as [[] [] [] [] [] [] [] []]; try done. }
  unfold float_of_decimal. destruct s as [|c s]; [apply Hunsigned |].
  destruct c as [[] [] [] [] [] [] [] []]; apply Hunsigned.
Qed.

(** With the decimal instance the assumption is discharged. *)
Corollary decimal_record_has_ratios (financial_list : list (gmap string string)) :
  exists ratios,
    _calculate_basic_ratios
      (parse_financial_statements float_of_decimal financial_list) None = Ok ratios.
Proof.
  destruct (parsed_record_has_ratios float_of_decimal float_of_decimal_valid
              financial_list) as (ratios & Hok & _).
  by exists ratios.
Qed.

(** One revenue line: revenue is bound by that line to its non-zero amount;
    net income matched no line item and is not a key of the record. *)
Lemma normalizer_output_keys_witness :
  (100 ≠ 0
   /\ "revenue" ∈ canonical_fields
   /\ exists item target,
        item ∈ [line_item "손익계산서" "매출액" "100"]
        /\ is_relevant item = true
        /\ (target, "revenue") ∈ target_accounts
        /\ (exact_match (clean_account_nm item) target = true
            \/ partial_match (clean_account_nm item) target = true)
        /\ 100 = parse_amount float_of_decimal item)
  /\ parse_financial_statements float_of_decimal
       [line_item "손익계산서" "매출액" "100"] !! "net_income" = None
  /\ dict_get (parse_financial_statements float_of_decimal
                 [line_item "손익계산서" "매출액" "100"]) "net_income" 0 = 0.
Proof.
  split.
  - apply (proj1 (normalizer_output_keys float_of_decimal
                    [line_item "손익계산서" "매출액" "100"] "revenue") 100).
    vm_compute. reflexivity.
  - apply (proj2 (normalizer_output_keys float_of_decimal
                    [line_item "손익계산서" "매출액" "100"] "net_income")).
    intros item target ->%list_elem_of_singleton _ Hin.
    set (label := clean_account_nm (line_item "손익계산서" "매출액" "100")).
    assert (forallb (fun entry : string * string =>
                       negb (String.eqb entry.2 "net_income")
                       || negb (exact_match label entry.1)
                          && negb (partial_match label entry.1))
                    target_accounts = true) as Hall by (vm_compute; reflexivity).
    rewrite forallb_forall in Hall.
    apply list_elem_of_In, Hall in Hin. cbn [fst snd] in Hin.
    rewrite String.eqb_refl in Hin. cbn [negb orb] in Hin.
    apply andb_true_iff in Hin as [He Hp].
    split; by apply negb_true_iff.
Defined.

(** The record holds only the bound field: canonical fields are missing. *)
Lemma normalizer_missing_keys :
  "net_income" ∈ canonical_fields
  /\ parse_financial_statements float_of_decimal
       [line_item "손익계산서" "매출액" "100"] = {[ "revenue" := 100 ]}
  /\ parse_financial_statements float_of_decimal
       [line_item "손익계산서" "매출액" "100"] !! "net_income" = None
  /\ parse_financial_statements float_of_decimal [] !! "revenue" = None.
Proof.
  split; [apply (bool_decide_unpack _); by vm_compute |].
  vm_compute. repeat split; reflexivity.
Qed.

(** A revenue line binds revenue: its table entry is the first that takes
    the item.  Revenue so bound survives a later line that matches its
    synonyms only partially. *)
Lemma normalizer_binding_rules_witness :
  process_item float_of_decimal ∅ (line_item "손익계산서" "매출액" "100")
  = <["revenue" := parse_amount float_of_decimal
                     (line_item "손익계산서" "매출액" "100")]> ∅
  /\ parse_financial_statements float_of_decimal
       ([line_item "손익계산서" "매출액" "100"]
        ++ [line_item "손익계산서" "영업수익 합계" "999"]) !! "revenue" = Some 100.
Proof.
  destruct (normalizer_binding_rules float_of_decimal
              [line_item "손익계산서" "매출액" "100"]
              [line_item "손익계산서" "영업수익 합계" "999"]
              "revenue" 100) as (Hfirst & _ & _ & Hkeep).
  split.
  - apply (Hfirst ∅ _ (take 4 target_accounts) "매출액" "revenue"
             (drop 5 target_accounts)).
    + reflexivity.
    + vm_compute. reflexivity.
    + set (item := line_item "손익계산서" "매출액" "100").
      assert (forallb (fun entry : string * string =>
                         negb (entry_takes ∅ (clean_account_nm item)
                                 (parse_amount float_of_decimal item) entry))
                      (take 4 target_accounts) = true) as Hall
        by (vm_compute; reflexivity).
      rewrite forallb_forall in Hall.
      intros entry Hin%list_elem_of_In%Hall. by apply negb_true_iff in Hin.
  - apply Hkeep.
    + vm_compute. reflexivity.
    + done.
    + intros item target ->%list_elem_of_singleton _ Hin Hlabel. exfalso.
      revert Hin. rewrite <- Hlabel.
      apply (bool_decide_unpack _). vm_compute. exact I.
Defined.

(** C5.  The code does not try the exact match first, as its comment says
    and the claim states.  The label 매출 is a synonym of revenue in the
    table, but the scan meets the entry 매출채권 before it: the label is a
    part of that name, so the amount is stored as accounts receivable and
    revenue stays unbound.  When the receivables are bound already, the
    entry 매출총이익 takes the line in the same way; the line binds revenue
    only when both fields are bound. *)
Lemma exact_label_taken_by_partial_match :
  ("매출", "revenue") ∈ target_accounts
  /\ parse_financial_statements float_of_decimal
       [line_item "손익계산서" "매출" "100"]
     = {[ "accounts_receivable" := 100 ]}
  /\ parse_financial_statements float_of_decimal
       [line_item "재무상태표" "매출채권" "7"; line_item "손익계산서" "매출" "100"]
     = {[ "accounts_receivable" := 7; "gross_profit" := 100 ]}
  /\ parse_financial_statements float_of_decimal
       [line_item "재무상태표" "매출채권" "7"; line_item "손익계산서" "매출총이익" "30";
        line_item "손익계산서" "매출" "100"]
     = {[ "accounts_receivable" := 7; "gross_profit" := 30; "revenue" := 100 ]}.
Proof.
  split; [apply (bool_decide_unpack _); vm_compute; exact I |].
  split; [vm_compute; reflexivity |]. split; vm_compute; reflexivity.
Qed.

(** A later exact match overwrites a field bound by an earlier non-zero exact
    match; and a label equal to a synonym of revenue is taken by the earlier
    table entry of another field that matches it partially. *)
Lemma later_exact_match_overwrites :
  parse_financial_statements float_of_decimal
    [line_item "손익계산서" "매출액" "100"] !! "revenue" = Some 100
  /\ parse_financial_statements float_of_decimal
       [line_item "손익계산서" "매출액" "100";
        line_item "손익계산서" "매출액" "200"] !! "revenue" = Some 200
  /\ ("매출", "revenue") ∈ target_accounts
  /\ parse_financial_statements float_of_decimal
       [line_item "손익계산서" "매출" "5"] = {[ "accounts_receivable" := 5 ]}.
Proof.
  split; [vm_compute; reflexivity |]. split; [vm_compute; reflexivity |].
  split; [apply (bool_decide_unpack _); vm_compute; exact I
         | vm_compute; reflexivity].
Qed.

(** ** Cash-flow parser *)

Lemma match_cash_flow_accounts_find (targets : list (string * string))
    (account_nm : string) (amount : Z) (cash_flow_data : gmap string Z) :
  match_cash_flow_accounts targets account_nm amount cash_flow_data
  = match List.find (fun entry : string * string => str_in entry.1 account_nm)
                    targets with
    | Some entry => <[entry.2 := amount]> cash_flow_data
    | None => cash_flow_data
    end.
Proof.
  induction targets as [|[target key] targets IH]; [done |].
  cbn [match_cash_flow_accounts List.find fst snd].
  by destruct (str_in target account_nm).
Qed.

Lemma cash_flow_key_field (item : gmap string string) (key : string) :
  cash_flow_key item = Some key -> key ∈ cash_flow_fields.
Proof.
  unfold cash_flow_key. destruct (List.find _ _) as [[target k]|] eqn:Hfind; [|done].
  intros [= <-]. apply List.find_some in Hfind as [Hin _].
  apply list_elem_of_In in Hin. unfold cash_flow_accounts in Hin.
  repeat (apply elem_of_cons in Hin as [[= _ ->] | Hin];
          [apply (bool_decide_unpack _); by vm_compute |]).
  inversion Hin.
Qed.

Section CashFlowFacts.

Variable py_isdigit : string -> bool.
Variable py_int : string -> result Z.

Local Abbreviation parse_cf := (parse_cash_flow_data py_isdigit py_int).
Local Abbreviation cf_amount := (parse_cash_amount py_isdigit py_int).
Local Abbreviation cf_step := (process_cash_flow_item py_isdigit py_int).

Lemma process_cash_flow_item_key (cash_flow_data : gmap string Z)
    (item : gmap string string) :
  cf_step cash_flow_data item
  = match cash_flow_key item with
    | Some key => <[key := cf_amount item]> cash_flow_data
    | None => cash_flow_data
    end.
Proof.
  unfold process_cash_flow_item, cash_flow_key.
  rewrite match_cash_flow_accounts_find. by destruct (List.find _ _).
Qed.

Lemma parse_cf_app (before after : list (gmap string string)) :
  parse_cf (before ++ after)
  = foldl cf_step (parse_cf before)
          (filter (fun item => is_cash_flow_item item = true) after).
Proof. unfold parse_cash_flow_data. by rewrite filter_app, foldl_app. Qed.

Lemma foldl_cash_flow_other_keys (items : list (gmap string string))
    (cash_flow_data : gmap string Z) (key : string) :
  (forall item, item ∈ items -> cash_flow_key item ≠ Some key) ->
  foldl cf_step cash_flow_data items !! key = cash_flow_data !! key.
Proof.
  revert cash_flow_data. induction items as [|item items IH];
    intros cash_flow_data Hitems; [done |].
  cbn [foldl]. rewrite IH by (intros; apply Hitems; by right).
  rewrite process_cash_flow_item_key.
  specialize (Hitems item ltac:(left)).
  destruct (cash_flow_key item) as [k|]; [|done].
  rewrite lookup_insert_ne; [done | congruence].
Qed.

Lemma foldl_cash_flow_stays_bound (items : list (gmap string string))
    (cash_flow_data : gmap string Z) (key : string) :
  is_Some (cash_flow_data !! key) ->
  is_Some (foldl cf_step cash_flow_data items !! key).
Proof.
  revert cash_flow_data. induction items as [|item items IH];
    intros cash_flow_data Hbound; [done |].
  cbn [foldl]. apply IH. rewrite process_cash_flow_item_key.
  destruct (cash_flow_key item) as [k|]; [|done].
  apply lookup_insert_is_Some'. by right.
Qed.

Lemma foldl_cash_flow_sources (financial_list items : list (gmap string string))
    (cash_flow_data : gmap string Z) :
  let from_lines (d : gmap string Z) :=
    forall key v, d !! key = Some v ->
      exists item, item ∈ financial_list /\ is_cash_flow_item item = true
                   /\ cash_flow_key item = Some key /\ v = cf_amount item in
  (forall item, item ∈ items ->
     item ∈ financial_list /\ is_cash_flow_item item = true) ->
  from_lines cash_flow_data ->
  from_lines (foldl cf_step cash_flow_data items).
Proof.
  intros from_lines. revert cash_flow_data. induction items as [|item items IH];
    intros cash_flow_data Hitems Hinv; [done |].
  cbn [foldl]. apply IH; [intros; apply Hitems; by right |].
  rewrite process_cash_flow_item_key.
  destruct (cash_flow_key item) as [k|] eqn:Hk; [|done].
  destruct (Hitems item) as [Hin Hcf]; [left |].
  intros key v. destruct (decide (k = key)) as [-> | Hne].
  - rewrite lookup_insert_eq. intros [= <-]. by exists item.
  - rewrite lookup_insert_ne by done. apply Hinv.
Qed.

(** X1.  The cash-flow parser files each line of the cash-flow statement under
    the field of the first table entry whose name occurs in its label, and a
    later line of the same field replaces an earlier one: the record holds,
    for each field, the amount of the last line filed under it, also when that
    amount is 0. *)
Theorem cash_flow_last_line_wins (before after : list (gmap string string))
    (item : gmap string string) (key : string) :
  is_cash_flow_item item = true ->
  cash_flow_key item = Some key ->
  (forall later, later ∈ after -> is_cash_flow_item later = true ->
     cash_flow_key later ≠ Some key) ->
  parse_cf (before ++ item :: after) !! key = Some (cf_amount item).
Proof.
  intros Hcf Hkey Hafter.
  rewrite parse_cf_app, filter_cons_True by done. cbn [foldl].
  rewrite foldl_cash_flow_other_keys.
  - rewrite process_cash_flow_item_key, Hkey. apply lookup_insert_eq.
  - intros later [Hlater Hin]%list_elem_of_filter. by apply Hafter.
Qed.

(** X2.  A field of the cash-flow record is bound exactly when some line of the
    cash-flow statement is filed under it, that is, when the field is the one
    of the first table entry whose name occurs in the stripped label of the
    line: a label that holds the names of two fields is filed under the first
    of them in table order only.  The bound fields are among the three
    cash-flow fields, and the value is the amount of such a line. *)
Theorem cash_flow_bound_fields (financial_list : list (gmap string string))
    (key : string) :
  (is_Some (parse_cf financial_list !! key)
   <-> exists item, item ∈ financial_list /\ is_cash_flow_item item = true
                    /\ cash_flow_key item = Some key)
  /\ (forall v, parse_cf financial_list !! key = Some v ->
        key ∈ cash_flow_fields
        /\ exists item, item ∈ financial_list /\ is_cash_flow_item item = true
                        /\ cash_flow_key item = Some key /\ v = cf_amount item).
Proof.
  assert (forall v, parse_cf financial_list !! key = Some v ->
            exists item, item ∈ financial_list /\ is_cash_flow_item item = true
                         /\ cash_flow_key item = Some key /\ v = cf_amount item)
    as Hsource.
  { pose proof (foldl_cash_flow_sources financial_list
                  (filter (fun item => is_cash_flow_item item = true) financial_list)
                  ∅) as Hfold.
    cbn zeta in Hfold. intros v. apply Hfold.
    - by intros item [Hcf Hin]%list_elem_of_filter.
    - intros k w Hw. by rewrite lookup_empty in Hw. }
  split; [split |].
  - intros [v Hv]. destruct (Hsource v Hv) as (item & Hin & Hcf & Hkey & _).
    by exists item.
  - intros (item & Hin & Hcf & Hkey).
    apply list_elem_of_split in Hin as (before & after & ->).
    rewrite parse_cf_app, filter_cons_True by done. cbn [foldl].
    apply foldl_cash_flow_stays_bound.
    rewrite process_cash_flow_item_key, Hkey, lookup_insert_eq. by eexists.
  - intros v Hv. destruct (Hsource v Hv) as (item & Hin & Hcf & Hkey & Hamount).
    split; [by apply (cash_flow_key_field item) | by exists item].
Qed.

End CashFlowFacts.

(** A later line of the operating cash flow whose amount is 0 replaces the
    amount of an earlier one. *)
Lemma cash_flow_last_line_wins_witness :
  parse_cash_flow_data isdigit_ascii int_of_ascii
    ([line_item "현금흐름표" "영업활동현금흐름" "1,234"]
     ++ line_item "현금흐름표" "영업활동으로인한현금흐름" "0"
        :: [line_item "현금흐름표" "투자활동현금흐름" "-5"])
  !! "operating_cash_flow" = Some 0.
Proof.
  apply (cash_flow_last_line_wins isdigit_ascii int_of_ascii
           [line_item "현금흐름표" "영업활동현금흐름" "1,234"]
           [line_item "현금흐름표" "투자활동현금흐름" "-5"]
           (line_item "현금흐름표" "영업활동으로인한현금흐름" "0")
           "operating_cash_flow").
  - vm_compute. reflexivity.
  - vm_compute. reflexivity.
  - intros later ->%list_elem_of_singleton _. by vm_compute.
Defined.

(** ** The two parsers read different lines *)

Lemma relevant_not_cash_flow (item : gmap string string) :
  is_relevant item = true -> is_cash_flow_item item = false.
Proof.
  unfold is_relevant, is_cash_flow_item, dict_get.
  intros Hrel. apply bool_decide_eq_false. intros Hsj. rewrite Hsj in Hrel.
  revert Hrel. by vm_compute.
Qed.

(** X3.  No line item is read by both parsers, so each record depends only on
    the lines of its own sections: removing the lines of the cash-flow
    statement leaves the normaliser's record as it is, and removing the lines
    of the income statement and the balance sheet leaves the cash-flow record
    as it is. *)
Theorem parsers_read_disjoint_lines (py_float : string -> result spec_float)
    (py_isdigit : string -> bool) (py_int : string -> result Z)
    (financial_list : list (gmap string string)) :
  (forall item, is_relevant item = true -> is_cash_flow_item item = false)
  /\ parse_financial_statements py_float
       (filter (fun item => is_cash_flow_item item = false) financial_list)
     = parse_financial_statements py_float financial_list
  /\ parse_cash_flow_data py_isdigit py_int
       (filter (fun item => is_relevant item = false) financial_list)
     = parse_cash_flow_data py_isdigit py_int financial_list.
Proof.
  split; [|split].
  - apply relevant_not_cash_flow.
  - unfold parse_financial_statements. f_equal.
    rewrite list_filter_filter. apply list_filter_iff. intros item.
    split; [tauto |]. intros Hrel. split; [done |].
    by apply relevant_not_cash_flow.
  - unfold parse_cash_flow_data. f_equal.
    rewrite list_filter_filter. apply list_filter_iff. intros item.
    split; [tauto |]. intros Hcf. split; [done |].
    destruct (is_relevant item) eqn:Hrel; [|done].
    by rewrite (relevant_not_cash_flow item Hrel) in Hcf.
Qed.

(** ** Lines without an amount *)

Lemma match_accounts_zero (targets : list (string * string)) (label : string)
    (financial_data : gmap string Z) :
  match_accounts targets label 0 financial_data = financial_data.
Proof. apply match_accounts_none. intros entry _. done. Qed.

(** X4.  A line item whose amount reads as 0 (a zero, an empty or unreadable
    text) never changes the normaliser's record: the record is the one
    obtained without that line. *)
Theorem normalizer_skips_zero_amounts (py_float : string -> result spec_float)
    (before after : list (gmap string string)) (item : gmap string string) :
  parse_amount py_float item = 0 ->
  parse_financial_statements py_float (before ++ item :: after)
  = parse_financial_statements py_float (before ++ after).
Proof.
  intros Hzero. rewrite !parse_app.
  destruct (is_relevant item) eqn:Hrel.
  - rewrite filter_cons_True by done. cbn [foldl].
    unfold process_item at 2. by rewrite Hzero, match_accounts_zero.
  - rewrite filter_cons_False; [done |]. by rewrite Hrel.
Qed.

Lemma normalizer_skips_zero_amounts_witness :
  parse_financial_statements float_of_decimal
    ([line_item "손익계산서" "매출액" "100"]
     ++ line_item "손익계산서" "매출액" "-" :: [line_item "재무상태표" "자산총계" "7"])
  = parse_financial_statements float_of_decimal
      ([line_item "손익계산서" "매출액" "100"]
       ++ [line_item "재무상태표" "자산총계" "7"]).
Proof.
  apply (normalizer_skips_zero_amounts float_of_decimal
           [line_item "손익계산서" "매출액" "100"]
           [line_item "재무상태표" "자산총계" "7"]
           (line_item "손익계산서" "매출액" "-")).
  vm_compute. reflexivity.
Defined.

(** ** Keys and growth rates of the ratio engine *)

(** What a successful run of the ratio engine has computed. *)
Lemma basic_ratios_inv (financial_data : gmap string Z)
    (multi_year_data : option (gmap string (gmap string Z)))
    (ratios : gmap string pyval) :
  let revenue := dict_get financial_data "revenue" 0 in
  let operating_income := dict_get financial_data "operating_income" 0 in
  let net_income := dict_get financial_data "net_income" 0 in
  let total_assets := dict_get financial_data "total_assets" 0 in
  let total_liabilities := dict_get financial_data "total_liabilities" 0 in
  let total_equity := dict_get financial_data "total_equity" 0 in
  _calculate_basic_ratios financial_data multi_year_data = Ok ratios ->
  exists roe roa om nm dr er,
    safe_percentage net_income total_equity = Ok roe
    /\ safe_percentage net_income total_assets = Ok roa
    /\ safe_percentage operating_income revenue = Ok om
    /\ safe_percentage net_income revenue = Ok nm
    /\ safe_percentage total_liabilities total_equity = Ok dr
    /\ safe_percentage total_equity total_assets = Ok er
    /\ let base : gmap string pyval :=
         <["자기자본비율" := er]> (<["부채비율" := dr]> (<["순이익률" := nm]>
           (<["영업이익률" := om]> (<["ROA" := roa]> (<["ROE" := roe]> ∅))))) in
       match previous_year multi_year_data with
       | Some prev_data =>
           let prev_revenue := dict_get prev_data "revenue" 0 in
           let prev_net_income := dict_get prev_data "net_income" 0 in
           exists rg ng,
             safe_percentage (revenue - prev_revenue) prev_revenue = Ok rg
             /\ safe_percentage (net_income - prev_net_income) prev_net_income = Ok ng
             /\ ratios = <["순이익성장률" := ng]> (<["매출성장률" := rg]> base)
       | None => ratios = base
       end.
Proof.
  intros revenue operating_income net_income total_assets total_liabilities
    total_equity.
  unfold _calculate_basic_ratios, previous_year.
  fold revenue operating_income net_income total_assets total_liabilities
    total_equity.
  destruct (safe_percentage net_income total_equity) as [roe|]; [|done].
  destruct (safe_percentage net_income total_assets) as [roa|]; [|done].
  destruct (safe_percentage operating_income revenue) as [om|]; [|done].
  destruct (safe_percentage net_income revenue) as [nm|]; [|done].
  destruct (safe_percentage total_liabilities total_equity) as [dr|]; [|done].
  destruct (safe_percentage total_equity total_assets) as [er|]; [|done].
  unfold mbind at 1 2 3 4 5 6, result_bind; cbn beta iota zeta.
  intros Hrun. exists roe, roa, om, nm, dr, er. repeat (split; [done |]).
  destruct (multi_year_data ≫= _) as [prev_data|].
  - destruct (safe_percentage (revenue - _) _) as [rg|]; [|done].
    destruct (safe_percentage (net_income - _) _) as [ng|]; [|done].
    exists rg, ng. repeat (split; [done |]). by injection Hrun as <-.
  - by injection Hrun as <-.
Qed.

(** The names the ratio engine stores. *)
Lemma basic_ratios_dom (financial_data : gmap string Z)
    (multi_year_data : option (gmap string (gmap string Z)))
    (ratios : gmap string pyval) (name : string) :
  _calculate_basic_ratios financial_data multi_year_data = Ok ratios ->
  is_Some (ratios !! name)
  <-> name ∈ basic_ratio_names
      \/ (is_Some (previous_year multi_year_data) /\ name ∈ growth_ratio_names).
Proof.
  intros Hrun.
  destruct (basic_ratios_inv _ _ _ Hrun)
    as (roe & roa & om & nm & dr & er & _ & _ & _ & _ & _ & _ & Hratios).
  cbn zeta in Hratios. unfold basic_ratio_names, growth_ratio_names.
  destruct (previous_year multi_year_data) as [prev_data|].
  - destruct Hratios as (rg & ng & _ & _ & ->).
    rewrite !lookup_insert_is_Some, lookup_empty, !elem_of_cons, elem_of_nil.
    assert (is_Some (Some prev_data)) by by eexists.
    assert (¬ is_Some (@None pyval)) by by intros [? ?].
    intuition (subst; auto 10; congruence).
  - subst ratios.
    rewrite !lookup_insert_is_Some, lookup_empty, !elem_of_cons, elem_of_nil.
    assert (¬ is_Some (@None pyval)) by by intros [? ?].
    assert (¬ is_Some (@None (gmap string Z))) by by intros [? ?].
    intuition (subst; auto 10; congruence).
Qed.

(** X5.  The ratio engine stores the six ratios, and the two growth rates
    exactly when the data of 2023 are given.  No other name is ever a key: the
    current ratio (유동비율), which the classifier and the conversation handler
    list among the ratios, is not computed. *)
Theorem basic_ratios_keys (financial_data : gmap string Z)
    (multi_year_data : option (gmap string (gmap string Z)))
    (ratios : gmap string pyval) (name : string) :
  _calculate_basic_ratios financial_data multi_year_data = Ok ratios ->
  (is_Some (ratios !! name)
   <-> name ∈ basic_ratio_names
       \/ (is_Some (previous_year multi_year_data) /\ name ∈ growth_ratio_names))
  /\ ratios !! "유동비율" = None.
Proof.
  intros Hrun. split; [by apply (basic_ratios_dom financial_data multi_year_data) |].
  apply eq_None_not_Some. rewrite (basic_ratios_dom _ _ _ _ Hrun).
  unfold basic_ratio_names, growth_ratio_names.
  rewrite !elem_of_cons, !elem_of_nil. intros [H | [_ H]]; by intuition.
Qed.

(** The record of the end-to-end example: its ratios do not hold the current
    ratio. *)
Lemma basic_ratios_keys_witness :
  exists ratios,
    _calculate_basic_ratios
      {[ "revenue" := 1000000; "net_income" := 100000;
         "total_equity" := 500000; "total_liabilities" := 300000 ]} None
    = Ok ratios
    /\ ratios !! "유동비율" = None.
Proof.
  destruct (basic_ratios_in_range
              {[ "revenue" := 1000000; "net_income" := 100000;
                 "total_equity" := 500000; "total_liabilities" := 300000 ]} None)
    as (ratios & Hok & _).
  - intros key v Hv.
    repeat (apply lookup_insert_Some in Hv as [[_ <-] | [_ Hv]]; [by vm_compute |]).
    apply lookup_singleton_Some in Hv as [_ <-]. by vm_compute.
  - intros years prev_data Hnone. discriminate.
  - exists ratios. split; [done |].
    exact (proj2 (basic_ratios_keys _ _ ratios "유동비율" Hok)).
Defined.

(** X6.  With the data of 2023 the engine stores the growth of revenue and of
    net income, each as the percentage of the change over the previous value,
    and as 0 when the previous value is 0 or missing; without the data of 2023
    neither growth rate is stored. *)
Theorem basic_ratios_growth (financial_data : gmap string Z)
    (multi_year_data : option (gmap string (gmap string Z)))
    (ratios : gmap string pyval) :
  let revenue := dict_get financial_data "revenue" 0 in
  let net_income := dict_get financial_data "net_income" 0 in
  _calculate_basic_ratios financial_data multi_year_data = Ok ratios ->
  match previous_year multi_year_data with
  | Some prev_data =>
      let prev_revenue := dict_get prev_data "revenue" 0 in
      let prev_net_income := dict_get prev_data "net_income" 0 in
      has_ratio ratios "매출성장률" (revenue - prev_revenue) prev_revenue
      /\ has_ratio ratios "순이익성장률" (net_income - prev_net_income) prev_net_income
      /\ (prev_revenue = 0 -> ratios !! "매출성장률" = Some (PyInt 0))
      /\ (prev_net_income = 0 -> ratios !! "순이익성장률" = Some (PyInt 0))
  | None =>
      ratios !! "매출성장률" = None /\ ratios !! "순이익성장률" = None
  end.
Proof.
  intros revenue net_income Hrun.
  destruct (basic_ratios_inv _ _ _ Hrun)
    as (roe & roa & om & nm & dr & er & _ & _ & _ & _ & _ & _ & Hratios).
  cbn zeta in Hratios. fold revenue net_income in Hratios.
  destruct (previous_year multi_year_data) as [prev_data|].
  - destruct Hratios as (rg & ng & Hrg & Hng & ->). cbn zeta.
    split; [|split; [|split]].
    + exists rg. split; [by simplify_map_eq | by apply safe_percentage_reference].
    + exists ng. split; [by simplify_map_eq | by apply safe_percentage_reference].
    + intros Hzero. rewrite Hzero, safe_percentage_zero in Hrg.
      injection Hrg as <-. by simplify_map_eq.
    + intros Hzero. rewrite Hzero, safe_percentage_zero in Hng.
      injection Hng as <-. by simplify_map_eq.
  - by subst ratios.
Qed.

(** Revenue 150 after 100 in 2023: the engine stores the growth of revenue,
    and 0 for the growth of net income, whose previous value is missing. *)
Lemma basic_ratios_growth_witness :
  exists ratios,
    _calculate_basic_ratios {[ "revenue" := 150; "net_income" := 10 ]}
      (Some {[ "2023" := {[ "revenue" := 100 ]} ]}) = Ok ratios
    /\ has_ratio ratios "매출성장률" (150 - 100) 100
    /\ ratios !! "순이익성장률" = Some (PyInt 0).
Proof.
  destruct (basic_ratios_in_range {[ "revenue" := 150; "net_income" := 10 ]}
              (Some {[ "2023" := {[ "revenue" := 100 ]} ]}))
    as (ratios & Hok & _).
  - intros key v Hv.
    apply lookup_insert_Some in Hv as [[_ <-] | [_ Hv]]; [by vm_compute |].
    apply lookup_singleton_Some in Hv as [_ <-]. by vm_compute.
  - intros years prev_data [= <-] Hprev.
    apply lookup_singleton_Some in Hprev as [_ <-].
    intros key v Hv. apply lookup_singleton_Some in Hv as [_ <-]. by vm_compute.
  - exists ratios. split; [done |].
    pose proof (basic_ratios_growth _ _ ratios Hok) as Hgrowth.
    change (previous_year (Some {[ "2023" := {[ "revenue" := 100 ]} ]}))
      with (Some ({[ "revenue" := 100 ]} : gmap string Z)) in Hgrowth.
    cbn zeta in Hgrowth. destruct Hgrowth as (Hrg & _ & _ & Hng).
    split; [exact Hrg |]. by apply Hng.
Defined.

(** ** Scores of the fraud engine and the handler's risk level *)

(** A quotient of a negative by a positive amount is a negative float (or
    the negative zero), which is below [0.5]. *)
Lemma int_truediv_negative (a b : Z) (f : spec_float) :
  a < 0 -> 0 < b -> int_truediv a b = Ok f -> SFltb f float_half = true.
Proof.
  intros Ha Hb. unfold int_truediv, float_of_ratio.
  destruct (Z.eqb_spec b 0) as [? | _]; [lia |].
  destruct (Z.ltb_spec a 0) as [_ | ?]; [|lia].
  destruct (Z.ltb_spec b 0) as [? | _]; [lia |]. cbn [xorb].
  destruct (Z.abs a =? 0); [by intros [= <-] |].
  destruct (round_ratio _ _) as [[|m|m] e]; try by intros [= <-].
  destruct (e <=? _); [by intros [= <-] | done].
Qed.

(** What a successful run of the fraud engine has computed: the three
    indicators, and the score of these three. *)
Lemma fraud_indicators_inv (financial_data cash_flow_data : gmap string Z)
    (indicators : gmap string pyval) :
  let revenue := dict_get financial_data "revenue" 0 in
  let net_income := dict_get financial_data "net_income" 0 in
  let receivables := dict_get financial_data "accounts_receivable" 0 in
  let operating_cash_flow := dict_get cash_flow_data "operating_cash_flow" 0 in
  _calculate_basic_fraud_indicators financial_data cash_flow_data = Ok indicators ->
  exists cf ar,
    (if negb (net_income =? 0)
     then f ← int_truediv operating_cash_flow net_income; Ok (PyFloat f)
     else Ok (PyInt 0)) = Ok cf
    /\ (if negb (revenue =? 0)
        then f ← int_truediv receivables revenue; py_mul_int (PyFloat f) 100
        else Ok (PyInt 0)) = Ok ar
    /\ let three : gmap string pyval :=
         <["순이익_양수_현금흐름_음수" :=
             PyBool ((0 <? net_income) && (operating_cash_flow <? 0))]>
           (<["매출채권_대_매출_비율" := ar]>
              (<["현금흐름_대_순이익_비율" := cf]> ∅)) in
       indicators
       = <["종합_부정위험점수" := PyInt (_calculate_fraud_risk_score three)]> three.
Proof.
  intros revenue net_income receivables operating_cash_flow.
  unfold _calculate_basic_fraud_indicators.
  fold revenue net_income receivables operating_cash_flow.
  destruct (if negb (net_income =? 0) then _ else _) as [cf|]; [|done].
  destruct (if negb (revenue =? 0) then _ else _) as [ar|]; [|done].
  unfold mbind at 1 2, result_bind; cbn beta iota zeta.
  intros [= <-]. by exists cf, ar.
Qed.

(** The score the engine stores is the sum of the penalties of its own three
    indicators; the third penalty never comes without the first. *)
Lemma fraud_indicators_score_cases (financial_data cash_flow_data : gmap string Z)
    (indicators : gmap string pyval) :
  let net_income := dict_get financial_data "net_income" 0 in
  let operating_cash_flow := dict_get cash_flow_data "operating_cash_flow" 0 in
  _calculate_basic_fraud_indicators financial_data cash_flow_data = Ok indicators ->
  indicators !! "종합_부정위험점수"
  = Some (PyInt ((if low_cash_flow indicators then 30 else 0)
                 + (if high_receivables indicators then 25 else 0)
                 + (if income_without_cash indicators then 25 else 0)))
  /\ income_without_cash indicators
     = (0 <? net_income) && (operating_cash_flow <? 0)
  /\ (net_income = 0 -> low_cash_flow indicators = true)
  /\ (income_without_cash indicators = true -> low_cash_flow indicators = true)
  /\ indicators !! "매출채권_급증여부" = None.
Proof.
  intros net_income operating_cash_flow Hrun.
  destruct (fraud_indicators_inv _ _ _ Hrun) as (cf & ar & Hcf & _ & ->).
  fold net_income operating_cash_flow in Hcf |- *. cbn zeta.
  set (three := <["순이익_양수_현금흐름_음수" := _]> _).
  set (indicators := <["종합_부정위험점수" := _]> three).
  assert (low_cash_flow indicators = low_cash_flow three) as Hlow by done.
  assert (high_receivables indicators = high_receivables three) as Hhigh by done.
  assert (income_without_cash indicators
          = (0 <? net_income) && (operating_cash_flow <? 0)) as Hiwc by done.
  assert (income_without_cash three
          = (0 <? net_income) && (operating_cash_flow <? 0)) as Hiwc3 by done.
  assert (low_cash_flow three = py_lt cf (PyFloat float_half)) as Hcf3 by done.
  split; [|split; [done |]; split; [|split; [|done]]].
  - rewrite Hlow, Hhigh, Hiwc. unfold indicators.
    rewrite lookup_insert_eq, fraud_risk_score_sum. by rewrite Hiwc3.
  - intros Hzero. rewrite Hlow, Hcf3. rewrite Hzero in Hcf. by injection Hcf as <-.
  - rewrite Hiwc, Hlow, Hcf3.
    intros [Hpos%Z.ltb_lt Hneg%Z.ltb_lt]%andb_true_iff.
    destruct (Z.eqb_spec net_income 0) as [? | _]; [lia |]. cbn [negb] in Hcf.
    destruct (int_truediv operating_cash_flow net_income) as [f|] eqn:Hf; [|done].
    injection Hcf as <-.
    by apply (int_truediv_negative operating_cash_flow net_income).
Qed.

(** X7.  The score stored by the fraud engine is one of 0, 25, 30, 55 and 80. A
    record without net income always draws the 30 points of the cash-flow
    penalty, and a positive net income with a negative operating cash flow
    draws that penalty as well, hence 55 points at least. *)
Theorem fraud_indicators_score_values
    (financial_data cash_flow_data : gmap string Z)
    (indicators : gmap string pyval) :
  let net_income := dict_get financial_data "net_income" 0 in
  let operating_cash_flow := dict_get cash_flow_data "operating_cash_flow" 0 in
  _calculate_basic_fraud_indicators financial_data cash_flow_data = Ok indicators ->
  exists score,
    indicators !! "종합_부정위험점수" = Some (PyInt score)
    /\ score ∈ [0; 25; 30; 55; 80]
    /\ (net_income = 0 -> 30 <= score)
    /\ (0 < net_income -> operating_cash_flow < 0 -> 55 <= score).
Proof.
  intros net_income operating_cash_flow Hrun.
  destruct (fraud_indicators_score_cases _ _ _ Hrun)
    as (Hscore & Hiwc & Hzero & Hboth & _).
  fold net_income operating_cash_flow in Hiwc, Hzero.
  eexists. split; [exact Hscore |].
  assert (0 < net_income -> operating_cash_flow < 0 ->
          income_without_cash indicators = true) as Hthird.
  { intros Hpos%Z.ltb_lt Hneg%Z.ltb_lt. by rewrite Hiwc, Hpos, Hneg. }
  destruct (low_cash_flow indicators), (high_receivables indicators),
    (income_without_cash indicators);
    try (by specialize (Hboth eq_refl));
    (split; [rewrite !elem_of_cons; cbn; tauto |]);
    (split; [intros Hni; try (by specialize (Hzero Hni)); cbn; lia |]);
    intros Hpos Hneg; try (by specialize (Hthird Hpos Hneg)); cbn; lia.
Qed.

(** For amounts in the float range the fraud engine returns. *)
Lemma fraud_indicators_ok (financial_data cash_flow_data : gmap string Z) :
  Z.abs (dict_get cash_flow_data "operating_cash_flow" 0) <= max_float_int ->
  Z.abs (dict_get financial_data "accounts_receivable" 0) <= max_float_int ->
  exists indicators,
    _calculate_basic_fraud_indicators financial_data cash_flow_data = Ok indicators.
Proof.
  intros Hocf Hrec. unfold _calculate_basic_fraud_indicators.
  set (revenue := dict_get financial_data "revenue" 0).
  set (net_income := dict_get financial_data "net_income" 0).
  assert (exists cf,
    (if negb (net_income =? 0)
     then f ← int_truediv (dict_get cash_flow_data "operating_cash_flow" 0) net_income;
          Ok (PyFloat f)
     else Ok (PyInt 0)) = Ok cf) as [cf ->].
  { destruct (Z.eqb_spec net_income 0) as [? | Hni]; cbn [negb]; [by eexists |].
    destruct (int_truediv_ok _ _ Hni Hocf) as [q ->]. by eexists. }
  assert (exists ar,
    (if negb (revenue =? 0)
     then f ← int_truediv (dict_get financial_data "accounts_receivable" 0) revenue;
          py_mul_int (PyFloat f) 100
     else Ok (PyInt 0)) = Ok ar) as [ar ->].
  { destruct (Z.eqb_spec revenue 0) as [? | Hrev]; cbn [negb]; [by eexists |].
    destruct (int_truediv_ok _ _ Hrev Hrec) as [q ->].
    unfold mbind, result_bind. rewrite py_mul_int_float_100. by eexists. }
  by eexists.
Qed.

(** A record without net income (revenue 100, operating cash flow 50) gets
    the score 30. *)
Lemma fraud_indicators_score_values_witness :
  exists indicators score,
    _calculate_basic_fraud_indicators
      {[ "revenue" := 100 ]} {[ "operating_cash_flow" := 50 ]} = Ok indicators
    /\ indicators !! "종합_부정위험점수" = Some (PyInt score)
    /\ 30 <= score.
Proof.
  destruct (fraud_indicators_ok {[ "revenue" := 100 ]} {[ "operating_cash_flow" := 50 ]})
    as [indicators Hok]; [by vm_compute | by vm_compute |].
  destruct (fraud_indicators_score_values _ _ indicators Hok)
    as (score & Hscore & _ & Hzero & _).
  exists indicators, score. split; [done |]. split; [done |].
  apply Hzero. reflexivity.
Defined.

(** X8.  The handler's risk level, read from the engine's own score (also after
    the entries of the discussion have been added to the dictionary, which
    leaves the score entry as it is): HIGH exactly for the score 80, when all
    three penalties apply, MEDIUM for 55, LOW for 25 and 30, MINIMAL for 0. A
    record without net income is never MINIMAL, and a positive net income with
    a negative operating cash flow is MEDIUM or HIGH. *)
Theorem fraud_risk_level_of_engine
    (financial_data cash_flow_data : gmap string Z)
    (indicators fraud_ratios : gmap string pyval) :
  let net_income := dict_get financial_data "net_income" 0 in
  let operating_cash_flow := dict_get cash_flow_data "operating_cash_flow" 0 in
  _calculate_basic_fraud_indicators financial_data cash_flow_data = Ok indicators ->
  fraud_ratios !! "종합_부정위험점수" = indicators !! "종합_부정위험점수" ->
  exists score,
    indicators !! "종합_부정위험점수" = Some (PyInt score)
    /\ _determine_fraud_risk_level fraud_ratios
       = (if score =? 80 then "HIGH"
          else if score =? 55 then "MEDIUM"
          else if score =? 0 then "MINIMAL"
          else "LOW")
    /\ (net_income = 0 -> _determine_fraud_risk_level fraud_ratios ≠ "MINIMAL")
    /\ (0 < net_income -> operating_cash_flow < 0 ->
        _determine_fraud_risk_level fraud_ratios = "MEDIUM"
        \/ _determine_fraud_risk_level fraud_ratios = "HIGH").
Proof.
  intros net_income operating_cash_flow Hrun Hsame.
  destruct (fraud_indicators_score_cases _ _ _ Hrun)
    as (Hscore & Hiwc & Hzero & Hboth & _).
  fold net_income operating_cash_flow in Hiwc, Hzero.
  eexists. split; [exact Hscore |].
  unfold _determine_fraud_risk_level, dict_get. rewrite Hsame, Hscore.
  assert (0 < net_income -> operating_cash_flow < 0 ->
          income_without_cash indicators = true) as Hthird.
  { intros Hpos%Z.ltb_lt Hneg%Z.ltb_lt. by rewrite Hiwc, Hpos, Hneg. }
  destruct (low_cash_flow indicators), (high_receivables indicators),
    (income_without_cash indicators);
    try (by specialize (Hboth eq_refl));
    (split; [by vm_compute |]);
    (split; [intros Hni; try (by specialize (Hzero Hni)); by vm_compute |]);
    intros Hpos Hneg; try (by specialize (Hthird Hpos Hneg));
    vm_compute; tauto.
Qed.

Lemma fraud_risk_level_of_engine_witness :
  exists indicators,
    _calculate_basic_fraud_indicators
      {[ "revenue" := 100 ]} {[ "operating_cash_flow" := 50 ]} = Ok indicators
    /\ _determine_fraud_risk_level indicators ≠ "MINIMAL".
Proof.
  destruct (fraud_indicators_ok {[ "revenue" := 100 ]} {[ "operating_cash_flow" := 50 ]})
    as [indicators Hok]; [by vm_compute | by vm_compute |].
  destruct (fraud_risk_level_of_engine _ _ indicators indicators Hok eq_refl)
    as (score & _ & _ & Hzero & _).
  exists indicators. split; [done |]. apply Hzero. reflexivity.
Defined.

(** ** From the normaliser to the engines *)

Section Pipeline.

Variable py_float : string -> result spec_float.

(** Python's [float] returns binary64 values. *)
Hypothesis py_float_valid :
  forall s f, py_float s = Ok f -> valid_binary float_prec float_emax f = true.

(** X9.  The engines return on the normaliser's records.  Every amount the
    normaliser stores comes out of [int(float(...))] and is within the float
    range, so on its record, with the records of the other years coming from
    the same normaliser, the ratio engine raises no exception and gives each
    ratio by its reference definition; the fraud engine returns as well when
    the operating cash flow, which the cash-flow parser reads with [int]
    alone, is within the float range. *)
Theorem parsed_records_never_raise (financial_list : list (gmap string string))
    (yearly : gmap string (list (gmap string string)))
    (cash_flow_data : gmap string Z) :
  let financial_data := parse_financial_statements py_float financial_list in
  let multi_year_data := Some (parse_financial_statements py_float <$> yearly) in
  (exists ratios,
     _calculate_basic_ratios financial_data multi_year_data = Ok ratios
     /\ ratios_by_reference financial_data ratios)
  /\ (Z.abs (dict_get cash_flow_data "operating_cash_flow" 0) <= max_float_int ->
      exists indicators,
        _calculate_basic_fraud_indicators financial_data cash_flow_data
        = Ok indicators).
Proof.
  intros financial_data multi_year_data. split.
  - apply basic_ratios_in_range; [by apply parse_in_range |].
    intros years prev_data [= <-] Hprev.
    apply lookup_fmap_Some in Hprev as (lines & <- & _). by apply parse_in_range.
  - intros Hocf. apply fraud_indicators_ok; [done |].
    apply dict_get_in_range. by apply parse_in_range.
Qed.

End Pipeline.

Lemma parsed_records_never_raise_witness :
  (exists ratios,
     _calculate_basic_ratios
       (parse_financial_statements float_of_decimal
          [line_item "손익계산서" "매출액" "1,500"; line_item "재무상태표" "자본총계" "700"])
       (Some (parse_financial_statements float_of_decimal
                <$> {[ "2023" := [line_item "손익계산서" "매출액" "1,000"] ]}))
     = Ok ratios)
  /\ exists indicators,
       _calculate_basic_fraud_indicators
         (parse_financial_statements float_of_decimal
            [line_item "손익계산서" "매출액" "1,500"; line_item "재무상태표" "자본총계" "700"])
         {[ "operating_cash_flow" := -20 ]}
       = Ok indicators.
Proof.
  destruct (parsed_records_never_raise float_of_decimal float_of_decimal_valid
              [line_item "손익계산서" "매출액" "1,500"; line_item "재무상태표" "자본총계" "700"]
              {[ "2023" := [line_item "손익계산서" "매출액" "1,000"] ]}
              {[ "operating_cash_flow" := -20 ]})
    as [(ratios & Hok & _) Hfraud].
  split; [by exists ratios |]. apply Hfraud. by vm_compute.
Defined.

(** ** Records without an operating cash flow *)

(** The quotient of 0 by any amount is a zero, which is below [0.5]. *)
Lemma int_truediv_zero (b : Z) (f : spec_float) :
  int_truediv 0 b = Ok f -> SFltb f float_half = true.
Proof.
  unfold int_truediv, float_of_ratio. destruct (b =? 0); [done |].
  cbn. by intros [= <-].
Qed.

(** X10.  When the cash-flow record has no operating cash flow, or has it as 0
    (no such line in the filing, an amount that does not read as an integer,
    or no cash-flow data at all), the fraud engine always returns and always
    applies the cash-flow penalty, whatever the net income: the score is 30 or
    55, so that the risk level of the handler is LOW or MEDIUM and never
    MINIMAL. *)
Theorem missing_cash_flow_draws_penalty
    (financial_data cash_flow_data : gmap string Z) :
  dict_get cash_flow_data "operating_cash_flow" 0 = 0 ->
  Z.abs (dict_get financial_data "accounts_receivable" 0) <= max_float_int ->
  exists indicators score,
    _calculate_basic_fraud_indicators financial_data cash_flow_data = Ok indicators
    /\ low_cash_flow indicators = true
    /\ indicators !! "종합_부정위험점수" = Some (PyInt score)
    /\ (score = 30 \/ score = 55)
    /\ (_determine_fraud_risk_level indicators = "LOW"
        \/ _determine_fraud_risk_level indicators = "MEDIUM").
Proof.
  intros Hzero Hrec.
  destruct (fraud_indicators_ok financial_data cash_flow_data)
    as [indicators Hrun]; [by rewrite Hzero | done |].
  destruct (fraud_indicators_score_cases _ _ _ Hrun)
    as (Hscore & Hiwc & Hni & _ & _).
  rewrite Hzero in Hiwc. rewrite andb_false_r in Hiwc.
  assert (low_cash_flow indicators = true) as Hlow.
  { destruct (decide (dict_get financial_data "net_income" 0 = 0)) as [H0 | Hne];
      [by apply Hni |].
    destruct (fraud_indicators_inv _ _ _ Hrun) as (cf & ar & Hcf & _ & ->).
    rewrite Hzero in Hcf.
    destruct (Z.eqb_spec (dict_get financial_data "net_income" 0) 0) as [? | _];
      [done |]. cbn [negb] in Hcf.
    destruct (int_truediv 0 _) as [f|] eqn:Hf; [|done]. injection Hcf as <-.
    unfold low_cash_flow, dict_get. simplify_map_eq.
    by apply (int_truediv_zero _ _ Hf). }
  rewrite Hlow, Hiwc in Hscore.
  eexists indicators, _. split; [done |]. split; [done |].
  split; [exact Hscore |].
  unfold _determine_fraud_risk_level, dict_get. rewrite Hscore.
  destruct (high_receivables indicators);
    (split; [|by vm_compute; tauto]); [by right | by left].
Qed.

(** A profitable company whose filing has no cash-flow statement. *)
Lemma missing_cash_flow_draws_penalty_witness :
  exists indicators score,
    _calculate_basic_fraud_indicators
      {[ "revenue" := 1000; "net_income" := 100 ]} ∅ = Ok indicators
    /\ low_cash_flow indicators = true
    /\ indicators !! "종합_부정위험점수" = Some (PyInt score)
    /\ (score = 30 \/ score = 55).
Proof.
  destruct (missing_cash_flow_draws_penalty
              {[ "revenue" := 1000; "net_income" := 100 ]} ∅)
    as (indicators & score & Hrun & Hlow & Hscore & Hvalues & _);
    [reflexivity | by vm_compute |].
  by exists indicators, score.
Defined.

(** ** The explanation of a fraud analysis *)

Section FraudExplanationFacts.

Variable float_repr : spec_float -> string.

(** X11.  The explanation names a cash-flow concern for each of the two
    cash-flow penalties, and never the receivables: their sentence depends on
    the entry 매출채권_급증여부, which the fraud engine does not write.  So when the
    receivables penalty is the only one (score 25), the explanation of the
    engine's indicators reports the level LOW and says that no particular sign
    of fraud was found. *)
Theorem fraud_explanation_omits_receivables
    (financial_data cash_flow_data : gmap string Z)
    (indicators fraud_ratios : gmap string pyval) :
  _calculate_basic_fraud_indicators financial_data cash_flow_data = Ok indicators ->
  (forall key,
     key ∈ ["종합_부정위험점수"; "순이익_양수_현금흐름_음수"; "매출채권_급증여부";
            "현금흐름_대_순이익_비율"] ->
     fraud_ratios !! key = indicators !! key) ->
  fraud_concerns fraud_ratios
  = (if income_without_cash indicators
     then ["순이익은 양수이지만 영업현금흐름이 음수입니다."] else [])
    ++ (if low_cash_flow indicators
        then ["현금흐름 대 순이익 비율이 낮습니다."] else [])
  /\ ("매출채권 비율이 비정상적으로 높습니다." ∉ fraud_concerns fraud_ratios)
  /\ (indicators !! "종합_부정위험점수" = Some (PyInt 25) ->
      high_receivables indicators = true
      /\ _generate_fraud_explanation float_repr fraud_ratios
         = "종합 부정 위험 점수: 25점 (LOW 위험)" +:+ newline +:+ newline
           +:+ "특별한 부정 위험 징후는 발견되지 않았습니다.").
Proof.
  intros Hrun Hsame.
  destruct (fraud_indicators_score_cases _ _ _ Hrun)
    as (Hscore & _ & _ & Hboth & Habsent).
  assert (fraud_concerns fraud_ratios
          = (if income_without_cash indicators
             then ["순이익은 양수이지만 영업현금흐름이 음수입니다."] else [])
            ++ (if low_cash_flow indicators
                then ["현금흐름 대 순이익 비율이 낮습니다."] else []))
    as Hconcerns.
  { unfold fraud_concerns, income_without_cash, low_cash_flow, dict_get.
    rewrite !Hsame, Habsent by (apply (bool_decide_unpack _); by vm_compute).
    cbn [py_truthy]. by destruct (py_truthy _), (py_lt _ _). }
  split; [done |]. split.
  - rewrite Hconcerns.
    destruct (income_without_cash indicators), (low_cash_flow indicators);
      apply (bool_decide_unpack _); by vm_compute.
  - intros H25. rewrite Hscore in H25. injection H25 as H25.
    assert (low_cash_flow indicators = false
            /\ high_receivables indicators = true
            /\ income_without_cash indicators = false) as (Hlow & Hhigh & Hthird).
    { destruct (low_cash_flow indicators), (high_receivables indicators),
        (income_without_cash indicators);
        try (by specialize (Hboth eq_refl)); try lia; done. }
    split; [done |].
    unfold _generate_fraud_explanation, _determine_fraud_risk_level, dict_get.
    rewrite Hconcerns, !Hsame, Hscore, Hlow, Hhigh, Hthird
      by (apply (bool_decide_unpack _); by vm_compute).
    by vm_compute.
Qed.

End FraudExplanationFacts.

(** Receivables of 30 on a revenue of 100: whatever the score, the
    explanation does not name the receivables. *)
Lemma fraud_explanation_omits_receivables_witness :
  exists indicators,
    _calculate_basic_fraud_indicators
      {[ "revenue" := 100; "net_income" := 10; "accounts_receivable" := 30 ]}
      {[ "operating_cash_flow" := 10 ]} = Ok indicators
    /\ ("매출채권 비율이 비정상적으로 높습니다." ∉ fraud_concerns indicators).
Proof.
  destruct (fraud_indicators_ok
              {[ "revenue" := 100; "net_income" := 10; "accounts_receivable" := 30 ]}
              {[ "operating_cash_flow" := 10 ]})
    as [indicators Hok]; [by vm_compute | by vm_compute |].
  exists indicators. split; [done |].
  by apply (fraud_explanation_omits_receivables (fun _ => "") _ _
              indicators indicators Hok).
Defined.

(** ** Ratios named in a request *)

Lemma requested_from_names (items : list (string * list string))
    (user_input name : string) :
  name ∈ requested_from items user_input -> name ∈ items.*1.
Proof.
  induction items as [|[ratio_name keywords] items IH]; [done |].
  cbn [requested_from fmap list_fmap fst].
  destruct (any_keyword_in _ _).
  - intros [-> | Hin]%elem_of_cons; [left | right; by apply IH].
  - intros Hin. right. by apply IH.
Qed.

(** X12.  The answer to a request that names ratios holds each named ratio with
    the value the ratio engine gave it, except the current ratio (유동비율): the
    handler recognises its name, the engine does not compute it, and it is
    left out without notice.  A request that names the current ratio alone is
    answered with an empty dictionary. *)
Theorem requested_ratios_answer (financial_data : gmap string Z)
    (multi_year_data : option (gmap string (gmap string Z)))
    (ratios : gmap string pyval) (user_input name : string) :
  let requested_ratios := _extract_requested_ratios user_input in
  _calculate_basic_ratios financial_data multi_year_data = Ok ratios ->
  requested_ratios ≠ [] ->
  (is_Some (filtered_ratios requested_ratios ratios !! name)
   <-> name ∈ requested_ratios /\ name ≠ "유동비율")
  /\ (name ∈ requested_ratios ->
      filtered_ratios requested_ratios ratios !! name = ratios !! name)
  /\ (requested_ratios = ["유동비율"] -> filtered_ratios requested_ratios ratios = ∅).
Proof.
  intros requested_ratios Hrun Hnamed.
  assert (forall key,
    filtered_ratios requested_ratios ratios !! key
    = if decide (key ∈ requested_ratios) then ratios !! key else None) as Hfilter.
  { intros key. unfold filtered_ratios.
    destruct requested_ratios as [|r rs] eqn:Hreq; [done |].
    destruct (ratios !! key) as [v|] eqn:Hv.
    - case_decide as Hin.
      + by apply map_lookup_filter_Some.
      + apply map_lookup_filter_None. right. intros w Hw. done.
    - case_decide; apply map_lookup_filter_None; by left. }
  assert (forall key, key ∈ requested_ratios ->
    key ≠ "유동비율" -> is_Some (ratios !! key)) as Hcomputed.
  { intros key Hin%requested_from_names Hne.
    apply (basic_ratios_dom _ _ _ _ Hrun). left.
    unfold ratio_items in Hin. cbn [fmap list_fmap fst] in Hin.
    unfold basic_ratio_names. rewrite !elem_of_cons in Hin |- *. tauto. }
  assert (ratios !! "유동비율" = None) as Hcurrent.
  { apply eq_None_not_Some. rewrite (basic_ratios_dom _ _ _ _ Hrun).
    unfold basic_ratio_names, growth_ratio_names.
    rewrite !elem_of_cons, !elem_of_nil. intros [H | [_ H]]; by intuition. }
  split; [|split].
  - rewrite Hfilter. case_decide as Hin.
    + split.
      * intros Hsome. split; [done |]. intros ->. rewrite Hcurrent in Hsome.
        by destruct Hsome.
      * intros [_ Hne]. by apply Hcomputed.
    + split; [by intros [? ?] | tauto].
  - intros Hin. by rewrite Hfilter, decide_True.
  - intros Honly. apply map_eq. intros key. rewrite Hfilter, lookup_empty, Honly.
    case_decide as Hin; [|done].
    by apply list_elem_of_singleton in Hin as ->.
Qed.

(** A request for the current ratio of the example record. *)
Lemma requested_ratios_answer_witness :
  exists ratios,
    _calculate_basic_ratios
      {[ "revenue" := 1000000; "net_income" := 100000;
         "total_equity" := 500000; "total_liabilities" := 300000 ]} None
    = Ok ratios
    /\ _extract_requested_ratios "유동비율 알려줘" = ["유동비율"]
    /\ filtered_ratios (_extract_requested_ratios "유동비율 알려줘") ratios = ∅.
Proof.
  destruct (basic_ratios_in_range
              {[ "revenue" := 1000000; "net_income" := 100000;
                 "total_equity" := 500000; "total_liabilities" := 300000 ]} None)
    as (ratios & Hok & _).
  - intros key v Hv.
    repeat (apply lookup_insert_Some in Hv as [[_ <-] | [_ Hv]]; [by vm_compute |]).
    apply lookup_singleton_Some in Hv as [_ <-]. by vm_compute.
  - intros years prev_data Hnone. discriminate.
  - exists ratios. split; [done |].
    assert (_extract_requested_ratios "유동비율 알려줘" = ["유동비율"]) as Hreq
      by (vm_compute; reflexivity).
    split; [exact Hreq |].
    apply (requested_ratios_answer _ _ ratios "유동비율 알려줘" "ROE" Hok);
      by rewrite Hreq.
Defined.

(** ** The window of the conversation history *)

(** X13.  [get_conversation_history] returns the last [limit] entries of the
    history, and the whole history when it is shorter.  The limit 0 does not
    give an empty list but the whole history, and a negative limit drops the
    first [- limit] entries instead of keeping the last ones. *)
Theorem conversation_history_window {E} (conversation_history : list E)
    (limit : Z) :
  (0 < limit ->
   get_conversation_history conversation_history limit
   = drop (length conversation_history - Z.to_nat limit) conversation_history
   /\ length (get_conversation_history conversation_history limit)
      = Nat.min (Z.to_nat limit) (length conversation_history))
  /\ (limit = 0 ->
      get_conversation_history conversation_history limit = conversation_history)
  /\ (limit < 0 ->
      get_conversation_history conversation_history limit
      = drop (Z.to_nat (- limit)) conversation_history).
Proof.
  unfold get_conversation_history, py_slice_from.
  split; [|split].
  - intros Hpos. destruct (Z.eqb_spec limit 0) as [? | _]; [lia |]. cbn [negb].
    destruct (Z.ltb_spec (- limit) 0) as [_ | ?]; [|lia].
    replace (Z.to_nat (Z.max (Z.of_nat (length conversation_history) + - limit) 0))
      with (length conversation_history - Z.to_nat limit)%nat by lia.
    split; [done |]. rewrite length_drop. lia.
  - by intros ->.
  - intros Hneg. destruct (Z.eqb_spec limit 0) as [? | _]; [lia |]. cbn [negb].
    destruct (Z.ltb_spec (- limit) 0) as [? | _]; [lia |].
    destruct (Z.le_gt_cases (- limit) (Z.of_nat (length conversation_history))).
    + by rewrite Z.min_l.
    + rewrite Z.min_r, Nat2Z.id by lia. by rewrite !drop_ge by lia.
Qed.

Lemma conversation_history_window_witness :
  get_conversation_history ["q1"; "q2"; "q3"] 2 = ["q2"; "q3"]
  /\ get_conversation_history ["q1"; "q2"; "q3"] 0 = ["q1"; "q2"; "q3"]
  /\ get_conversation_history ["q1"; "q2"; "q3"] (-1) = ["q2"; "q3"].
Proof.
  destruct (conversation_history_window ["q1"; "q2"; "q3"] 2) as (H2 & _ & _).
  destruct (conversation_history_window ["q1"; "q2"; "q3"] 0) as (_ & H0 & _).
  destruct (conversation_history_window ["q1"; "q2"; "q3"] (-1)) as (_ & _ & Hm).
  split; [apply H2; lia |]. split; [by apply H0 | apply Hm; lia].
Defined.

(** ** Report requests *)

Section ReportFacts.

Import ContextCache ReportHandler.

Context {V L : Type}.

Variable new_report_generator : outcome unit.
Variable generate_all_reports :
  gmap string V -> string -> outcome (list (string * string)).
Variable generate_comprehensive_report : gmap string V -> string -> outcome string.
Variable create_excel_report : gmap string V -> string -> outcome string.
Variable open_report : string -> outcome bool.
Variable get_report_summary : list (string * string) -> outcome string.

Local Abbreviation handle :=
  (_handle_report_query new_report_generator generate_all_reports
     generate_comprehensive_report create_excel_report open_report
     get_report_summary).

(** X14.  A request for a PDF report never produces a report.  The classifier
    counts [pdf] among the keywords of a report request and
    [_determine_report_type] returns ["pdf"] for it, but the handler has a
    branch for the comprehensive, the DOCX and the Excel report only: with a
    company chosen and analysed, and the generator at hand, the answer is the
    error that the report type is not supported. *)
Theorem pdf_report_is_not_supported (current_company : option string)
    (agent : @engine V L) (user_input : string) :
  _determine_report_type user_input = "pdf" ->
  response_type (handle current_company agent user_input) ≠ "report_generated"
  /\ (forall company context,
        current_company = Some company -> company ≠ "" ->
        get_analysis_context agent company = Some context ->
        new_report_generator = Returned () ->
        handle current_company agent user_input = unsupported_report_type).
Proof.
  intros Hpdf.
  assert (forall (context : @context V L) company,
    generate_report new_report_generator generate_all_reports
      generate_comprehensive_report create_excel_report open_report
      get_report_summary context company user_input
    = _ ← new_report_generator; Returned unsupported_report_type) as Hbody.
  { intros context company. unfold generate_report. by rewrite Hpdf. }
  split.
  - unfold _handle_report_query.
    destruct current_company as [[|c company]|]; [done | | done].
    destruct (get_analysis_context agent _) as [context|]; [|done].
    rewrite Hbody. by destruct new_report_generator.
  - intros company context -> Hname Hcontext Hgenerator.
    unfold _handle_report_query. destruct company as [|c company]; [done |].
    by rewrite Hcontext, Hbody, Hgenerator.
Qed.

End ReportFacts.

(** A request for a PDF of an analysed company, with a generator whose every
    method would succeed. *)
Lemma pdf_report_is_not_supported_witness :
  let agent :=
    ContextCache.save_analysis_context 0%nat 10 "삼성전자" {["ratios" := 7%nat]}
      {| ContextCache.conversation_memory := ∅;
         ContextCache.discussion_log := [1%nat] |} in
  ReportHandler._handle_report_query (ReportHandler.Returned ())
    (fun _ _ => ReportHandler.Returned [("docx", "report.docx")])
    (fun _ _ => ReportHandler.Returned "report.docx")
    (fun _ _ => ReportHandler.Returned "report.xlsx")
    (fun _ => ReportHandler.Returned true)
    (fun _ => ReportHandler.Returned "summary")
    (Some "삼성전자") agent "삼성전자 PDF 보고서 만들어줘"
  = ReportHandler.unsupported_report_type.
Proof.
  intros agent.
  apply (proj2 (pdf_report_is_not_supported (ReportHandler.Returned ())
                  (fun _ _ => ReportHandler.Returned [("docx", "report.docx")])
                  (fun _ _ => ReportHandler.Returned "report.docx")
                  (fun _ _ => ReportHandler.Returned "report.xlsx")
                  (fun _ => ReportHandler.Returned true)
                  (fun _ => ReportHandler.Returned "summary")
                  (Some "삼성전자") agent "삼성전자 PDF 보고서 만들어줘"
                  ltac:(vm_compute; reflexivity))
           "삼성전자" _ eq_refl ltac:(done) ltac:(vm_compute; reflexivity) eq_refl).
Defined.

(** ** Texts without a grade *)

Lemma pretty_N_char_digit (x : N) :
  (48 <= N_of_ascii (pretty_N_char x) <= 57)%N.
Proof.
  unfold pretty_N_char. repeat case_match; vm_compute; split; discriminate.
Qed.

(** The decimal numeral of a number is made of digits. *)
Lemma pretty_N_go_chars (c : ascii) (x : N) (s : string) :
  has_char c (pretty_N_go x s) = true ->
  has_char c s = true \/ (48 <= N_of_ascii c <= 57)%N.
Proof.
  revert s. induction (N.lt_wf_0 x) as [x _ IH]. intros s.
  destruct (decide (x = 0%N)) as [-> | Hx].
  - rewrite pretty_N_go_0. by left.
  - rewrite pretty_N_go_step by lia. intros Hc.
    apply IH in Hc; [|apply N.div_lt; lia].
    destruct Hc as [Hc | Hc]; [|by right]. cbn [has_char] in Hc.
    apply orb_true_iff in Hc as [Heq | Hc]; [right | by left].
    apply Ascii.eqb_eq in Heq as ->. apply pretty_N_char_digit.
Qed.

Lemma pretty_Z_ascii (c : ascii) (z : Z) :
  has_char c (pretty z) = true -> (N_of_ascii c < 128)%N.
Proof.
  assert (forall p, has_char c (pretty (Npos p)) = true -> (N_of_ascii c < 128)%N)
    as Hpos.
  { intros p. unfold pretty, pretty_N. rewrite decide_False by done.
    intros [Hc | Hc]%pretty_N_go_chars; [done | lia]. }
  destruct z as [|p|p]; unfold pretty, pretty_Z.
  - cbn [has_char]. rewrite orb_false_r. by intros ->%Ascii.eqb_eq.
  - apply (Hpos p).
  - rewrite has_char_app. cbn [has_char]. rewrite orb_false_r.
    intros [->%Ascii.eqb_eq | Hc]%orb_true_iff; [done | by apply (Hpos p)].
Qed.

(** Every phrasing of a grade holds the syllable 급, whose encoding begins
    with the byte 234: a text without this byte gets the default grade. *)
Lemma no_marker_default_grade (consensus : string) :
  has_char (ascii_of_N 234) consensus = false ->
  _extract_grade_from_consensus consensus = "B".
Proof.
  intros Hnone. apply grade_loop_default. intros g Hin Hmarker.
  apply grade_test_spec in Hmarker. unfold grade_test in Hmarker.
  assert (forall needle, has_char (ascii_of_N 234) needle = true ->
            str_in needle consensus = false) as Habsent.
  { intros needle Hbyte. destruct (str_in needle consensus) eqn:Hin'; [|done].
    by rewrite (str_in_has_char _ _ _ Hin' Hbyte) in Hnone. }
  unfold grades in Hin.
  repeat (apply elem_of_cons in Hin as [-> | Hin];
          [by rewrite !Habsent in Hmarker by (by vm_compute) |]).
  inversion Hin.
Qed.

(** ** Discussions of the agents *)

Section DeliberationFacts.

Import Deliberation.

Variable post : nat -> string -> string -> reply.
Variable strftime_now : nat -> string.
Variable float_repr : spec_float -> string.
Variable format_2f : pyval -> string.

Lemma agents_item_in (key : string) (agent : agent) (s : state) :
  (key, agent) ∈ agents -> agents_item key s = Done agent s.
Proof.
  intros Hin. unfold agents in Hin.
  repeat (apply elem_of_cons in Hin as [[= -> ->] | Hin]; [reflexivity |]).
  inversion Hin.
Qed.

Lemma agents_item_unknown (key : string) (s : state) :
  key ∉ agents.*1 -> agents_item key s = Fails (KeyError key) s.
Proof.
  intros Hout. unfold agents_item.
  destruct (List.find _ _) as [[k agent]|] eqn:Hfind; [|done].
  apply List.find_some in Hfind as [Hin Heq]. apply String.eqb_eq in Heq.
  cbn [fst] in Heq. subst k. destruct Hout.
  apply list_elem_of_fmap. exists (key, agent). split; [done |].
  by apply list_elem_of_In.
Qed.

(** [call_ollama] with the key of an agent sends one request for the model
    of this agent and returns the value of the reply. *)
Lemma call_ollama_run (key : string) (agent : agent) (prompt : string) (s : state) :
  (key, agent) ∈ agents ->
  call_ollama post key prompt s
  = Done (reply_value (post (requests_sent s) (model agent) prompt))
         {| current_loaded_model := Some (model agent);
            discussion_log := discussion_log s;
            requests_sent := S (requests_sent s);
            clock_reads := clock_reads s |}.
Proof.
  intros Hin. unfold call_ollama, mbind, M_bind.
  rewrite (agents_item_in _ _ _ Hin). unfold load_model, post_generate.
  case_bool_decide as Hloaded; cbn; [by rewrite Hloaded | done].
Qed.

Lemma logged_calls_nil (n c : nat) (entries : list log_entry) :
  logged_calls post strftime_now n c [] entries -> entries = [].
Proof. by destruct entries. Qed.


Lemma logged_calls_app (n c : nat) (called called' : list agent)
    (entries entries' : list log_entry) :
  logged_calls post strftime_now n c called entries ->
  logged_calls post strftime_now (n + length called) (c + length called)
    called' entries' ->
  logged_calls post strftime_now n c (called ++ called') (entries ++ entries').
Proof.
  revert n c entries.
  induction called as [|agent called IH]; intros n c entries Hfirst Hnext.
  - apply logged_calls_nil in Hfirst as ->. cbn [length] in Hnext.
    by rewrite !Nat.add_0_r in Hnext.
  - destruct entries as [|entry entries]; [done |].
    destruct Hfirst as [Hentry Hfirst]. split; [done |].
    apply IH; [done |]. cbn [length] in Hnext.
    by rewrite <- !Nat.add_succ_comm in Hnext.
Qed.

Lemma discussed_refl (s : state) : discussed post strftime_now s s 0 [].
Proof.
  split; [cbn; lia |]. split; [cbn; lia |]. exists [].
  split; [by rewrite app_nil_r | done].
Qed.

(** Two runs in a row, when the requests of the first are those of its
    calls, or the second calls no agent. *)
Lemma discussed_trans (s1 s2 s3 : state) (n m : nat) (called called' : list agent) :
  n = length called \/ called' = [] ->
  discussed post strftime_now s1 s2 n called ->
  discussed post strftime_now s2 s3 m called' ->
  discussed post strftime_now s1 s3 (n + m) (called ++ called').
Proof.
  intros Hcount (Hr & Hc & e & Hl & He) (Hr' & Hc' & e' & Hl' & He').
  split; [lia |]. split; [rewrite length_app; lia |]. exists (e ++ e').
  split; [by rewrite Hl', Hl, app_assoc |].
  destruct Hcount as [-> | ->].
  - apply logged_calls_app; [done |]. by rewrite <- Hr, <- Hc.
  - apply logged_calls_nil in He' as ->. by rewrite !app_nil_r.
Qed.

(** One call of an agent that is answered with a text: one request for
    the model of the agent, one reading of the clock, one log entry. *)
Lemma call_agent_with_persona_run (key : string) (agent : agent)
    (prompt text : string) (s : state) :
  (key, agent) ∈ agents ->
  reply_value (post (requests_sent s) (model agent) (persona_prompt agent prompt))
  = JString text ->
  exists s',
    _call_agent_with_persona post strftime_now key prompt s = Done text s'
    /\ discussed post strftime_now s s' 1 [agent]
    /\ current_loaded_model s' = Some (model agent).
Proof.
  intros Hin Htext. unfold _call_agent_with_persona.
  unfold mbind at 1, M_bind at 1. rewrite (agents_item_in _ _ _ Hin).
  unfold mbind at 1, M_bind at 1, now_hms.
  unfold mbind at 1, M_bind at 1, log_append.
  unfold mbind at 1, M_bind at 1. rewrite (call_ollama_run _ _ _ _ Hin).
  cbn [requests_sent discussion_log clock_reads current_loaded_model].
  rewrite Htext.
  unfold mbind, M_bind, log_set_last_response, mret, M_ret.
  cbn [requests_sent discussion_log clock_reads current_loaded_model].
  eexists. split; [reflexivity |].
  split; [|done]. split; [cbn; lia |]. split; [cbn; lia |].
  cbn [discussion_log].
  rewrite alter_app_r_alt by (rewrite length_app; cbn; lia).
  rewrite length_app. cbn [length].
  replace (length (discussion_log s) + 1 - 1 - length (discussion_log s))%nat
    with 0%nat by lia.
  cbn [alter list_alter timestamp speaker Deliberation.prompt].
  eexists. split; [reflexivity |]. split; [|done]. by exists prompt, text.
Qed.


Lemma dict_set_keys (d : list (string * string)) (key value : string)
    (P : string -> Prop) :
  P key -> Forall (fun entry => P entry.1) d ->
  Forall (fun entry => P entry.1) (dict_set d key value).
Proof.
  intros Hkey. induction d as [|[k v] d IH]; intros Hd; cbn [dict_set].
  - by apply Forall_singleton.
  - apply Forall_cons in Hd as [Hk Hd]. destruct (String.eqb k key).
    + by apply Forall_cons.
    + apply Forall_cons. split; [done | by apply IH].
Qed.

Lemma agent_key_in (key : string) :
  key ∈ agents.*1 -> exists agent, (key, agent) ∈ agents.
Proof.
  intros ([k agent] & -> & Hin)%list_elem_of_fmap. by exists agent.
Qed.

Lemma text_replies_next (first count : nat) :
  text_replies post first (S count) -> text_replies post (S first) count.
Proof. intros Htext n model_name prompt Hn. apply Htext. lia. Qed.

(** A round in which every agent of [entries] is asked. *)
Lemma ask_each_run (entries : list (string * agent)) (prompt : string)
    (opinions : list (string * string)) (s : state) :
  Forall (fun entry => entry ∈ agents) entries ->
  Forall (fun opinion => opinion.1 ∈ agents.*1) opinions ->
  text_replies post (requests_sent s) (length entries) ->
  exists opinions' s',
    ask_each post strftime_now entries.*1 prompt opinions s = Done opinions' s'
    /\ Forall (fun opinion => opinion.1 ∈ agents.*1) opinions'
    /\ discussed post strftime_now s s' (length entries) entries.*2.
Proof.
  revert opinions s. induction entries as [|[key agent] entries IH];
    intros opinions s Hentries Hopinions Htext.
  - exists opinions, s. split; [done |]. split; [done | apply discussed_refl].
  - apply Forall_cons in Hentries as [Hin Hentries].
    destruct (Htext (requests_sent s) (model agent) (persona_prompt agent prompt))
      as [text Hreply]; [cbn [length]; lia |].
    destruct (call_agent_with_persona_run key agent prompt text s Hin Hreply)
      as (s1 & Hcall & Hstep & _).
    cbn [fmap list_fmap fst snd ask_each]. unfold mbind, M_bind. rewrite Hcall.
    destruct (IH (dict_set opinions key text) s1)
      as (opinions' & s' & Hrest & Hkeys & Hsteps); [done | | |].
    { apply (dict_set_keys _ _ _ (fun k => k ∈ agents.*1)); [|done].
      apply list_elem_of_fmap. by exists (key, agent). }
    { destruct Hstep as [-> _]. rewrite Nat.add_1_r.
      by apply text_replies_next. }
    exists opinions', s'. split; [exact Hrest |]. split; [done |].
    apply (discussed_trans s s1 s' 1 (length entries) [agent] entries.*2);
      [by left | done | done].
Qed.

Lemma other_opinions_run (opinions : list (string * string)) (key : string)
    (s : state) :
  Forall (fun opinion => opinion.1 ∈ agents.*1) opinions ->
  exists others, other_opinions opinions key s = Done others s.
Proof.
  induction opinions as [|[k v] opinions IH]; intros Hopinions.
  - by exists [].
  - apply Forall_cons in Hopinions as [Hk Hopinions].
    destruct (IH Hopinions) as [others Hothers]. cbn [other_opinions].
    destruct (negb (String.eqb k key)); [|by exists others].
    destruct (agent_key_in k Hk) as [agent Hin].
    unfold mbind, M_bind. rewrite (agents_item_in _ _ _ Hin), Hothers.
    by eexists.
Qed.

(** The second round of the ratio discussion. *)
Lemma discuss_each_run (entries : list (string * agent))
    (opinions : list (string * string)) (s : state) :
  Forall (fun entry => entry ∈ agents) entries ->
  Forall (fun opinion => opinion.1 ∈ agents.*1) opinions ->
  text_replies post (requests_sent s) (length entries) ->
  exists opinions' s',
    discuss_each post strftime_now entries.*1 opinions s = Done opinions' s'
    /\ Forall (fun opinion => opinion.1 ∈ agents.*1) opinions'
    /\ discussed post strftime_now s s' (length entries) entries.*2.
Proof.
  revert opinions s. induction entries as [|[key agent] entries IH];
    intros opinions s Hentries Hopinions Htext.
  - exists opinions, s. split; [done |]. split; [done | apply discussed_refl].
  - apply Forall_cons in Hentries as [Hin Hentries].
    destruct (other_opinions_run opinions key s Hopinions) as [others Hothers].
    cbn [fmap list_fmap fst snd discuss_each]. unfold mbind at 1, M_bind at 1.
    rewrite Hothers.
    set (discussion_prompt := join newline _).
    destruct (Htext (requests_sent s) (model agent)
                (persona_prompt agent discussion_prompt))
      as [text Hreply]; [cbn [length]; lia |].
    destruct (call_agent_with_persona_run key agent discussion_prompt text s
                Hin Hreply)
      as (s1 & Hcall & Hstep & _).
    unfold mbind, M_bind. rewrite Hcall.
    destruct (IH (dict_set opinions key text) s1)
      as (opinions' & s' & Hrest & Hkeys & Hsteps); [done | | |].
    { apply (dict_set_keys _ _ _ (fun k => k ∈ agents.*1)); [|done].
      apply list_elem_of_fmap. by exists (key, agent). }
    { destruct Hstep as [-> _]. rewrite Nat.add_1_r.
      by apply text_replies_next. }
    exists opinions', s'. split; [exact Hrest |]. split; [done |].
    apply (discussed_trans s s1 s' 1 (length entries) [agent] entries.*2);
      [by left | done | done].
Qed.

Lemma add_opinions_run (opinions : list (string * string))
    (consensus_prompt : string) (s : state) :
  Forall (fun opinion => opinion.1 ∈ agents.*1) opinions ->
  exists text, add_opinions opinions consensus_prompt s = Done text s.
Proof.
  revert consensus_prompt. induction opinions as [|[k v] opinions IH];
    intros consensus_prompt Hopinions.
  - by exists consensus_prompt.
  - apply Forall_cons in Hopinions as [Hk Hopinions].
    destruct (agent_key_in k Hk) as [agent Hin].
    cbn [add_opinions]. unfold mbind, M_bind. rewrite (agents_item_in _ _ _ Hin).
    apply IH, Hopinions.
Qed.

(** The consensus is the value of the reply to one request for the model
    of the coordinator. *)
Lemma reach_consensus_run (opinions : list (string * string)) (topic : string)
    (s : state) :
  Forall (fun opinion => opinion.1 ∈ agents.*1) opinions ->
  exists consensus_prompt s',
    _reach_consensus post opinions topic s
    = Done (reply_value (post (requests_sent s) coordinator_model consensus_prompt)) s'
    /\ discussed post strftime_now s s' 1 []
    /\ current_loaded_model s' = Some coordinator_model.
Proof.
  intros Hopinions. unfold _reach_consensus.
  destruct (add_opinions_run opinions (join newline
              [ ""; "다음 전문가들의 " +:+ topic
                    +:+ "에 대한 의견들을 종합하여 최종 합의안을 도출해주세요.";
                ""; "전문가 의견들:"; "" ]) s Hopinions) as [text Htext].
  unfold mbind, M_bind. rewrite Htext.
  rewrite (call_ollama_run "coordinator" _ _ _ ltac:(left)).
  eexists _, _. split; [reflexivity |]. split; [|done].
  split; [cbn; lia |]. split; [cbn; lia |]. exists [].
  split; [by rewrite app_nil_r | done].
Qed.

Lemma agents_Forall : Forall (fun entry => entry ∈ agents) agents.
Proof. apply Forall_forall. done. Qed.

Lemma text_replies_part (first count skip part : nat) :
  (skip + part <= count)%nat ->
  text_replies post first count -> text_replies post (first + skip) part.
Proof. intros Hle Htext n model_name prompt Hn. apply Htext. lia. Qed.

(** The first round of a discussion: the three agents are asked. *)
Lemma first_round_run (prompt : string) (s : state) :
  text_replies post (requests_sent s) 3 ->
  exists opinions s',
    ask_each post strftime_now agents.*1 prompt [] s = Done opinions s'
    /\ Forall (fun opinion => opinion.1 ∈ agents.*1) opinions
    /\ discussed post strftime_now s s' 3 the_agents.
Proof.
  intros Htext.
  apply (ask_each_run agents prompt [] s agents_Forall (Forall_nil_2 _) Htext).
Qed.


(** The run of the fraud discussion when its agents are answered with
    texts: what it returns is decided by the reply to the request for the
    consensus. *)
Lemma conduct_fraud_discussion_run (indicators : gmap string pyval)
    (financial_data : gmap string Z) (s : state) :
  text_replies post (requests_sent s) 3 ->
  exists s' consensus_prompt,
    discussed post strftime_now s s' 4 the_agents
    /\ current_loaded_model s' = Some coordinator_model
    /\ _conduct_fraud_discussion post strftime_now float_repr format_2f
         indicators financial_data s
       = match reply_value (post (requests_sent s + 3) coordinator_model
                              consensus_prompt) with
         | JString consensus =>
             Done {| final_consensus := JString consensus;
                     grade := _extract_grade_from_consensus consensus;
                     confidence_level := 80 |} s'
         | _ => Fails AttributeError s'
         end.
Proof.
  intros Htext.
  unfold _conduct_fraud_discussion. set (prompt := join newline _).
  destruct (first_round_run prompt s Htext)
    as (opinions & s1 & Hask & Hkeys & Hstep1).
  unfold mbind at 1, M_bind at 1. rewrite Hask.
  destruct (reach_consensus_run opinions "부정위험등급" s1 Hkeys)
    as (cp & s' & Hreach & Hstep2 & Hmodel).
  unfold mbind at 1, M_bind at 1. rewrite Hreach.
  assert (requests_sent s1 = (requests_sent s + 3)%nat) as Hsent
    by (by destruct Hstep1).
  apply (discussed_trans s s1 s' 3 1 the_agents []) in Hstep2;
    [|by left | done].
  rewrite app_nil_r in Hstep2.
  exists s', cp. split; [done |]. split; [done |]. rewrite Hsent.
  unfold extract_grade, mbind, M_bind, raise, mret, M_ret.
  by destruct (reply_value (post (requests_sent s + 3)%nat coordinator_model cp)).
Qed.

(** The run of the ratio discussion when its agents are answered with
    texts. *)
Lemma conduct_ratio_discussion_run (ratios : gmap string pyval)
    (financial_data : gmap string Z) (s : state) :
  text_replies post (requests_sent s) 6 ->
  exists s' consensus_prompt,
    discussed post strftime_now s s' 7 (the_agents ++ the_agents)
    /\ current_loaded_model s' = Some coordinator_model
    /\ _conduct_ratio_discussion post strftime_now format_2f ratios financial_data s
       = match reply_value (post (requests_sent s + 6) coordinator_model
                              consensus_prompt) with
         | JString consensus =>
             Done {| final_consensus := JString consensus;
                     grade := _extract_grade_from_consensus consensus;
                     confidence_level := 85 |} s'
         | _ => Fails AttributeError s'
         end.
Proof.
  intros Htext.
  unfold _conduct_ratio_discussion. set (prompt := join newline _).
  destruct (first_round_run prompt s) as (opinions & s1 & Hask & Hkeys & Hstep1).
  { apply (text_replies_part _ 6 0 3) in Htext; [|lia].
    by rewrite Nat.add_0_r in Htext. }
  unfold mbind at 1, M_bind at 1. rewrite Hask.
  assert (requests_sent s1 = (requests_sent s + 3)%nat) as Hsent1
    by (by destruct Hstep1).
  destruct (discuss_each_run agents opinions s1 agents_Forall Hkeys)
    as (opinions' & s2 & Hdiscuss & Hkeys' & Hstep2).
  { rewrite Hsent1. apply (text_replies_part (requests_sent s) 6 3 3); [lia | done]. }
  unfold mbind at 1, M_bind at 1. rewrite Hdiscuss.
  apply (discussed_trans s s1 s2 3 3 the_agents the_agents) in Hstep2;
    [|by left | done].
  assert (requests_sent s2 = (requests_sent s + 6)%nat) as Hsent2
    by (by destruct Hstep2).
  destruct (reach_consensus_run opinions' "투자등급" s2 Hkeys')
    as (cp & s' & Hreach & Hstep3 & Hmodel).
  unfold mbind at 1, M_bind at 1. rewrite Hreach.
  apply (discussed_trans s s2 s' 6 1 (the_agents ++ the_agents) []) in Hstep3;
    [|by right | done].
  rewrite app_nil_r in Hstep3.
  exists s', cp. split; [done |]. split; [done |]. rewrite Hsent2.
  unfold extract_grade, mbind, M_bind, raise, mret, M_ret.
  by destruct (reply_value (post (requests_sent s + 6)%nat coordinator_model cp)).
Qed.


End DeliberationFacts.

Section DiscussionProtocols.

Import Deliberation.

Variable post : nat -> string -> string -> reply.
Variable strftime_now : nat -> string.
Variable float_repr : spec_float -> string.
Variable format_2f : pyval -> string.




(** X18.  When the model server gives no text (it answers every request with a
    status other than 200, or with a body without the field [response]), the
    discussions still return a verdict: the grade B, with the confidence level
    85 for the ratios and 80 for the fraud risk, and as the consensus the text
    that [call_ollama] makes of the last reply. *)
Theorem silent_server_default_grade (ratios indicators : gmap string pyval)
    (financial_data : gmap string Z) (s : state) :
  (forall n model_name prompt,
     (exists status_code, post n model_name prompt = status_other status_code)
     \/ post n model_name prompt = status_200 None) ->
  (exists v s',
     _conduct_ratio_discussion post strftime_now format_2f ratios financial_data s
     = Done v s'
     /\ grade v = "B" /\ confidence_level v = 85
     /\ exists consensus_prompt,
          final_consensus v
          = reply_value (post (requests_sent s + 6) coordinator_model
                           consensus_prompt))
  /\ (exists v s',
        _conduct_fraud_discussion post strftime_now float_repr format_2f
          indicators financial_data s = Done v s'
        /\ grade v = "B" /\ confidence_level v = 80
        /\ exists consensus_prompt,
             final_consensus v
             = reply_value (post (requests_sent s + 3) coordinator_model
                              consensus_prompt)).
Proof.
  intros Hsilent.
  assert (forall n model_name prompt,
    exists text,
      reply_value (post n model_name prompt) = JString text
      /\ _extract_grade_from_consensus text = "B") as Hdefault.
  { intros n model_name prompt.
    destruct (Hsilent n model_name prompt) as [[status_code ->] | ->];
      (eexists; split; [reflexivity |]); [|by vm_compute].
    apply no_marker_default_grade. rewrite has_char_app.
    apply orb_false_iff. split; [by vm_compute |].
    destruct (has_char _ (pretty status_code)) eqn:Hbyte; [|done].
    apply pretty_Z_ascii in Hbyte. by vm_compute in Hbyte. }
  assert (forall first count, text_replies post first count) as Htext.
  { intros first count n model_name prompt _.
    destruct (Hdefault n model_name prompt) as (text & Hreply & _).
    by exists text. }
  split.
  - destruct (conduct_ratio_discussion_run post strftime_now format_2f
                ratios financial_data s (Htext _ _))
      as (s' & cp & _ & _ & Hrun).
    destruct (Hdefault (requests_sent s + 6)%nat coordinator_model cp)
      as (text & Hreply & Hgrade).
    rewrite Hreply in Hrun. eexists _, s'. split; [exact Hrun |].
    split; [done |]. split; [done |]. exists cp. by rewrite Hreply.
  - destruct (conduct_fraud_discussion_run post strftime_now float_repr format_2f
                indicators financial_data s (Htext _ _))
      as (s' & cp & _ & _ & Hrun).
    destruct (Hdefault (requests_sent s + 3)%nat coordinator_model cp)
      as (text & Hreply & Hgrade).
    rewrite Hreply in Hrun. eexists _, s'. split; [exact Hrun |].
    split; [done |]. split; [done |]. exists cp. by rewrite Hreply.
Qed.

End DiscussionProtocols.




(** A server that answers every request with the status 503. *)
Lemma silent_server_default_grade_witness :
  let post := fun (_ : nat) (_ _ : string) => Deliberation.status_other 503 in
  let s := {| Deliberation.current_loaded_model := None;
              Deliberation.discussion_log := [];
              Deliberation.requests_sent := 0;
              Deliberation.clock_reads := 0 |} in
  exists v s',
    Deliberation._conduct_ratio_discussion post (fun _ => "12:00:00")
      (fun _ => "0.00") ∅ ∅ s = Deliberation.Done v s'
    /\ Deliberation.grade v = "B"
    /\ Deliberation.confidence_level v = 85
    /\ exists consensus_prompt,
         Deliberation.final_consensus v
         = Deliberation.reply_value
             (post (Deliberation.requests_sent s + 6)%nat coordinator_model
                consensus_prompt).
Proof.
  intros post s.
  refine (proj1 (silent_server_default_grade post
                   (fun _ => "12:00:00") (fun _ => "") (fun _ => "0.00")
                   ∅ ∅ ∅ s _)).
  intros n model_name prompt. left. by exists 503.
Defined.

(** ** Questions passed on to a model *)

Section DialogueFacts.

Import ContextCache Deliberation Dialogue.

Context {V L : Type}.

Variable post : nat -> string -> string -> reply.
Variable strftime_now : nat -> string.
Variable _format_context_for_ai : @context V L -> result string.

(** X19.  A request for an explanation is never answered with an explanation.
    Its handler calls the model with the key [analyzer], which is not a key of
    [self.agents]: once a company is chosen and analysed, and the context is
    formatted, the call raises [KeyError] before any request is sent, and the
    state of the engine is unchanged.  In the other cases the handler asks for
    a company or for an analysis. *)
Theorem explanation_query_raises_key_error (current_company : option string)
    (cache : @engine V L) (user_input : string) (s : state) :
  (forall company explanation message s',
     _handle_explanation_query post _format_context_for_ai
       current_company cache user_input s
     ≠ Done (detailed_explanation company explanation message) s')
  /\ (forall company context formatted,
        chosen current_company = Some company ->
        get_analysis_context cache company = Some context ->
        _format_context_for_ai context = Ok formatted ->
        _handle_explanation_query post _format_context_for_ai
          current_company cache user_input s
        = Fails (KeyError "analyzer") s)
  /\ (chosen current_company = None ->
      _handle_explanation_query post _format_context_for_ai
        current_company cache user_input s
      = Done (error_response "먼저 분석할 회사를 지정해주세요.") s)
  /\ (forall company,
        chosen current_company = Some company ->
        get_analysis_context cache company = None ->
        _handle_explanation_query post _format_context_for_ai
          current_company cache user_input s
        = Done (analysis_needed (company +:+ "의 분석을 먼저 진행해주세요.")) s).
Proof.
  assert (forall prompt k,
    (explanation ← call_ollama post "analyzer" prompt;
     k explanation : M response) s
    = Fails (KeyError "analyzer") s) as Hcall.
  { intros prompt k. unfold call_ollama, mbind, M_bind.
    rewrite agents_item_unknown; [done |].
    apply (bool_decide_unpack _). by vm_compute. }
  split; [|split; [|split]].
  - intros company explanation message s'. unfold _handle_explanation_query.
    destruct (chosen current_company) as [c|]; [|done].
    destruct (get_analysis_context cache c) as [context|]; [|done].
    destruct (_format_context_for_ai context) as [formatted | e]; [|done].
    by rewrite Hcall.
  - intros company context formatted Hcompany Hcontext Hformatted.
    unfold _handle_explanation_query.
    by rewrite Hcompany, Hcontext, Hformatted, Hcall.
  - intros Hnone. unfold _handle_explanation_query. by rewrite Hnone.
  - intros company Hcompany Hcontext. unfold _handle_explanation_query.
    by rewrite Hcompany, Hcontext.
Qed.

(** X20.  A general question always gets an answer.  Its handler sends one
    request for the model of the coordinator and returns the value of the
    reply as the message, of whatever type: a failure of the request is not
    raised, its description is given to the user as the answer.  The
    discussion log is not touched. *)
Theorem general_query_always_answers (current_company : option string)
    (user_input : string) (s : state) :
  exists general_prompt s',
    _handle_general_query post current_company user_input s
    = Done (general_response
              (reply_value (post (requests_sent s) coordinator_model general_prompt))
              (_generate_followup_suggestions current_company)) s'
    /\ discussed post strftime_now s s' 1 []
    /\ current_loaded_model s' = Some coordinator_model.
Proof.
  unfold _handle_general_query. set (general_prompt := join newline _).
  unfold mbind, M_bind.
  rewrite (call_ollama_run post "coordinator" _ _ _ ltac:(left)).
  eexists general_prompt, _. split; [reflexivity |]. split; [|done].
  split; [cbn; lia |]. split; [cbn; lia |]. exists [].
  split; [by rewrite app_nil_r | done].
Qed.

End DialogueFacts.

(** A question about an analysed company: the handler raises. *)
Lemma explanation_query_raises_key_error_witness :
  let cache :=
    ContextCache.save_analysis_context 0%nat 10 "삼성전자" {["ratios" := 7%nat]}
      {| ContextCache.conversation_memory := ∅;
         ContextCache.discussion_log := [1%nat] |} in
  let s := {| Deliberation.current_loaded_model := None;
              Deliberation.discussion_log := [];
              Deliberation.requests_sent := 0;
              Deliberation.clock_reads := 0 |} in
  Dialogue._handle_explanation_query
    (fun _ _ _ => Deliberation.status_200 (Some (Deliberation.JString "설명")))
    (fun _ => Ok "ROE: 20.00")
    (Some "삼성전자") cache "왜 그렇게 평가했어?" s
  = Deliberation.Fails (Deliberation.KeyError "analyzer") s.
Proof.
  intros cache s.
  apply (proj1 (proj2 (explanation_query_raises_key_error
                  (fun _ _ _ => Deliberation.status_200
                                  (Some (Deliberation.JString "설명")))
                  (fun _ => Ok "ROE: 20.00")
                  (Some "삼성전자") cache "왜 그렇게 평가했어?" s))
           "삼성전자" _ "ROE: 20.00" eq_refl ltac:(vm_compute; reflexivity) eq_refl).
Defined.

(** * Worked examples *)

(** The model's division agrees with the Standard Library's [SFdiv] on
    operands that are exact as floats. *)
Example truediv_1_3 :
  int_truediv 1 3
  = Ok (SFdiv 53 1024 (S754_finite false 4503599627370496 (-52))
                      (S754_finite false 6755399441055744 (-51))).
Proof. vm_compute. reflexivity. Qed.

(** [7 / 100 * 100] is [7.000000000000001], not [7.0]. *)
Example percentage_7_100 :
  safe_percentage 7 100 = Ok (PyFloat (S754_finite false 7881299347898369 (-50))).
Proof. vm_compute. reflexivity. Qed.

(** [10 ** 400 / 1] raises [OverflowError]. *)
Example truediv_overflow : int_truediv (10 ^ 400) 1 = Raise OverflowError.
Proof. vm_compute. reflexivity. Qed.

Example classify_report : _classify_query_type "보고서" = "report_query".
Proof. vm_compute. reflexivity. Qed.

(** A tie between two categories goes to the one registered first. *)
Example classify_tie : _classify_query_type "비율 차트" = "ratio_query".
Proof. vm_compute. reflexivity. Qed.

Example classify_no_keyword : _classify_query_type "안녕하세요" = "general_query".
Proof. vm_compute. reflexivity. Qed.

Example extract_first_of_two :
  _extract_grade_from_consensus "등급:A 이지만 일부는 S등급" = "S".
Proof. vm_compute. reflexivity. Qed.

Example strip_ideographic_space : strip "　 매출액 [주석] " = "매출액 [주석]".
Proof. vm_compute. reflexivity. Qed.

Example clean_label :
  clean_account_nm (line_item "재무상태표" " 자본총계 [연결] (주1)" "1,000")
  = "자본총계".
Proof. vm_compute. reflexivity. Qed.

Example parse_example :
  parse_financial_statements float_of_decimal
    [ line_item "손익계산서" "수익(매출액)" "1,234";
      line_item "재무상태표" " 자본총계 [연결]" "-77.9";
      line_item "현금흐름표" "당기순이익" "5";
      line_item "손익계산서" "당기순이익" "-" ]
  = {[ "revenue" := 1234; "total_equity" := -77 ]}.
Proof. vm_compute. reflexivity. Qed.

(** The cash-flow parser: thousands separators are removed; an amount with
    a decimal point or with two minus signs reads as 0 and replaces the
    amount of an earlier line; a section name with a trailing blank is not
    the cash-flow statement. *)
Example parse_cash_flow_example :
  parse_cash_flow_data isdigit_ascii int_of_ascii
    [ line_item "현금흐름표" " 영업활동현금흐름 " "1,234";
      line_item "현금흐름표" "투자활동현금흐름" "-5,000";
      line_item "현금흐름표" "재무활동현금흐름" "12.5";
      line_item "현금흐름표 " "투자활동현금흐름" "999";
      line_item "현금흐름표" "I. 영업활동으로인한현금흐름" "--3" ]
  = {[ "operating_cash_flow" := 0; "investing_cash_flow" := -5000;
       "financing_cash_flow" := 0 ]}.
Proof. vm_compute. reflexivity. Qed.

(** High receivables alone: the score is 25, the level LOW, and the
    explanation finds nothing. *)
Example fraud_explanation_score_25 :
  (indicators ← _calculate_basic_fraud_indicators
                  {[ "revenue" := 100; "net_income" := 10;
                     "accounts_receivable" := 30 ]}
                  {[ "operating_cash_flow" := 10 ]};
   Ok (indicators !! "종합_부정위험점수",
       _generate_fraud_explanation (fun _ => "") indicators))
  = Ok (Some (PyInt 25),
        "종합 부정 위험 점수: 25점 (LOW 위험)" +:+ newline +:+ newline
        +:+ "특별한 부정 위험 징후는 발견되지 않았습니다.").
Proof. vm_compute. reflexivity. Qed.

Example report_type_priority :
  _determine_report_type "PDF 말고 Excel 로" = "excel"
  /\ _determine_report_type "보고서 만들어줘" = "comprehensive".
Proof. vm_compute. split; reflexivity. Qed.

Example requested_ratios_in_table_order :
  _extract_requested_ratios "부채비율과 ROE" = ["ROE"; "부채비율"].
Proof. vm_compute. reflexivity. Qed.

(** Slices count code points, not bytes. *)
Example cp_take_hangul : cp_take 2 "가나다" = "가나".
Proof. vm_compute. reflexivity. Qed.

(** A label that holds the names of two fields is filed under the first
    of them in table order. *)
Example cash_flow_label_with_two_names :
  parse_cash_flow_data isdigit_ascii int_of_ascii
    [ line_item "현금흐름표" "투자활동현금흐름 및 영업활동현금흐름" "10" ]
  = {[ "operating_cash_flow" := 10 ]}.
Proof. vm_compute. reflexivity. Qed.
